(** * mini_modelvault: request routing and streaming dispatch

    A shallow embedding of the routing core of mini_modelvault
    ([router/router.py], [services/inference_service.py],
    [utils/image_handler.py]) together with the properties its
    specification states about it.

    Python strings are modelled by [string]; a character stands for the
    code point of the same number (0-255), and the character classes used
    below ([str.lower], [str.isspace], the [\w] class of [re]) are the ones
    Python assigns to those code points. A literal of the sources outside
    that range stands as its UTF-8 bytes. Effects are explicit: a
    computation returns a value or an exception together with the trace of
    what it logged, printed and called; generators are state machines with
    their [next] and [close]. *)

From Stdlib Require Import Ascii NArith Bool.
From stdpp Require Import base option list strings gmap.

Local Open Scope N_scope.

(** ** The Python runtime the sources rely on *)
Module Py.

Definition code (c : ascii) : N := N_of_ascii c.

Definition between (lo hi : N) (c : ascii) : bool :=
  (lo <=? code c) && (code c <=? hi).

(** Characters that [str.lower] changes: A-Z, and the capital letters of
    the Latin-1 block (all of 192-222 but the multiplication sign). *)
Definition isupper (c : ascii) : bool :=
  between 65 90 c || (between 192 222 c && negb (code c =? 215)).

Definition lower_char (c : ascii) : ascii :=
  if isupper c then ascii_of_N (code c + 32) else c.

(** [str.lower] *)
Fixpoint lower (s : string) : string :=
  match s with
  | EmptyString => EmptyString
  | String c s' => String (lower_char c) (lower s')
  end.

(** [str.isspace] on one character: tab, line feed, vertical tab, form
    feed, carriage return, the four separators 28-31, space, NEL and the
    no-break space. *)
Definition isspace (c : ascii) : bool :=
  between 9 13 c || between 28 32 c || (code c =? 133) || (code c =? 160).

Fixpoint lstrip (s : string) : string :=
  match s with
  | EmptyString => EmptyString
  | String c s' => if isspace c then lstrip s' else s
  end.

Fixpoint rstrip (s : string) : string :=
  match s with
  | EmptyString => EmptyString
  | String c s' =>
      match rstrip s' with
      | EmptyString => if isspace c then EmptyString else String c EmptyString
      | r => String c r
      end
  end.

(** [str.strip()] without argument *)
Definition strip (s : string) : string := rstrip (lstrip s).

(** Truth value of an [Optional[str]]: [None] and [''] are false. *)
Definition truthy (o : option string) : bool :=
  match o with
  | None | Some EmptyString => false
  | Some _ => true
  end.

(** [f"{x}"] for an [Optional[str]] *)
Definition fmt_opt (o : option string) : string :=
  match o with None => "None" | Some s => s end.

(** *** The fragment of [re] the sources use *)

(** The class [\w] on str patterns: letters, digits (also the superscript
    digits and the vulgar fractions of Latin-1) and the underscore. *)
Definition isword (c : ascii) : bool :=
  between 48 57 c || between 65 90 c || between 97 122 c || (code c =? 95)
  || (code c =? 170) || (code c =? 178) || (code c =? 179) || (code c =? 181)
  || (code c =? 185) || (code c =? 186) || between 188 190 c
  || between 192 214 c || between 216 246 c || between 248 255 c.

Definition isword_opt (o : option ascii) : bool :=
  match o with Some c => isword c | None => false end.

(** [\b] holds between [prev] and [next] (the characters on both sides of
    the position, [None] outside the string) when exactly one of them is
    a word character. *)
Definition boundary (prev next : option ascii) : bool :=
  xorb (isword_opt prev) (isword_opt next).

Definition head (s : string) : option ascii :=
  match s with EmptyString => None | String c _ => Some c end.

(** The last character of [prev :: w] *)
Fixpoint last_of (prev : option ascii) (w : string) : option ascii :=
  match w with
  | EmptyString => prev
  | String c w' => last_of (Some c) w'
  end.

(** [Some rest] when [s = p ++ rest] *)
Fixpoint skip_prefix (p s : string) : option string :=
  match p, s with
  | EmptyString, _ => Some s
  | String a p', String b s' =>
      if Ascii.eqb a b then skip_prefix p' s' else None
  | String _ _, EmptyString => None
  end.

(** A literal alternation between two [\b], tried at one position: the
    alternatives are tried in order and the first one that is followed by
    a boundary wins. *)
Definition alt_here (words : list string) (prev : option ascii) (s : string)
  : option string :=
  if boundary prev (head s) then
    List.find (fun w => match skip_prefix w s with
                        | Some rest => boundary (last_of prev w) (head rest)
                        | None => false
                        end) words
  else None.

(** [re.search(r'\b(w1|...|wn)\b', s).group(1)]: the leftmost position at
    which the pattern matches; [prev] is the character before [s]. *)
Fixpoint search_from (words : list string) (prev : option ascii) (s : string)
  : option string :=
  match alt_here words prev s with
  | Some w => Some w
  | None =>
      match s with
      | EmptyString => None
      | String c s' => search_from words (Some c) s'
      end
  end.

Definition search_words (words : list string) (s : string) : option string :=
  search_from words None s.

(** *** [base64.b64encode] *)

Definition b64_alphabet : string :=
  "ABCDEFGHIJKLMNOPQRSTUVWXYZabcdefghijklmnopqrstuvwxyz0123456789+/".

Definition b64_digit (n : N) : ascii :=
  match String.get (N.to_nat (n mod 64)) b64_alphabet with
  | Some c => c
  | None => "="%char
  end.

(** Three bytes give four digits; a last group of one or two bytes is
    padded with [=]. *)
Fixpoint b64encode (bs : list Byte.byte) : string :=
  match bs with
  | [] => EmptyString
  | [a] =>
      let n := Byte.to_N a * 65536 in
      String (b64_digit (n / 262144)) (String (b64_digit (n / 4096)) "==")
  | [a; b] =>
      let n := Byte.to_N a * 65536 + Byte.to_N b * 256 in
      String (b64_digit (n / 262144)) (String (b64_digit (n / 4096))
        (String (b64_digit (n / 64)) "="))
  | a :: b :: c :: rest =>
      let n := Byte.to_N a * 65536 + Byte.to_N b * 256 + Byte.to_N c in
      String (b64_digit (n / 262144)) (String (b64_digit (n / 4096))
        (String (b64_digit (n / 64)) (String (b64_digit n) (b64encode rest))))
  end.

(** The line feed of an f-string *)
Definition nl : string := String (ascii_of_N 10) EmptyString.

(** *** The pattern [<image>(.*?)<image>] *)

Definition TAG : string := "<image>".

(** [(.*?)<image>] at the beginning of [s]: the closing tag is tried
    first, and one more character that is not a line feed is taken only
    when it fails. The result is group 1 and what follows the match. *)
Fixpoint lazy_body (s : string) : option (string * string) :=
  match skip_prefix TAG s with
  | Some rest => Some (EmptyString, rest)
  | None =>
      match s with
      | EmptyString => None
      | String c s' =>
          if code c =? 10 then None
          else match lazy_body s' with
               | Some (g, rest) => Some (String c g, rest)
               | None => None
               end
      end
  end.

Definition tag_here (s : string) : option (string * string) :=
  match skip_prefix TAG s with
  | Some body => lazy_body body
  | None => None
  end.

(** [re.search(r"<image>(.*?)<image>", s)]: where the leftmost match
    starts (counted from [start]) and its group 1. *)
Fixpoint search_tag_from (start : nat) (s : string) : option (nat * string) :=
  match tag_here s with
  | Some (g, _) => Some (start, g)
  | None =>
      match s with
      | EmptyString => None
      | String _ s' => search_tag_from (S start) s'
      end
  end.

Definition search_tag (s : string) : option (nat * string) :=
  search_tag_from 0 s.

(** [re.sub(r"<image>.*?<image>", "", s)]: every match is dropped, from
    left to right. [skip] counts the characters of the current match that
    are still to be dropped; a match is 14 characters and its group long. *)
Fixpoint sub_tag_skip (skip : nat) (s : string) : string :=
  match s with
  | EmptyString => EmptyString
  | String c s' =>
      match skip with
      | S k => sub_tag_skip k s'
      | O =>
          match tag_here s with
          | Some (g, _) => sub_tag_skip (13 + String.length g) s'
          | None => String c (sub_tag_skip 0 s')
          end
      end
  end.

Definition sub_tag (s : string) : string := sub_tag_skip 0 s.

(** *** [os.path] *)

Definition SEP : ascii := "/"%char.

(** [os.path.basename]: what follows the last slash *)
Fixpoint basename_from (acc s : string) : string :=
  match s with
  | EmptyString => acc
  | String c s' =>
      if Ascii.eqb c SEP then basename_from EmptyString s'
      else basename_from (acc +:+ String c EmptyString) s'
  end.

Definition basename (p : string) : string := basename_from EmptyString p.

(** [os.path.join(a, b)] *)
Definition join (a b : string) : string :=
  match b with
  | String c _ =>
      if Ascii.eqb c SEP then b
      else match last_of None a with
           | None => b
           | Some l => if Ascii.eqb l SEP then a +:+ b
                       else a +:+ String SEP b
           end
  | EmptyString =>
      match last_of None a with
      | None => b
      | Some l => if Ascii.eqb l SEP then a else a +:+ String SEP EmptyString
      end
  end.

End Py.

(** ** Effects: exceptions and the observable trace *)

(** A Python exception: its class and what [str(e)] prints. *)
Record exn := Exn { exn_class : string; exn_str : string }.

Inductive part :=
| text_part (text : string)
| image_url_part (url : string).

(** [HumanMessage(content=...)]: plain text, or a list of parts. *)
Inductive HumanMessage :=
| HumanText (content : string)
| HumanParts (content : list part).

(** The attribute of the router through which a client is reached. *)
Inductive binding := B_general | B_coding | B_vision | B_router_model.

Inductive level := DEBUG | INFO | WARNING | ERROR.

(** The dictionary [log_obj] of the inference service. *)
Record log_obj := LogObj {
  lo_model_type : string;
  lo_input_text : string;
  lo_image_path : option string;
  lo_response : string
}.

(** What is handed to the logger: an f-string, or [json.dumps(log_obj)]. *)
Inductive payload :=
| Text (s : string)
| Json (o : log_obj).

Inductive event :=
| Log (l : level) (p : payload)
| Print (s : string)
| Invoke (b : binding) (model : string) (messages : list HumanMessage)
| Stream (b : binding) (model : string) (messages : list HumanMessage)
| MakeDirs (path : string)
| Copy (src dst : string).

Definition trace := list event.

(** A computation either raises or returns, and leaves a trace. *)
Definition M (A : Type) : Type := (exn + A) * trace.

Definition ret {A} (a : A) : M A := (inr a, []).
Definition raise {A} (e : exn) : M A := (inl e, []).
Definition emit (ev : event) : M unit := (inr tt, [ev]).

Definition bind {A B} (m : M A) (k : A -> M B) : M B :=
  match m with
  | (inl e, t) => (inl e, t)
  | (inr a, t) => let '(r, t') := k a in (r, t ++ t')
  end.

(** [try: m except Exception as e: h e] *)
Definition try_except {A} (m : M A) (h : exn -> M A) : M A :=
  match m with
  | (inl e, t) => let '(r, t') := h e in (r, t ++ t')
  | ok => ok
  end.

Declare Scope py_scope.
Delimit Scope py_scope with py.
Notation "x <- m ;; k" := (bind m (fun x => k))
  (at level 100, m at next level, right associativity) : py_scope.
Notation "m ;; k" := (bind m (fun _ => k))
  (at level 100, right associativity) : py_scope.
Local Open Scope py_scope.

(** [except Exception as e: log(e); raise] *)
Definition reraising {A} (m : M A) (log : exn -> M unit) : M A :=
  try_except m (fun e => log e ;; raise e).

Definition of_result {A} (r : exn + A) : M A := (r, []).

Definition logger_debug (s : string) : M unit := emit (Log DEBUG (Text s)).
Definition logger_info (s : string) : M unit := emit (Log INFO (Text s)).
Definition logger_warning (s : string) : M unit := emit (Log WARNING (Text s)).
Definition logger_error (s : string) : M unit := emit (Log ERROR (Text s)).

(** [d[k]] *)
Definition getitem (d : gmap string string) (k : string) : M string :=
  match d !! k with
  | Some v => ret v
  | None => raise (Exn "KeyError" ("'" +:+ k +:+ "'"))
  end.

(** ** The collaborators outside the repository *)

(** One fragment of a backend stream: an object with a [content]
    attribute (and its own [str]), or a bare string. *)
Inductive chunk :=
| Obj (content : string) (repr : string)
| Raw (s : string).

Definition chunk_str (c : chunk) : string :=
  match c with Obj _ r => r | Raw s => s end.

(** What a backend stream will deliver: its fragments, then completion or
    an error. *)
Record script := Script { fragments : list chunk; failure : option exn }.

Record World := {
  (** [open(path, "rb").read()] *)
  read_bytes : string -> exn + list Byte.byte;
  (** [ChatOllama(model=name)] may refuse a name *)
  chat_init : string -> option exn;
  (** [client.invoke(messages)], as text *)
  chat_invoke : string -> list HumanMessage -> exn + string;
  (** [client.stream(messages)] *)
  chat_stream : string -> list HumanMessage -> exn + script;
  (** [os.path.isfile], [os.path.abspath] *)
  isfile : string -> bool;
  abspath : string -> string;
  (** [os.makedirs(path, exist_ok=True)], [shutil.copy(src, dst)] *)
  makedirs_fails : string -> option exn;
  copy_fails : string -> string -> option exn;
  (** [str(m)] of the match object that starts at [start] and whose group
      1 is [group]: [<re.Match object; span=..., match=...>] *)
  match_str : nat -> string -> string
}.

(** ** router/router.py *)

Record ChatOllama := { model : string }.

Record ModelRouter := {
  general : ChatOllama;
  coding : ChatOllama;
  vision : ChatOllama;
  router_model : ChatOllama
}.

Definition client_of (self : ModelRouter) (b : binding) : ChatOllama :=
  match b with
  | B_general => general self
  | B_coding => coding self
  | B_vision => vision self
  | B_router_model => router_model self
  end.

Definition DEFAULTS : gmap string string :=
  <["MODEL_GENERAL" := "llama3.2:3b"]>
    (<["MODEL_CODING" := "qwen2.5-coder:3b"]>
       (<["MODEL_VISION" := "llava-phi3"]> ∅)).

(** The words of the classifier's pattern, in the order of the alternation *)
Definition LABELS : list string := ["general"; "coding"; "vision"].

(** The label that [_classify] reads off the reply of the router model *)
Definition classify_label (result : string) : string :=
  match Py.search_words LABELS (Py.lower result) with
  | Some label => label
  | None => Py.lower (Py.strip result)
  end.

Definition classify_prompt (input_text : string) : string :=
  "Classify the following input into one of: general, coding, vision:"
    +:+ Py.nl +:+ input_text.

Definition image_url (image_base64 : string) : string :=
  "data:image/png;base64," +:+ image_base64.

Definition vision_message (text image_base64 : string) : HumanMessage :=
  HumanParts [text_part text; image_url_part (image_url image_base64)].

(** [stream_with_type]: the generator wrapped around the backend stream.
    [bs_rest] and [bs_failure] are what the backend iterator still holds,
    [bs_done] tells that it has finished (exhausted, failed or closed). *)
Record bstream := BStream {
  bs_rest : list chunk;
  bs_failure : option exn;
  bs_done : bool
}.

Inductive outcome (V : Type) :=
| Yield (v : V)
| StopIteration
| Raised (e : exn).
Arguments Yield {V} v.
Arguments StopIteration {V}.
Arguments Raised {V} e.

(** [next(stream)] on the backend iterator *)
Definition bs_next (s : bstream) : outcome chunk * bstream :=
  if bs_done s then (StopIteration, s)
  else match bs_rest s with
       | c :: rest => (Yield c, BStream rest (bs_failure s) false)
       | [] =>
           match bs_failure s with
           | Some e => (Raised e, BStream [] None true)
           | None => (StopIteration, BStream [] None true)
           end
       end.

(** [stream.close()] on the backend iterator *)
Definition bs_close (s : bstream) : bstream :=
  BStream (bs_rest s) (bs_failure s) true.

Inductive gen_status := Created | Suspended | Finished.

Record stream_with_type := SWT {
  swt_status : gen_status;
  swt_stream : bstream
}.

(** [chunk.content if hasattr(chunk, "content") else chunk] *)
Definition chunk_content (c : chunk) : string :=
  match c with Obj content _ => content | Raw s => s end.

(** One [next()] on the generator: the [for] statement asks the backend
    iterator for its next chunk, logs it and yields its content. *)
Definition swt_next (g : stream_with_type) : (outcome string * stream_with_type) * trace :=
  match swt_status g with
  | Finished => ((StopIteration, g), [])
  | Created | Suspended =>
      match bs_next (swt_stream g) with
      | (Yield c, s') =>
          ((Yield (chunk_content c), SWT Suspended s'),
           [Log DEBUG (Text ("Stream chunk: " +:+ chunk_str c))])
      | (StopIteration, s') => ((StopIteration, SWT Finished s'), [])
      | (Raised e, s') => ((Raised e, SWT Finished s'), [])
      end
  end.

(** [close()] on the generator: [GeneratorExit] is raised at the [yield];
    the body has no [try]/[finally] and no [with], so the generator just
    finishes. The [for] statement never closes its iterator. *)
Definition swt_close (g : stream_with_type) : stream_with_type :=
  SWT Finished (swt_stream g).

Section Router.
Context (w : World).

(** [ChatOllama(model=name)] *)
Definition ChatOllama_new (name : string) : M ChatOllama :=
  match chat_init w name with
  | Some e => raise e
  | None => ret {| model := name |}
  end.

(** [self.<b>.invoke(messages)]; for [router_model] this is
    [router_chain.invoke], the client piped into [StrOutputParser]. *)
Definition invoke (self : ModelRouter) (b : binding) (messages : list HumanMessage)
  : M string :=
  emit (Invoke b (model (client_of self b)) messages) ;;
  of_result (chat_invoke w (model (client_of self b)) messages).

(** [self.<b>.stream(messages)] *)
Definition stream (self : ModelRouter) (b : binding) (messages : list HumanMessage)
  : M bstream :=
  emit (Stream b (model (client_of self b)) messages) ;;
  sc <- of_result (chat_stream w (model (client_of self b)) messages) ;;
  ret (BStream (fragments sc) (failure sc) false).

(** [ModelRouter._load_models], called by [__init__]. The
    [RunnableBranch] it also builds is never used by [route] or
    [stream_route] and is left out. *)
Definition _load_models (cfg : gmap string string) : M ModelRouter :=
  d_general <- getitem DEFAULTS "MODEL_GENERAL" ;;
  let general_model := default d_general (cfg !! "MODEL_GENERAL") in
  d_coding <- getitem DEFAULTS "MODEL_CODING" ;;
  let coding_model := default d_coding (cfg !! "MODEL_CODING") in
  d_vision <- getitem DEFAULTS "MODEL_VISION" ;;
  let vision_model := default d_vision (cfg !! "MODEL_VISION") in
  clients <- reraising
    (g <- ChatOllama_new general_model ;;
     c <- ChatOllama_new coding_model ;;
     v <- ChatOllama_new vision_model ;;
     logger_info ("Models loaded: general=" +:+ general_model +:+ ", coding="
                  +:+ coding_model +:+ ", vision=" +:+ vision_model +:+ ".") ;;
     ret (g, c, v))
    (fun e => logger_error ("Failed to load models: " +:+ exn_str e)) ;;
  let '(g, c, v) := clients in
  name <- getitem cfg "MODEL_GENERAL" ;;
  r <- ChatOllama_new name ;;
  ret {| general := g; coding := c; vision := v; router_model := r |}.

Definition ModelRouter_init (cfg : gmap string string) : M ModelRouter :=
  _load_models cfg.

(** [ModelRouter._classify] *)
Definition _classify (self : ModelRouter) (input_text : string) : M string :=
  logger_debug ("Classifying input: " +:+ input_text) ;;
  result <- invoke self B_router_model [HumanText (classify_prompt input_text)] ;;
  match Py.search_words LABELS (Py.lower result) with
  | Some label =>
      logger_info ("Input classified as: " +:+ label) ;;
      ret label
  | None =>
      logger_warning ("Classifier returned unexpected result: " +:+ result) ;;
      ret (Py.lower (Py.strip result))
  end.

(** [ModelRouter.encode_image_to_base64] *)
Definition encode_image_to_base64 (image_path : string) : M string :=
  reraising
    (bytes <- of_result (read_bytes w image_path) ;;
     let encoded := Py.b64encode bytes in
     logger_debug ("Encoded image " +:+ image_path +:+ " to base64.") ;;
     ret encoded)
    (fun e => logger_error ("Failed to encode image " +:+ image_path +:+ ": "
                            +:+ exn_str e)).

(** [ModelRouter.route]. The dictionary [payload] that the method fills
    is never read and is left out. *)
Definition route (self : ModelRouter) (text : string) (image_path : option string)
  : M (string * string) :=
  if Py.truthy image_path then
    let path := default "" image_path in
    logger_info ("Image input detected: " +:+ path) ;;
    reraising
      (image_base64 <- encode_image_to_base64 path ;;
       let message := vision_message text image_base64 in
       result <- invoke self B_vision [message] ;;
       logger_info "Vision model invoked successfully." ;;
       ret ("vision", result))
      (fun e => logger_error ("Vision model invocation failed: " +:+ exn_str e))
  else
    logger_info ("Text input: " +:+ text) ;;
    reraising
      (let message := HumanText text in
       label <- _classify self text ;;
       let '(b, model_type) :=
         if String.eqb label "coding" then (B_coding, "coding")
         else (B_general, "general") in
       result <- invoke self b [message] ;;
       logger_info ("Model '" +:+ model_type +:+ "' invoked successfully.") ;;
       ret (model_type, result))
      (fun e => logger_error ("Text model invocation failed: " +:+ exn_str e)).

(** [ModelRouter.stream_route]: the label, and the generator
    [stream_with_type()] not yet started. *)
Definition stream_route (self : ModelRouter) (text : string)
    (image_path : option string) : M (string * stream_with_type) :=
  r <- (if Py.truthy image_path then
          let path := default "" image_path in
          logger_info ("Image input detected: " +:+ path) ;;
          reraising
            (image_base64 <- encode_image_to_base64 path ;;
             let message := vision_message text image_base64 in
             s <- stream self B_vision [message] ;;
             logger_info "Vision model streaming started." ;;
             ret ("vision", s))
            (fun e => logger_error ("Vision model streaming failed: " +:+ exn_str e))
        else
          logger_info ("Text input: " +:+ text) ;;
          reraising
            (let message := HumanText text in
             label <- _classify self text ;;
             let '(b, model_type) :=
         if String.eqb label "coding" then (B_coding, "coding")
         else (B_general, "general") in
             s <- stream self b [message] ;;
             logger_info ("Model '" +:+ model_type +:+ "' streaming started.") ;;
             ret (model_type, s))
            (fun e => logger_error ("Text model streaming failed: " +:+ exn_str e))) ;;
  let '(model_type, s) := r in
  ret (model_type, SWT Created s).

End Router.

(** ** services/inference_service.py *)

Record InferenceService := { router : ModelRouter }.

(** The generator object that [run_stream] returns: not started, suspended
    at its [yield] inside the loop, or finished. *)
Inductive run_stream_gen :=
| RS_created (text : string) (image_path : option string)
| RS_suspended (model_type text : string) (image_path : option string)
               (stream : stream_with_type) (chunks : list string)
| RS_finished.

(** A consumer of a generator *)
Inductive ending :=
| Pending            (* the consumer has stopped asking *)
| Exhausted          (* [StopIteration] was seen *)
| Failed (e : exn).  (* an exception came out of [next] *)

Section Consumer.
Context {G V : Type} (next : G -> (outcome V * G) * trace).

(** At most [n] items are asked for, one [next] at a time, as a [for]
    loop that breaks after [n] items does; with [n] large enough this is
    the whole [for] loop. *)
Fixpoint pull (n : nat) (g : G) : (list V * ending * G) * trace :=
  match n with
  | O => (([], Pending, g), [])
  | S n' =>
      match next g with
      | ((Yield v, g'), t) =>
          let '((vs, e, g''), t') := pull n' g' in
          ((v :: vs, e, g''), t ++ t')
      | ((StopIteration, g'), t) => (([], Exhausted, g'), t)
      | ((Raised e, g'), t) => (([], Failed e, g'), t)
      end
  end.
End Consumer.

(** [''.join(str(c) for c in chunks)] *)
Definition join_chunks (chunks : list string) : string :=
  String.concat "" chunks.

Section Service.
Context (w : World).

(** One turn of the [for] loop of [run_stream], from its head to the next
    [yield], to the end of the body, or to the handler. *)
Definition run_stream_loop (model_type text : string) (image_path : option string)
    (stream : stream_with_type) (chunks : list string)
  : (outcome string * run_stream_gen) * trace :=
  match swt_next stream with
  | ((Yield chunk, stream'), t) =>
      ((Yield chunk,
        RS_suspended model_type text image_path stream' (chunks ++ [chunk])),
       t ++ [Log DEBUG (Text ("Streamed chunk: " +:+ chunk))])
  | ((StopIteration, _), t) =>
      let full_response := join_chunks chunks in
      let log_obj := LogObj model_type text image_path full_response in
      ((StopIteration, RS_finished), t ++ [Log INFO (Json log_obj)])
  | ((Raised e, _), t) =>
      ((Raised e, RS_finished),
       t ++ [Log ERROR (Text ("Stream inference failed: " +:+ exn_str e))])
  end.

(** [next()] on the generator of [InferenceService.run_stream] *)
Definition run_stream_next (self : InferenceService) (g : run_stream_gen)
  : (outcome string * run_stream_gen) * trace :=
  match g with
  | RS_created text image_path =>
      let t0 := [Log INFO (Text ("Running stream inference. Text: " +:+ text
                                 +:+ ", Image: " +:+ Py.fmt_opt image_path))] in
      match stream_route w (router self) text image_path with
      | (inr (model_type, stream), t) =>
          let '(r, t') := run_stream_loop model_type text image_path stream [] in
          (r, t0 ++ t ++ t')
      | (inl e, t) =>
          ((Raised e, RS_finished),
           t0 ++ t ++ [Log ERROR (Text ("Stream inference failed: " +:+ exn_str e))])
      end
  | RS_suspended model_type text image_path stream chunks =>
      run_stream_loop model_type text image_path stream chunks
  | RS_finished => ((StopIteration, RS_finished), [])
  end.

(** [close()] on that generator, which is also what happens to it when
    the consumer drops it: [GeneratorExit] is not an [Exception], so the
    handler does not run and nothing is logged. *)
Definition run_stream_close (g : run_stream_gen) : run_stream_gen := RS_finished.

(** [InferenceService.run_stream]: calling it only creates the generator. *)
Definition run_stream (self : InferenceService) (text : string)
    (image_path : option string) : run_stream_gen :=
  RS_created text image_path.

(** [InferenceService.run] *)
Definition run (self : InferenceService) (text : string)
    (image_path : option string) : M string :=
  logger_info ("Running inference. Text: " +:+ text +:+ ", Image: "
               +:+ Py.fmt_opt image_path) ;;
  reraising
    (r <- route w (router self) text image_path ;;
     let '(model_type, result) := r in
     let log_obj := LogObj model_type text image_path result in
     emit (Log INFO (Json log_obj)) ;;
     logger_info "Inference completed successfully." ;;
     ret result)
    (fun e => logger_error ("Inference failed: " +:+ exn_str e)).

End Service.

(** ** utils/image_handler.py *)

Section ImageHandler.
Context (w : World).

Definition makedirs (path : string) : M unit :=
  emit (MakeDirs path) ;;
  match makedirs_fails w path with Some e => raise e | None => ret tt end.

Definition copy (src dst : string) : M unit :=
  emit (Copy src dst) ;;
  match copy_fails w src dst with Some e => raise e | None => ret tt end.

(** The block that both branches of [handle_image] run for a file that
    exists; it gives [dest_path]. *)
Definition into_assets (image_path : string) : M string :=
  makedirs "assets" ;;
  let filename := Py.basename image_path in
  let dest_path := Py.join "assets" filename in
  (if negb (String.eqb (abspath w image_path) (abspath w dest_path)) then
     copy image_path dest_path ;;
     logger_info ("Copied image from " +:+ image_path +:+ " to " +:+ dest_path)
   else
     logger_info ("Skipped copying: '" +:+ image_path +:+ "' and '"
                  +:+ dest_path +:+ "' are the same file.")) ;;
  ret dest_path.

Definition not_found (image_path : string) : M unit :=
  logger_error ("Image file '" +:+ image_path +:+ "' not found.") ;;
  emit (Print (Py.nl +:+ "💥 Error: Image file '" +:+ image_path +:+ "' not found.")).

(** [handle_image(input_text, input_image, logger)] *)
Definition handle_image (input_text input_image : option string)
  : M (option string * option string) :=
  if negb (Py.truthy input_image) && Py.truthy input_text then
    let text := default "" input_text in
    let image_tag := Py.search_tag text in
    logger_debug ("Image tag found: "
                  +:+ match image_tag with
                      | Some (start, g) => match_str w start g
                      | None => "None"
                      end) ;;
    match image_tag with
    | Some (_, g) =>
        let image_path := Py.strip g in
        if isfile w image_path then
          dest_path <- into_assets image_path ;;
          ret (Some (Py.strip (Py.sub_tag text)), Some dest_path)
        else
          not_found image_path ;;
          ret (input_text, None)
    | None => ret (input_text, input_image)
    end
  else if Py.truthy input_image then
    let image_path := Py.strip (default "" input_image) in
    if isfile w image_path then
      dest_path <- into_assets image_path ;;
      ret (input_text, Some dest_path)
    else
      not_found image_path ;;
      ret (input_text, None)
  else ret (input_text, input_image).

End ImageHandler.

(** ** Observations on a trace *)

(** The clients called, in order *)
Definition call_of (ev : event) : option binding :=
  match ev with
  | Invoke b _ _ | Stream b _ _ => Some b
  | _ => None
  end.

Definition calls (t : trace) : list binding := omap call_of t.

(** The summary records, that is the entries that carry a [response] *)
Definition summary_of (ev : event) : option log_obj :=
  match ev with
  | Log _ (Json o) => Some o
  | _ => None
  end.

Definition summaries (t : trace) : list log_obj := omap summary_of t.

(** ** A sample world *)

(** What the sample backend answers, as the fragments of its stream *)
Definition sample_reply (messages : list HumanMessage) : list chunk :=
  match messages with
  | [HumanText t] =>
      if String.eqb t (classify_prompt "write a quicksort in Python")
      then [Raw "Coding."]
      else if String.eqb t (classify_prompt "what do you see")
      then [Raw "I would say: Vision"]
      else if String.prefix "Classify the following" t
      then [Raw "General"]
      else [Obj "Hel" "content='Hel'"; Raw "lo"]
  | _ => [Raw "a "; Raw "cat"]
  end.

Definition sample_world : World := {|
  read_bytes p :=
    if String.eqb p "cat.png" then inr [Byte.x4d; Byte.x61; Byte.x6e; Byte.x21]
    else inl (Exn "FileNotFoundError"
                ("[Errno 2] No such file or directory: '" +:+ p +:+ "'"));
  chat_init _ := None;
  chat_invoke _ messages :=
    inr (join_chunks (chunk_content <$> sample_reply messages));
  chat_stream _ messages := inr (Script (sample_reply messages) None);
  isfile p := String.eqb p "cat.png";
  abspath p := "/srv/" +:+ p;
  makedirs_fails _ := None;
  copy_fails _ _ := None;
  match_str _ g := "<re.Match object; match='<image>" +:+ g +:+ "<image>'>"
|}.

Definition sample_router : ModelRouter := {|
  general := {| model := "llama3.2:3b" |};
  coding := {| model := "qwen2.5-coder:3b" |};
  vision := {| model := "llava-phi3" |};
  router_model := {| model := "llama3.2:3b" |}
|}.

Definition sample_service : InferenceService := {| router := sample_router |}.

(** ** Notions the claims are stated with *)

(** The text a backend stream delivers when it is read to its end *)
Definition stream_text (sc : script) : exn + string :=
  match failure sc with
  | Some e => inl e
  | None => inr (join_chunks (chunk_content <$> fragments sc))
  end.

(** A deterministic backend: for a given model and messages, what
    [invoke] returns is what [stream] delivers piece by piece. *)
Definition deterministic (w : World) : Prop :=
  ∀ name messages,
    chat_invoke w name messages =
      match chat_stream w name messages with
      | inl e => inl e
      | inr sc => stream_text sc
      end.

(** How a backend stream ends for the one who reads it all *)
Definition ending_of (f : option exn) : ending :=
  match f with Some e => Failed e | None => Exhausted end.

(** The decision [route] and [stream_route] share: the client, the label
    and the messages. *)
Definition decision (w : World) (self : ModelRouter) (text : string)
    (image_path : option string) : exn + (binding * string * list HumanMessage) :=
  if Py.truthy image_path then
    match read_bytes w (default "" image_path) with
    | inl e => inl e
    | inr bytes => inr (B_vision, "vision", [vision_message text (Py.b64encode bytes)])
    end
  else
    match (_classify w self text).1 with
    | inl e => inl e
    | inr c =>
        inr (if String.eqb c "coding" then (B_coding, "coding", [HumanText text])
             else (B_general, "general", [HumanText text]))
    end.

(** The image a call of [handle_image] refers to: the explicit path when
    there is one, else the path in the first tag of the text. *)
Definition referenced_image (input_text input_image : option string)
  : option string :=
  if Py.truthy input_image then Some (Py.strip (default "" input_image))
  else if Py.truthy input_text then
    match Py.search_tag (default "" input_text) with
    | Some (_, g) => Some (Py.strip g)
    | None => None
    end
  else None.

(** ** The claims in the specification's words *)

(** "Whole-word match ... using word-boundary matching", as the
    specification words it: [w] stands in [s] after [k] characters, with
    no word character right before it (the character before [s] is [prev])
    and none right after it. *)
Definition occurs_from (prev : option ascii) (w s : string) (k : nat) : Prop :=
  ∃ pre post, s = pre +:+ w +:+ post ∧ String.length pre = k
    ∧ Py.isword_opt (Py.last_of prev pre) = false
    ∧ Py.isword_opt (Py.head post) = false.

Definition whole_word_at (w s : string) (k : nat) : Prop :=
  occurs_from None w s k.

(** [w] is the first whole-word match among the labels in [s]. *)
Definition first_whole_word (s w : string) : Prop :=
  w ∈ LABELS ∧ ∃ k, whole_word_at w s k
    ∧ ∀ j w', (j < k)%nat → w' ∈ LABELS → ¬ whole_word_at w' s j.

Definition no_whole_word (s : string) : Prop :=
  ∀ k w, w ∈ LABELS → ¬ whole_word_at w s k.

(** A string of white space only *)
Fixpoint all_space (s : string) : bool :=
  match s with
  | EmptyString => true
  | String c s' => Py.isspace c && all_space s'
  end.

(** The trace of reading the sample stream of "What is 2+2?" to its end *)
Definition sample_stream_trace : trace :=
  Eval vm_compute in
    (pull (run_stream_next sample_world sample_service) 3
       (run_stream sample_service "What is 2+2?" None)).2.

(** ** Any consumer of [run_stream] *)

(** What a consumer can do with the generator: ask for the next item, or
    close it (which is also what dropping it amounts to). *)
Inductive action := Next | Close.

(** The trace a consumer leaves that performs [acts] in order, whatever
    [next] answers. *)
Fixpoint drive (w : World) (svc : InferenceService) (acts : list action)
    (g : run_stream_gen) : run_stream_gen * trace :=
  match acts with
  | [] => (g, [])
  | Next :: acts' =>
      let '((_, g'), t) := run_stream_next w svc g in
      let '(g'', t') := drive w svc acts' g' in
      (g'', t ++ t')
  | Close :: acts' => drive w svc acts' (run_stream_close g)
  end.

(** ** router/router.py: the branch built by [_load_models] *)

(** The dictionary [payload] that [route] and [stream_route] fill; its
    values are strings. *)
Definition route_payload (text : string) (image_path : option string)
  : gmap string string :=
  let x := <["input" := text]> ∅ in
  if Py.truthy image_path
  then <["image_path" := default "" image_path]> x
  else x.

Section RouterBranch.
Context (w : World).

(** [ModelRouter._vision_invoke] *)
Definition _vision_invoke (self : ModelRouter) (x : gmap string string) : M string :=
  logger_info "Routing to vision model." ;;
  path <- getitem x "image_path" ;;
  image_base64 <- encode_image_to_base64 w path ;;
  text <- getitem x "input" ;;
  let message := vision_message text image_base64 in
  result <- invoke w self B_vision [message] ;;
  logger_debug ("Vision model result: " +:+ result) ;;
  ret result.

(** [ModelRouter._general_invoke] *)
Definition _general_invoke (self : ModelRouter) (x : gmap string string) : M string :=
  logger_info "Routing to general model." ;;
  text <- getitem x "input" ;;
  result <- invoke w self B_general [HumanText text] ;;
  logger_debug ("General model result: " +:+ result) ;;
  ret result.

(** [ModelRouter._coding_invoke] *)
Definition _coding_invoke (self : ModelRouter) (x : gmap string string) : M string :=
  logger_info "Routing to coding model." ;;
  text <- getitem x "input" ;;
  result <- invoke w self B_coding [HumanText text] ;;
  logger_debug ("Coding model result: " +:+ result) ;;
  ret result.

(** ["image_path" in x and x["image_path"] is not None], on a dictionary
    of strings *)
Definition has_image (x : gmap string string) : bool :=
  match x !! "image_path" with
  | Some _ => true
  | None => false
  end.

(** [self.router_branch.invoke(x)]: a [RunnableBranch] runs the first
    branch whose condition holds, and its default when none does. *)
Definition router_branch (self : ModelRouter) (x : gmap string string) : M string :=
  if has_image x then _vision_invoke self x
  else
    text <- getitem x "input" ;;
    label <- _classify w self text ;;
    if String.eqb label "coding" then _coding_invoke self x
    else _general_invoke self x.

End RouterBranch.

(** ** Reading a base64 text back

    What the receiver of the data URL does with it: the inverse of
    [base64.b64encode], which accepts the canonical alphabet and padding
    only. *)

(** The value of a digit of the alphabet *)
Definition b64_value (c : ascii) : option N :=
  let n := Py.code c in
  if Py.between 65 90 c then Some (n - 65)
  else if Py.between 97 122 c then Some (n - 71)
  else if Py.between 48 57 c then Some (n + 4)
  else if n =? 43 then Some 62
  else if n =? 47 then Some 63
  else None.

Definition byte_of_N (n : N) : Byte.byte :=
  match Byte.of_N (n mod 256) with Some b => b | None => Byte.x00 end.

Definition PAD : ascii := "="%char.

(** Four digits give three bytes; the last group may end in one or two
    [=]. Anything else is refused. *)
Fixpoint b64decode (s : string) : option (list Byte.byte) :=
  match s with
  | EmptyString => Some []
  | String c0 (String c1 (String c2 (String c3 rest))) =>
      match b64_value c0, b64_value c1 with
      | Some v0, Some v1 =>
          match b64_value c2, b64_value c3 with
          | Some v2, Some v3 =>
              let n := v0 * 262144 + v1 * 4096 + v2 * 64 + v3 in
              match b64decode rest with
              | Some bs =>
                  Some (byte_of_N (n / 65536) :: byte_of_N (n / 256)
                          :: byte_of_N n :: bs)
              | None => None
              end
          | Some v2, None =>
              if Ascii.eqb c3 PAD && String.eqb rest "" then
                let n := v0 * 262144 + v1 * 4096 + v2 * 64 in
                Some [byte_of_N (n / 65536); byte_of_N (n / 256)]
              else None
          | None, _ =>
              if Ascii.eqb c2 PAD && Ascii.eqb c3 PAD && String.eqb rest "" then
                let n := v0 * 262144 + v1 * 4096 in
                Some [byte_of_N (n / 65536)]
              else None
          end
      | _, _ => None
      end
  | _ => None
  end.

(** ** Paths *)

(** Does [s] hold a slash? *)
Fixpoint has_sep (s : string) : bool :=
  match s with
  | EmptyString => false
  | String c s' => Ascii.eqb c Py.SEP || has_sep s'
  end.

(** ** More of the Python runtime *)

(** [needle in hay] *)
Fixpoint str_contains (needle hay : string) : bool :=
  match Py.skip_prefix needle hay with
  | Some _ => true
  | None =>
      match hay with
      | EmptyString => false
      | String _ hay' => str_contains needle hay'
      end
  end.

(** [s.split(sep)] for a separator that is not empty. [cur] is the piece
    being read, [skip] counts the characters of the separator just found
    that are still to be passed over. *)
Fixpoint split_skip (sep : string) (skip : nat) (cur s : string) : list string :=
  match s with
  | EmptyString => [cur]
  | String c s' =>
      match skip with
      | S k => split_skip sep k cur s'
      | O =>
          match Py.skip_prefix sep s with
          | Some _ => cur :: split_skip sep (String.length sep - 1) EmptyString s'
          | None => split_skip sep 0 (cur +:+ String c EmptyString) s'
          end
      end
  end.

Definition split (sep s : string) : list string := split_skip sep 0 EmptyString s.

(** [l[i]] *)
Definition list_getitem (l : list string) (i : nat) : M string :=
  match l !! i with
  | Some x => ret x
  | None => raise (Exn "IndexError" "list index out of range")
  end.

(** ** observability/gpu_monitor.py *)

(** What [subprocess.check_output] of the [nvidia-smi] query does: it
    returns the output (here decoded), or raises. *)
Inductive smi_result :=
| SmiOutput (out : string)
| SmiNotFound
| SmiCalledProcessError (output : string)
| SmiOther (e : exn).

Definition unavailable (error : string) : gmap string string :=
  <["gpu" := "Unavailable"]> (<["error" := error]> ∅).

Section GpuMonitor.
(** [str(usage)] of a list of strings *)
Context (list_str : list string → string).

(** [get_gpu_info(logger)] on a system [os_type] *)
Definition get_gpu_info (os_type : string) (smi : smi_result)
  : M (gmap string string) :=
  logger_info ("Detecting OS: " +:+ os_type) ;;
  if String.eqb os_type "Darwin" then
    logger_warning "GPU monitoring is not supported on macOS (no NVIDIA GPU support)." ;;
    ret (unavailable "GPU monitoring is not supported on macOS (no NVIDIA GPU support).")
  else if negb (String.eqb os_type "Linux" || String.eqb os_type "Windows") then
    logger_warning ("Unsupported OS: " +:+ os_type) ;;
    ret (unavailable ("Unsupported OS: " +:+ os_type))
  else
    match smi with
    | SmiOutput out =>
        try_except
          (let usage := split ", " (Py.strip out) in
           logger_info ("GPU usage: " +:+ list_str usage) ;;
           u0 <- list_getitem usage 0 ;;
           u1 <- list_getitem usage 1 ;;
           u2 <- list_getitem usage 2 ;;
           ret (<["gpu_util" := u0 +:+ "%"]>
                  (<["mem_total" := u1 +:+ " MiB"]>
                     (<["mem_used" := u2 +:+ " MiB"]> ∅))))
          (fun e =>
             logger_error ("Unknown GPU error: " +:+ exn_str e) ;;
             ret (unavailable (exn_str e)))
    | SmiNotFound =>
        logger_error "nvidia-smi not found. Ensure NVIDIA drivers are installed and nvidia-smi is in your PATH." ;;
        ret (unavailable "nvidia-smi not found. Ensure NVIDIA drivers are installed and nvidia-smi is in your PATH.")
    | SmiCalledProcessError output =>
        if str_contains "No devices were found" output
           || str_contains "NVIDIA-SMI has failed" output then
          logger_error "No NVIDIA GPU detected on this system." ;;
          ret (unavailable "No NVIDIA GPU detected on this system.")
        else
          logger_error ("GPU error: " +:+ Py.strip output) ;;
          ret (unavailable (Py.strip output))
    | SmiOther e =>
        logger_error ("Unknown GPU error: " +:+ exn_str e) ;;
        ret (unavailable (exn_str e))
    end.

End GpuMonitor.

(** A string of decimal digits *)
Fixpoint all_digits (s : string) : bool :=
  match s with
  | EmptyString => true
  | String c s' => Py.between 48 57 c && all_digits s'
  end.

Definition number (s : string) : Prop := s ≠ "" ∧ all_digits s = true.

(** A string without comma *)
Fixpoint no_comma (s : string) : bool :=
  match s with
  | EmptyString => true
  | String c s' => negb (Py.code c =? 44) && no_comma s'
  end.

(** ** services/http_server.py *)

(** An uploaded file: its name as the client sent it, and its content *)
Record UploadFile := { filename : option string; content_bytes : list Byte.byte }.

(** The world after [open(path, 'wb').write(data)] *)
Definition with_file (w : World) (path : string) (data : list Byte.byte) : World := {|
  read_bytes p := if String.eqb p path then inr data else read_bytes w p;
  chat_init := chat_init w;
  chat_invoke := chat_invoke w;
  chat_stream := chat_stream w;
  isfile p := String.eqb p path || isfile w p;
  abspath := abspath w;
  makedirs_fails := makedirs_fails w;
  copy_fails := copy_fails w;
  match_str := match_str w
|}.

(** The generator [stream_fn()] of [generate] *)
Inductive stream_fn_gen :=
| SF_created (text : string) (path : option string)
| SF_suspended (inner : run_stream_gen)
| SF_finished.

(** What [generate] returns: a JSON object with a result or with an error,
    or a streaming response around a generator not yet started. *)
Inductive response :=
| JsonResult (result : string)
| JsonError (error : string)
| StreamingResponse (body : stream_fn_gen).

Section HttpServer.
(** The service of the module, the failure of [open(path, 'wb')] and of
    the write, and [str(kwargs)] of the request log *)
Context (service : InferenceService)
        (write_fails : string → option exn)
        (kwargs_str : option string → option (option string) → bool → string).

(** [next()] on [stream_fn()] *)
Definition stream_fn_next (w : World) (g : stream_fn_gen)
  : (outcome string * stream_fn_gen) * trace :=
  let loop inner :=
    match run_stream_next w service inner with
    | ((Yield chunk, inner'), t) =>
        ((Yield chunk, SF_suspended inner'),
         t ++ [Log DEBUG (Text ("Streaming chunk: " +:+ chunk))])
    | ((StopIteration, _), t) => ((StopIteration, SF_finished), t)
    | ((Raised e, _), t) => ((Raised e, SF_finished), t)
    end in
  match g with
  | SF_created text path => loop (run_stream service text path)
  | SF_suspended inner => loop inner
  | SF_finished => ((StopIteration, SF_finished), [])
  end.

(** [log_request_info('/generate', text=..., file=..., stream=...)] *)
Definition log_request_info (endpoint : string) (text : option string)
    (file : option UploadFile) (stream : bool) : M unit :=
  logger_info ("Endpoint '" +:+ endpoint +:+ "' called with args: "
               +:+ kwargs_str text (filename <$> file) stream).

(** The last block of [generate]: the inference, under its [try] *)
Definition respond (w : World) (text : option string) (path : option string)
    (stream : bool) : M (response * World) :=
  try_except
    (if stream then
       logger_info "Streaming response initiated." ;;
       ret (StreamingResponse (SF_created (default "" text) path), w)
     else
       result <- run w service (default "" text) path ;;
       logger_info "Non-streaming response returned." ;;
       ret (JsonResult result, w))
    (fun e =>
       logger_error ("Error during inference: " +:+ exn_str e) ;;
       ret (JsonError (exn_str e), w)).

(** [generate(text, file, stream)], with the world it leaves *)
Definition generate (w : World) (text : option string) (file : option UploadFile)
    (stream : bool) : M (response * World) :=
  log_request_info "/generate" text file stream ;;
  match file with
  | Some f =>
      if negb (Py.truthy (filename f))
         || String.eqb (Py.strip (default "" (filename f))) "" then
        logger_error "Image is required but not provided." ;;
        ret (JsonError "Image is required.", w)
      else
        makedirs w "assets" ;;
        let path := Py.join "assets" (default "" (filename f)) in
        match write_fails path with
        | Some e =>
            logger_error ("Failed to save uploaded file: " +:+ exn_str e) ;;
            ret (JsonError (exn_str e), w)
        | None =>
            logger_info ("Saved uploaded file to " +:+ path) ;;
            respond (with_file w path (content_bytes f)) text (Some path) stream
        end
  | None => respond w text None stream
  end.

End HttpServer.

(** ** The command line: utils/spinner_handler.py, services/cli.py,
       services/interactive_session.py *)

(** What the terminal sees, besides the events of the core *)
Inductive ui_event :=
| Core (ev : event)
| SpinnerStart
| SpinnerStop
| SpinnerOk (mark : string)
| SpinnerFail (mark : string)
| Write (s : string)       (* [print(s, end="", flush=True)] *)
| Echo (s : string)        (* [typer.echo(s)] *)
| Prompt (text : string).  (* [typer.prompt(text)] *)

Definition ui_trace := list ui_event.

(** [SpinnerHandler.__enter__] *)
Definition spinner_enter : ui_trace :=
  [SpinnerStart; Core (Log DEBUG (Text "Spinner started."))].

(** [SpinnerHandler.write_chunk]: the new [first_chunk], and what is shown *)
Definition write_chunk (first_chunk : bool) (chunk : string) : bool * ui_trace :=
  (false,
   (if first_chunk then
      [SpinnerStop; Write "🤖 ";
       Core (Log DEBUG (Text "First chunk written, spinner stopped."))]
    else [])
   ++ [Write chunk; Core (Log DEBUG (Text ("Chunk output: " +:+ chunk)))]).

(** [SpinnerHandler.__exit__]; [exc] is the exception that leaves the
    block, if any. *)
Definition spinner_exit (first_chunk : bool) (exc : option exn) : ui_trace :=
  match exc with
  | Some e =>
      [SpinnerFail "💥";
       Core (Log ERROR (Text ("Spinner failed due to exception: " +:+ exn_str e)))]
  | None =>
      if first_chunk then
        [SpinnerOk "✅"; Core (Log DEBUG (Text "Spinner completed with no output."))]
      else []
  end.

(** How many [next] a [for] loop over the generator of [run_stream] can
    need: one more than the backend stream holds, and one to open it. *)
Definition loop_bound (w : World) (svc : InferenceService) (g : run_stream_gen) : nat :=
  match g with
  | RS_created text ip =>
      match (stream_route w (router svc) text ip).1 with
      | inr (_, s) => 2 + length (bs_rest (swt_stream s))
      | inl _ => 1
      end
  | RS_suspended _ _ _ s _ => 1 + length (bs_rest (swt_stream s))
  | RS_finished => 1
  end.

Section Terminal.
Context (w : World) (svc : InferenceService).

(** The [for] loop that both callers run under the spinner: every chunk is
    logged with [chunk_label] and written; [n] bounds the turns. *)
Fixpoint show_chunks (chunk_label : string) (n : nat) (g : run_stream_gen)
    (first_chunk : bool) : (bool * ending) * ui_trace :=
  match n with
  | O => ((first_chunk, Pending), [])
  | S n' =>
      match run_stream_next w svc g with
      | ((Yield chunk, g'), t) =>
          let '(fc, shown) := write_chunk first_chunk chunk in
          let '(r, t') := show_chunks chunk_label n' g' fc in
          (r, (Core <$> t)
              ++ Core (Log DEBUG (Text (chunk_label +:+ chunk))) :: shown ++ t')
      | ((StopIteration, _), t) => ((first_chunk, Exhausted), Core <$> t)
      | ((Raised e, _), t) => ((first_chunk, Failed e), Core <$> t)
      end
  end.

(** [with SpinnerHandler(logger=logger) as spinner: try: for ... except
    Exception as e: ...]: the exception is handled inside the block, so
    that [__exit__] never sees one. *)
Definition stream_to_terminal (chunk_label error_label : string)
    (text : string) (image_path : option string) : ui_trace :=
  let g := run_stream svc text image_path in
  let '((first_chunk, e), t) :=
    show_chunks chunk_label (loop_bound w svc g) g true in
  spinner_enter ++ t
  ++ match e with
     | Failed e =>
         [Core (Log ERROR (Text (error_label +:+ exn_str e)));
          Core (Print (Py.nl +:+ "💥 Error: " +:+ exn_str e))]
     | _ => []
     end
  ++ spinner_exit first_chunk None.

(** [user_input.strip().lower() in ('/bye', 'exit', 'quit')] *)
Definition is_exit (user_input : string) : bool :=
  let s := Py.lower (Py.strip user_input) in
  String.eqb s "/bye" || String.eqb s "exit" || String.eqb s "quit".

(** One turn of the loop of [run_interactive] after the prompt: the image
    tag is resolved, then the answer is streamed. An exception of
    [handle_image] is caught by the handler of the loop. *)
Definition interactive_turn (user_input : string) : ui_trace :=
  match handle_image w (Some user_input) None with
  | (inr (input_text, input_image), t) =>
      (Core <$> t)
      ++ stream_to_terminal "Streamed chunk: "
           "Error during streaming in interactive session: "
           (default "" input_text)
           input_image
  | (inl e, t) =>
      (Core <$> t)
      ++ [Core (Log ERROR (Text ("Error in interactive session loop: " +:+ exn_str e)));
          Core (Print (Py.nl +:+ "💥 Error: " +:+ exn_str e))]
  end.

(** [run_interactive(service, logger)] on the answers that [prompt] gives,
    in order: an input, or an exception (the prompt of typer raises
    [Abort], an [Exception], when the input is interrupted or closed). The
    result tells whether the session has ended, or still waits at the
    prompt. A [KeyboardInterrupt] in the middle of an answer is not
    modelled. *)
Fixpoint interactive_loop (prompts : list (exn + string)) : bool * ui_trace :=
  match prompts with
  | [] => (false, [Prompt (Py.nl +:+ Py.nl +:+ "You")])
  | answer :: prompts' =>
      match answer with
      | inr user_input =>
          let t0 := [Prompt (Py.nl +:+ Py.nl +:+ "You");
                     Core (Log DEBUG (Text ("User input: " +:+ user_input)))] in
          if is_exit user_input then
            (true, t0 ++ [Echo "👋 Goodbye!";
                          Core (Log INFO (Text "User exited interactive session."))])
          else
            let '(ended, t) := interactive_loop prompts' in
            (ended, t0 ++ interactive_turn user_input ++ t)
      | inl e =>
          let '(ended, t) := interactive_loop prompts' in
          (ended,
           [Prompt (Py.nl +:+ Py.nl +:+ "You");
            Core (Log ERROR (Text ("Error in interactive session loop: " +:+ exn_str e)));
            Core (Print (Py.nl +:+ "💥 Error: " +:+ exn_str e))] ++ t)
      end
  end.

Definition run_interactive (prompts : list (exn + string)) : bool * ui_trace :=
  let '(ended, t) := interactive_loop prompts in
  (ended,
   [Echo ("👋 Welcome to Mini-ModelVault CLI! Type '/bye' to exit." +:+ Py.nl);
    Core (Log INFO (Text "Interactive session started."))] ++ t).

End Terminal.

(** [{k: v for k, v in os.environ.items() if k.startswith('MODEL_')}] *)
Definition model_config (environ : gmap string string) : gmap string string :=
  filter (λ kv, String.prefix "MODEL_" kv.1 = true) environ.

(** [cli.main(input_text, input_image)] in the environment [environ]; in
    an interactive session [prompts] are the answers of the prompt. It
    raises, or returns after a one-off run ([None]) or a session
    ([Some ended]). *)
Definition main (w : World) (environ : gmap string string)
    (input_text input_image : option string) (prompts : list (exn + string))
  : (exn + option bool) * ui_trace :=
  let cfg := model_config environ in
  match ModelRouter_init w cfg with
  | (inl e, t) => (inl e, Core <$> t)
  | (inr router, t) =>
      let service := {| router := router |} in
      let t1 := (Core <$> t) ++ [Core (Log INFO (Text "CLI started."))] in
      match handle_image w input_text input_image with
      | (inl e, t2) => (inl e, t1 ++ (Core <$> t2))
      | (inr (input_text, input_image), t2) =>
          if Py.truthy input_text || Py.truthy input_image then
            (inr None,
             t1 ++ (Core <$> t2)
             ++ stream_to_terminal w service "Streaming chunk: "
                  "Error during inference: "
                  (default "" input_text)
                  input_image
             ++ [Core (Print "")])
          else
            let '(ended, t3) := run_interactive w service prompts in
            (inr (Some ended),
             t1 ++ (Core <$> t2)
             ++ [Core (Log INFO (Text "Starting interactive session."))] ++ t3)
      end
  end.

(** What was written to the terminal, and what the spinner was told *)
Definition writes (t : ui_trace) : list string :=
  omap (λ ev, match ev with Write s => Some s | _ => None end) t.

Definition spinner_events (t : ui_trace) : ui_trace :=
  omap (λ ev, match ev with
              | SpinnerStart | SpinnerStop | SpinnerOk _ | SpinnerFail _ => Some ev
              | _ => None
              end) t.

(** An answer of the prompt that does not end the session *)
Definition goes_on (answer : exn + string) : bool :=
  match answer with inr s => negb (is_exit s) | inl _ => true end.

(** ** observability/health.py *)

(** What [device_status] returns: the sample with [health] "OK", or
    [{'health': 'DEGRADED', 'message': 'Resource usage unavailable'}]. The
    percentages of psutil are numbers of a type [num]. *)
Inductive device_report (num : Type) :=
| DeviceOk (ram cpu : num) (gpu : gmap string string)
| DeviceDegraded.
Arguments DeviceOk {num} ram cpu gpu.
Arguments DeviceDegraded {num}.

Section Health.
(** [str] of a number, of the dictionary of the GPU and of a list *)
Context {num : Type} (num_str : num → string)
        (dict_str : gmap string string → string)
        (list_str : list string → string).

(** [HealthChecker.status] *)
Definition status : M (gmap string string) :=
  logger_info "Health status checked." ;;
  ret (<["health" := "OK"]> ∅).

(** [HealthChecker.device_status]; [virtual_memory] and [cpu_percent] are
    what [psutil.virtual_memory().percent] and [psutil.cpu_percent] do. *)
Definition device_status (virtual_memory cpu_percent : exn + num)
    (os_type : string) (smi : smi_result) : M (device_report num) :=
  try_except
    (ram <- of_result virtual_memory ;;
     cpu <- of_result cpu_percent ;;
     gpu <- get_gpu_info list_str os_type smi ;;
     logger_info ("Resource usage - RAM: " +:+ num_str ram +:+ "%, CPU: "
                  +:+ num_str cpu +:+ "%, GPU: " +:+ dict_str gpu) ;;
     ret (DeviceOk ram cpu gpu))
    (fun e =>
       logger_error ("Failed to sample live: " +:+ exn_str e) ;;
       ret DeviceDegraded).

End Health.

(** ** utils/model_check.py *)

(** [s.split()] without argument: the runs of characters that are not
    blank. [cur] is the run being read, if any. *)
Fixpoint split_blank (cur : option string) (s : string) : list string :=
  match s with
  | EmptyString => match cur with Some word => [word] | None => [] end
  | String c s' =>
      if Py.isspace c then
        match cur with
        | Some word => word :: split_blank None s'
        | None => split_blank None s'
        end
      else split_blank (Some (default "" cur +:+ String c EmptyString)) s'
  end.

Definition split_whitespace (s : string) : list string := split_blank None s.

(** [[f(x) for x in l]] for an [f] that may raise *)
Fixpoint for_each {A B} (f : A → M B) (l : list A) : M (list B) :=
  match l with
  | [] => ret []
  | x :: l' =>
      y <- f x ;;
      ys <- for_each f l' ;;
      ret (y :: ys)
  end.

(** [REQUIRED_MODELS], read from the environment when the module is
    loaded *)
Definition REQUIRED_MODELS (environ : gmap string string) : list string :=
  [default "llama3.2:3b" (environ !! "MODEL_GENERAL");
   default "qwen2.5-coder:3b" (environ !! "MODEL_CODING");
   default "llava-phi3:latest" (environ !! "MODEL_VISION")].

(** What [check_and_pull_models] does to the outside: it prints, and it
    runs [ollama pull]. *)
Inductive mc_event :=
| McPrint (s : string)
| McPull (model : string).

(** [[line.split()[0] for line in stdout.strip().split('\n')[1:] if line]] *)
Definition installed_models (stdout : string) : M (list string) :=
  for_each (λ line, list_getitem (split_whitespace line) 0)
    (filter (λ line, line ≠ "") (drop 1 (split Py.nl (Py.strip stdout)))).

Section ModelCheck.
(** What [ollama list] gives: its output or an exception; and the
    exception of [ollama pull] on a model, if any *)
Context (ollama_list : exn + string) (pull_fails : string → option exn).

(** One turn of the loop over [REQUIRED_MODELS] *)
Definition check_model (installed : list string) (model : string) : list mc_event :=
  if bool_decide (model ∉ installed) then
    [McPrint ("[model_check] Model '" +:+ model
              +:+ "' not found. Pulling with Ollama...");
     McPull model]
    ++ match pull_fails model with
       | Some e => [McPrint ("[model_check] Failed to pull model '" +:+ model
                             +:+ "': " +:+ exn_str e)]
       | None => []
       end
  else [McPrint ("[model_check] Model '" +:+ model +:+ "' is already installed.")].

(** [check_and_pull_models()] *)
Definition check_and_pull_models (environ : gmap string string) : list mc_event :=
  match (stdout <- of_result ollama_list ;; installed_models stdout).1 with
  | inl _ =>
      [McPrint "[model_check] Could not check Ollama models. Is Ollama running and in your PATH?"]
  | inr installed => REQUIRED_MODELS environ ≫= check_model installed
  end.

End ModelCheck.

(** The models that were pulled *)
Definition pulls (t : list mc_event) : list string :=
  omap (λ ev, match ev with McPull model => Some model | _ => None end) t.

(** A string without blank, and a string without line feed *)
Fixpoint no_blank (s : string) : bool :=
  match s with
  | EmptyString => true
  | String c s' => negb (Py.isspace c) && no_blank s'
  end.

Fixpoint no_newline (s : string) : bool :=
  match s with
  | EmptyString => true
  | String c s' => negb (Py.code c =? 10) && no_newline s'
  end.

(** One line of the table of [ollama list]: the name, then the other
    columns *)
Definition table_row (name rest : string) : string :=
  name +:+ " " +:+ rest +:+ Py.nl.

Definition table (header : string) (rows : list (string * string)) : string :=
  header +:+ Py.nl +:+ foldr (λ r acc, table_row r.1 r.2 +:+ acc) "" rows.

(** A well-formed row: a name that is not empty and holds no blank, then
    columns on the same line *)
Definition row_ok (r : string * string) : Prop :=
  r.1 ≠ "" ∧ no_blank r.1 = true ∧ no_newline r.2 = true.

(** ** More of the sample world *)

(** A backend that classifies, but whose answers fail: [invoke] raises,
    and the stream breaks after its first fragment. *)
Definition connection_lost : exn := Exn "ConnectionError" "connection lost".

Definition flaky_world : World := {|
  read_bytes := read_bytes sample_world;
  chat_init _ := None;
  chat_invoke _ messages :=
    match messages with
    | [HumanText t] =>
        if String.prefix "Classify the following" t then inr "general"
        else inl connection_lost
    | _ => inl connection_lost
    end;
  chat_stream _ _ := inr (Script [Raw "Hel"] (Some connection_lost));
  isfile := isfile sample_world;
  abspath := abspath sample_world;
  makedirs_fails _ := None;
  copy_fails _ _ := None;
  match_str := match_str sample_world
|}.

(** [str] of a list of strings that hold no quote and no backslash *)
Fixpoint sample_list_items (l : list string) : string :=
  match l with
  | [] => ""
  | s :: l' =>
      match l' with
      | [] => "'" +:+ s +:+ "'"
      | _ => "'" +:+ s +:+ "', " +:+ sample_list_items l'
      end
  end.

Definition sample_list_str (l : list string) : string :=
  "[" +:+ sample_list_items l +:+ "]".

(** [str] of the keyword arguments of a request, for such strings *)
Definition sample_kwargs_str (text : option string) (file : option (option string))
    (stream : bool) : string :=
  let repr o := match o with Some s => "'" +:+ s +:+ "'" | None => "None" end in
  "{'text': " +:+ repr text
  +:+ ", 'file': " +:+ repr (mjoin file)
  +:+ ", 'stream': " +:+ (if stream then "True" else "False") +:+ "}".

(** A disk that takes every write *)
Definition sample_write_fails (path : string) : option exn := None.

Definition sample_bytes : list Byte.byte := [Byte.x4d; Byte.x61; Byte.x6e; Byte.x21].

(** An environment as a shell gives it *)
Definition sample_environ : gmap string string :=
  <["MODEL_GENERAL" := "llama3.2:3b"]> (<["HOME" := "/root"]> ∅).

(** The table that [ollama list] prints for two installed models *)
Definition sample_table : string :=
  table "NAME                 ID              SIZE      MODIFIED"
    [("llama3.2:3b", "        a80c4f17acd5    2.0 GB    2 days ago");
     ("llava-phi3:latest", "  c7edd7b87593    2.9 GB    2 days ago")].

(** An [ollama pull] that always succeeds *)
Definition sample_pull_fails (model : string) : option exn := None.

(** * Properties *)

(** Runs a computation symbolically. *)
Ltac run_m :=
  unfold reraising, try_except, bind, of_result, emit, ret, raise,
    logger_info, logger_debug, logger_warning, logger_error; simpl.

(** ** The runtime model on small inputs *)

Example lower_ex : Py.lower "CoDing_9 Z[" = "coding_9 z[".
Proof. reflexivity. Qed.

Example strip_ex : Py.strip "  a b  " = "a b".
Proof. vm_compute. reflexivity. Qed.

Example search_words_ex :
  Py.search_words LABELS "this is coding, or vision" = Some "coding".
Proof. vm_compute. reflexivity. Qed.

Example search_words_none_ex :
  Py.search_words LABELS "uncoding coding_ generally" = None.
Proof. vm_compute. reflexivity. Qed.

Example b64encode_ex :
  Py.b64encode [Byte.xff; Byte.xfe; Byte.xfd; Byte.x00] = "//79AA==".
Proof. vm_compute. reflexivity. Qed.

Example sub_tag_ex :
  Py.sub_tag "a<image>b<image>c<image><image>d<image>e" = "acd<image>e".
Proof. vm_compute. reflexivity. Qed.

(** ** Strings *)

Section Strings.

Local Arguments String.append !_ _ / : simpl nomatch.

Lemma append_nil_r s : s +:+ "" = s.
Proof. induction s as [|c s IH]; simpl; [done | by rewrite IH]. Qed.

Lemma append_assoc a b c : (a +:+ b) +:+ c = a +:+ b +:+ c.
Proof. induction a as [|x a IH]; simpl; [done | by rewrite IH]. Qed.

Lemma skip_prefix_Some p s rest :
  Py.skip_prefix p s = Some rest ↔ s = p +:+ rest.
Proof.
  revert s; induction p as [|a p IH]; intros s; simpl.
  - split; [by intros [= ->] | by intros ->].
  - destruct s as [|b s]; [split; discriminate|].
    destruct (Ascii.eqb_spec a b) as [->|Hne].
    + rewrite IH. split; [by intros -> | by intros [= ->]].
    + split; [discriminate | intros [= ? ?]; congruence].
Qed.

Lemma skip_prefix_append p rest : Py.skip_prefix p (p +:+ rest) = Some rest.
Proof. by apply skip_prefix_Some. Qed.

Lemma last_of_append prev a b :
  Py.last_of prev (a +:+ b) = Py.last_of (Py.last_of prev a) b.
Proof. revert prev; induction a as [|c a IH]; intros prev; simpl; [done | apply IH]. Qed.

Lemma elem_of_LABELS w :
  w ∈ LABELS ↔ w = "general" ∨ w = "coding" ∨ w = "vision".
Proof.
  unfold LABELS. rewrite !elem_of_cons, elem_of_nil. tauto.
Qed.

(** The pattern tried at one position finds the label that stands there
    as a whole word, and only that. *)
Lemma alt_here_Some prev s w :
  Py.alt_here LABELS prev s = Some w ↔ w ∈ LABELS ∧ occurs_from prev w s 0.
Proof.
  rewrite elem_of_LABELS. unfold occurs_from. split.
  - unfold Py.alt_here. destruct (Py.boundary prev (Py.head s)) eqn:Hb; [|done].
    intros Hf. apply List.find_some in Hf as [Hin Hw].
    destruct (Py.skip_prefix w s) as [rest|] eqn:Hs; [|done].
    apply skip_prefix_Some in Hs as ->.
    assert (Hw' : w = "general" ∨ w = "coding" ∨ w = "vision").
    { destruct Hin as [<-|[<-|[<-|[]]]]; auto. }
    split; [done|]. exists "", rest. simpl. split_and!; [done..| |].
    + destruct Hw' as [->|[->| ->]]; simpl in Hb;
        unfold Py.boundary in Hb; simpl in Hb;
        by destruct (Py.isword_opt prev).
    + destruct Hw' as [->|[->| ->]]; simpl in Hw;
        unfold Py.boundary in Hw; simpl in Hw;
        by destruct (Py.isword_opt (Py.head rest)).
  - intros [Hw (pre & post & -> & Hlen & Hp & Hq)].
    destruct pre; [|done]. simpl in *.
    unfold Py.alt_here, Py.boundary.
    destruct Hw as [->|[->| ->]]; simpl; rewrite Hp; simpl;
      rewrite ?skip_prefix_append; simpl; by rewrite Hq.
Qed.

Lemma occurs_from_S prev c s w k :
  occurs_from prev w (String c s) (S k) ↔ occurs_from (Some c) w s k.
Proof.
  unfold occurs_from. split.
  - intros (pre & post & Heq & Hlen & Hp & Hq).
    destruct pre as [|c' pre]; [done|]. simpl in *.
    injection Heq as -> ->. injection Hlen as Hlen. by exists pre, post.
  - intros (pre & post & -> & Hlen & Hp & Hq).
    exists (String c pre), post. simpl. by rewrite Hlen.
Qed.

Lemma occurs_from_empty prev w k :
  w ∈ LABELS → ¬ occurs_from prev w "" k.
Proof.
  rewrite elem_of_LABELS. intros Hw (pre & post & Heq & _).
  destruct pre; simpl in Heq; [|done].
  by destruct Hw as [->|[->| ->]].
Qed.

(** Soundness of the search: what it returns is a first whole-word
    match. *)
Lemma search_from_Some s : ∀ prev w,
  Py.search_from LABELS prev s = Some w →
  w ∈ LABELS ∧ ∃ k, occurs_from prev w s k
    ∧ ∀ j w', (j < k)%nat → w' ∈ LABELS → ¬ occurs_from prev w' s j.
Proof.
  induction s as [|c s IH]; intros prev w; simpl.
  - destruct (Py.alt_here LABELS prev "") as [w0|] eqn:Ha; [|done].
    intros [= ->]. apply alt_here_Some in Ha as [Hw Ho].
    split; [done|]. exists 0%nat. split; [done|]. intros j w' Hj. lia.
  - destruct (Py.alt_here LABELS prev (String c s)) as [w0|] eqn:Ha.
    + intros [= ->]. apply alt_here_Some in Ha as [Hw Ho].
      split; [done|]. exists 0%nat. split; [done|]. intros j w' Hj. lia.
    + intros Hs. apply IH in Hs as (Hw & k & Ho & Hmin).
      split; [done|]. exists (S k). split; [by apply occurs_from_S|].
      intros [|j] w' Hj Hw'.
      * intros Ho'. assert (Py.alt_here LABELS prev (String c s) = Some w') as Hc
          by by apply alt_here_Some.
        congruence.
      * rewrite occurs_from_S. apply Hmin; [lia | done].
Qed.

(** Completeness: when the search fails there is no whole-word match. *)
Lemma search_from_None s : ∀ prev,
  Py.search_from LABELS prev s = None →
  ∀ k w, w ∈ LABELS → ¬ occurs_from prev w s k.
Proof.
  induction s as [|c s IH]; intros prev; simpl.
  - intros _ k w Hw. by apply occurs_from_empty.
  - destruct (Py.alt_here LABELS prev (String c s)) as [w0|] eqn:Ha; [done|].
    intros Hs [|k] w Hw.
    + intros Ho. assert (Py.alt_here LABELS prev (String c s) = Some w) as Hc
        by by apply alt_here_Some.
      congruence.
    + rewrite occurs_from_S. by apply IH.
Qed.

(** Two labels cannot stand at the same place. *)
Lemma occurs_from_same_place prev s k w1 w2 :
  w1 ∈ LABELS → w2 ∈ LABELS →
  occurs_from prev w1 s k → occurs_from prev w2 s k → w1 = w2.
Proof.
  revert prev k; induction s as [|c s IH]; intros prev k Hw1 Hw2 H1 H2.
  - by apply occurs_from_empty in H1.
  - destruct k as [|k].
    + assert (Py.alt_here LABELS prev (String c s) = Some w1) as E1
        by by apply alt_here_Some.
      assert (Py.alt_here LABELS prev (String c s) = Some w2) as E2
        by by apply alt_here_Some.
      congruence.
    + apply occurs_from_S in H1, H2. by eapply IH.
Qed.

Lemma first_whole_word_unique s w1 w2 :
  first_whole_word s w1 → first_whole_word s w2 → w1 = w2.
Proof.
  intros (Hw1 & k1 & Ho1 & Hmin1) (Hw2 & k2 & Ho2 & Hmin2).
  destruct (lt_eq_lt_dec k1 k2) as [[Hlt|Heq]|Hgt].
  - by destruct (Hmin2 k1 w1 Hlt Hw1).
  - subst k2. by eapply occurs_from_same_place.
  - by destruct (Hmin1 k2 w2 Hgt Hw2).
Qed.

Lemma search_words_Some s w :
  Py.search_words LABELS s = Some w ↔ first_whole_word s w.
Proof.
  split.
  - intros H. by apply search_from_Some in H.
  - intros Hf. destruct (Py.search_words LABELS s) as [w0|] eqn:Hs.
    + f_equal. apply search_from_Some in Hs.
      by apply (first_whole_word_unique s).
    + destruct Hf as (Hw & k & Ho & _).
      by destruct (search_from_None s None Hs k w Hw).
Qed.

Lemma search_words_None s :
  Py.search_words LABELS s = None ↔ no_whole_word s.
Proof.
  split.
  - intros H k w Hw. by apply (search_from_None s None H).
  - intros Hn. destruct (Py.search_words LABELS s) as [w0|] eqn:Hs; [|done].
    apply search_words_Some in Hs as (Hw & k & Ho & _).
    by destruct (Hn k w0 Hw).
Qed.

(** *** Case and white space *)

Lemma isspace_lower_char c : Py.isspace (Py.lower_char c) = Py.isspace c.
Proof. by destruct c as [[] [] [] [] [] [] [] []]; vm_compute. Qed.

Lemma isspace_not_isword c : Py.isspace c = true → Py.isword c = false.
Proof. by destruct c as [[] [] [] [] [] [] [] []]; vm_compute. Qed.

Lemma lower_lstrip s : Py.lower (Py.lstrip s) = Py.lstrip (Py.lower s).
Proof.
  induction s as [|c s IH]; simpl; [done|].
  rewrite isspace_lower_char. by destruct (Py.isspace c).
Qed.

Lemma lower_rstrip s : Py.lower (Py.rstrip s) = Py.rstrip (Py.lower s).
Proof.
  induction s as [|c s IH]; simpl; [done|].
  rewrite <- IH, isspace_lower_char.
  destruct (Py.rstrip s); simpl; [by destruct (Py.isspace c) | done].
Qed.

(** Trimming and lowercasing commute, so that "the lowercased, trimmed
    response" is what [result.strip().lower()] computes. *)
Lemma lower_strip s : Py.lower (Py.strip s) = Py.strip (Py.lower s).
Proof. unfold Py.strip. by rewrite lower_rstrip, lower_lstrip. Qed.

Lemma lstrip_split s :
  ∃ a, s = a +:+ Py.lstrip s ∧ all_space a = true.
Proof.
  induction s as [|c s (a & Heq & Ha)]; simpl.
  - by exists "".
  - destruct (Py.isspace c) eqn:Hc.
    + exists (String c a). simpl. rewrite Hc, Ha. by rewrite <- Heq.
    + by exists "".
Qed.

Lemma rstrip_split s :
  ∃ b, s = Py.rstrip s +:+ b ∧ all_space b = true.
Proof.
  induction s as [|c s (b & Heq & Hb)]; simpl.
  - by exists "".
  - destruct (Py.rstrip s) as [|d r] eqn:Hr.
    + simpl in Heq. subst b. destruct (Py.isspace c) eqn:Hc.
      * exists (String c s). simpl. by rewrite Hc, Hb.
      * exists s. by simpl.
    + exists b. split; [|done]. simpl. f_equal. exact Heq.
Qed.

Lemma strip_split s :
  ∃ a b, s = a +:+ Py.strip s +:+ b ∧ all_space a = true ∧ all_space b = true.
Proof.
  destruct (lstrip_split s) as (a & Ha & Hsa).
  destruct (rstrip_split (Py.lstrip s)) as (b & Hb & Hsb).
  exists a, b. unfold Py.strip. by rewrite <- Hb, <- Ha.
Qed.

Lemma all_space_last a : all_space a = true →
  ∀ prev, Py.isword_opt prev = false → Py.isword_opt (Py.last_of prev a) = false.
Proof.
  induction a as [|c a IH]; simpl; [done|].
  intros [Hc Ha]%andb_prop prev _. apply IH; [done|].
  by apply isspace_not_isword.
Qed.

Lemma all_space_head b : all_space b = true → Py.isword_opt (Py.head b) = false.
Proof.
  destruct b as [|c b]; simpl; [done|].
  intros [Hc _]%andb_prop. by apply isspace_not_isword.
Qed.

(** A string that is a label once trimmed holds that label as a
    whole word. *)
Lemma strip_whole_word s :
  ∃ k, whole_word_at (Py.strip s) s k.
Proof.
  destruct (strip_split s) as (a & b & Heq & Ha & Hb).
  exists (String.length a), a, b. split_and!; [done..| |].
  - by apply all_space_last.
  - by apply all_space_head.
Qed.

(** The label read off a reply: the first whole-word match in the
    lowercased reply, else the lowercased and trimmed reply. *)
Lemma classify_label_spec result :
  first_whole_word (Py.lower result) (classify_label result)
  ∨ (no_whole_word (Py.lower result)
     ∧ classify_label result = Py.strip (Py.lower result)).
Proof.
  unfold classify_label.
  destruct (Py.search_words LABELS (Py.lower result)) as [w|] eqn:Hs.
  - left. by apply search_words_Some.
  - right. split; [by apply search_words_None | apply lower_strip].
Qed.

Lemma classify_label_in_LABELS result w :
  w ∈ LABELS → classify_label result = w ↔ first_whole_word (Py.lower result) w.
Proof.
  intros Hw. split.
  - intros <-. destruct (classify_label_spec result) as [Hf|[Hn He]]; [done|].
    destruct (strip_whole_word (Py.lower result)) as [k Hk].
    rewrite <- He in Hk. by destruct (Hn k _ Hw).
  - intros Hf. destruct (classify_label_spec result) as [Hf'|[Hn He]].
    + by apply (first_whole_word_unique (Py.lower result)).
    + destruct Hf as (_ & k & Ho & _). by destruct (Hn k w Hw).
Qed.

End Strings.

(** ** The router *)

Section RouterFacts.
Context (w : World) (self : ModelRouter).

Lemma truthy_Some path : path ≠ "" → Py.truthy (Some path) = true.
Proof. by destruct path. Qed.

(** [encode_image_to_base64], case by case *)
Lemma encode_image_ok path bytes :
  read_bytes w path = inr bytes →
  encode_image_to_base64 w path =
    (inr (Py.b64encode bytes),
     [Log DEBUG (Text ("Encoded image " +:+ path +:+ " to base64."))]).
Proof. intros H. unfold encode_image_to_base64. run_m. by rewrite H. Qed.

Lemma encode_image_fails path e :
  read_bytes w path = inl e →
  encode_image_to_base64 w path =
    (inl e, [Log ERROR (Text ("Failed to encode image " +:+ path +:+ ": "
                              +:+ exn_str e))]).
Proof. intros H. unfold encode_image_to_base64. run_m. by rewrite H. Qed.

(** The classifier calls the router model once, and nothing else. *)
Lemma classify_calls text : calls (_classify w self text).2 = [B_router_model].
Proof.
  unfold _classify, invoke. run_m.
  destruct (chat_invoke w _ _) as [e|result]; simpl; [done|].
  by destruct (Py.search_words LABELS (Py.lower result)).
Qed.

Lemma classify_result text :
  (_classify w self text).1 =
    match chat_invoke w (model (router_model self))
            [HumanText (classify_prompt text)] with
    | inl e => inl e
    | inr result => inr (classify_label result)
    end.
Proof.
  unfold _classify, invoke, classify_label. run_m.
  destruct (chat_invoke w _ _) as [e|result]; simpl; [done|].
  by destruct (Py.search_words LABELS (Py.lower result)).
Qed.

Lemma classify_summaries text : summaries (_classify w self text).2 = [].
Proof.
  unfold _classify, invoke. run_m.
  destruct (chat_invoke w _ _) as [e|result]; simpl; [done|].
  by destruct (Py.search_words LABELS (Py.lower result)).
Qed.

End RouterFacts.

Section RouterClaims.
Context (w : World) (self : ModelRouter).

(** The generator of [stream_route] calls no client while it is
    consumed: it only logs. *)
Lemma swt_next_calls g : calls (swt_next g).2 = [].
Proof.
  unfold swt_next. destruct (swt_status g); [| |done];
    by destruct (bs_next (swt_stream g)) as [[c| |e] s'].
Qed.

Lemma pull_swt_calls n : ∀ g, calls (pull swt_next n g).2 = [].
Proof.
  induction n as [|n IH]; intros g; simpl; [done|].
  pose proof (swt_next_calls g) as Hc.
  destruct (swt_next g) as [[[v| |e] g'] t]; simpl in *; [|done..].
  specialize (IH g'). destruct (pull swt_next n g') as [[[vs e'] g''] t'].
  simpl in *. unfold calls in *. by rewrite omap_app, Hc, IH.
Qed.

Lemma calls_app t1 t2 : calls (t1 ++ t2) = calls t1 ++ calls t2.
Proof. apply omap_app. Qed.

Lemma summaries_app t1 t2 : summaries (t1 ++ t2) = summaries t1 ++ summaries t2.
Proof. apply omap_app. Qed.

(** C1. A request with a non-empty image path is a vision request: the
    classifier is not invoked and no client but the vision one is called,
    whatever the text; whenever [route] or [stream_route] returns, the
    label is "vision" and the vision client was called once; and they do
    return, with the reply of the vision backend to the text and the
    encoded image, as soon as the file can be read and the backend
    answers. Consuming the stream calls no client either. *)
Theorem image_path_forces_vision text path :
  path ≠ "" →
  let r := route w self text (Some path) in
  let s := stream_route w self text (Some path) in
  (∀ b, b ∈ calls r.2 ++ calls s.2 → b = B_vision)
  ∧ (∀ label resp, r.1 = inr (label, resp) →
       label = "vision" ∧ calls r.2 = [B_vision])
  ∧ (∀ label g, s.1 = inr (label, g) →
       label = "vision" ∧ calls s.2 = [B_vision]
       ∧ ∀ n, calls (pull swt_next n g).2 = [])
  ∧ (∀ bytes, read_bytes w path = inr bytes →
       let messages := [vision_message text (Py.b64encode bytes)] in
       (∀ resp, chat_invoke w (model (vision self)) messages = inr resp →
          r.1 = inr ("vision", resp))
       ∧ (∀ sc, chat_stream w (model (vision self)) messages = inr sc →
            s.1 = inr ("vision",
                       SWT Created (BStream (fragments sc) (failure sc) false)))).
Proof.
  intros Hpath. destruct path as [|c path]; [done|]. clear Hpath.
  set (p := String c path). simpl.
  unfold route, stream_route. simpl. fold p.
  destruct (read_bytes w p) as [e|bytes] eqn:Hread.
  - rewrite (encode_image_fails w p e Hread). run_m.
    split_and!; [by intros b Hb; apply elem_of_nil in Hb | done..].
  - rewrite (encode_image_ok w p bytes Hread). unfold invoke, stream. run_m.
    destruct (chat_invoke w _ _) as [e|resp] eqn:Hinv;
      destruct (chat_stream w _ _) as [e'|sc] eqn:Hstr; simpl;
      (split_and!;
       [ intros b Hb; repeat (apply elem_of_cons in Hb as [->|Hb]; [done|]);
         by apply elem_of_nil in Hb
       | first [done | by intros ?? [= <- <-]]
       | first [done | intros ?? [= <- <-]; split_and!; [done..|];
                       intros n; apply pull_swt_calls]
       | intros bytes' [= <-]; split; [intros ? ?|intros ? ?]; congruence ]).
Qed.

(** C2. A request without image path is labelled from the classifier's
    result alone: the router model is called, then the coding client when
    the result is exactly "coding" and the general client for any other
    result; the label returned is "coding" in the first case and
    "general" in the second, with the reply of the client that was
    called. *)
Theorem text_request_follows_classifier text image_path c :
  Py.truthy image_path = false →
  (_classify w self text).1 = inr c →
  let b := if decide (c = "coding") then B_coding else B_general in
  let label := if decide (c = "coding") then "coding" else "general" in
  let r := route w self text image_path in
  calls r.2 = [B_router_model; b]
  ∧ (∀ l resp, r.1 = inr (l, resp) → l = label)
  ∧ (∀ resp, chat_invoke w (model (client_of self b)) [HumanText text] = inr resp →
       r.1 = inr (label, resp))
  ∧ (label = "coding" ↔ c = "coding").
Proof.
  intros Himg Hc. simpl. unfold route. rewrite Himg. run_m.
  pose proof (classify_calls w self text) as Hcalls.
  destruct (_classify w self text) as [[e|c'] t]; simpl in *; [done|].
  injection Hc as ->.
  destruct (decide (c = "coding")) as [->|Hne].
  - rewrite String.eqb_refl. unfold invoke. run_m.
    destruct (chat_invoke w (model (coding self)) _) as [e|resp]; simpl;
      rewrite !calls_app, Hcalls; split_and!;
      first [done | by intros ?? [= <- <-] | by intros ? [= <-]].
  - rewrite (proj2 (String.eqb_neq c "coding") Hne). unfold invoke. run_m.
    destruct (chat_invoke w (model (general self)) _) as [e|resp]; simpl;
      rewrite !calls_app, Hcalls; split_and!;
      first [done | by intros ?? [= <- <-] | by intros ? [= <-]].
Qed.

(** C7. When the image file cannot be read, [route] raises the error of
    the encoding step and no client has been called; [run] logs that
    error and raises it again, and its log holds no record with a
    response. *)
Theorem unreadable_image_aborts (svc : InferenceService) text path e :
  path ≠ "" →
  read_bytes w path = inl e →
  let r := route w (router svc) text (Some path) in
  let s := run w svc text (Some path) in
  r.1 = inl e ∧ calls r.2 = []
  ∧ s.1 = inl e ∧ calls s.2 = [] ∧ summaries s.2 = []
  ∧ last s.2 = Some (Log ERROR (Text ("Inference failed: " +:+ exn_str e))).
Proof.
  intros Hpath Hread. destruct path as [|c path]; [done|]. clear Hpath.
  set (p := String c path) in *. simpl.
  unfold run, route. simpl. fold p.
  rewrite (encode_image_fails w p e Hread). by run_m.
Qed.

(** *** The stream of [stream_route] and its consumer *)

Lemma swt_next_cons st c rest f :
  st ≠ Finished →
  swt_next (SWT st (BStream (c :: rest) f false)) =
    ((Yield (chunk_content c), SWT Suspended (BStream rest f false)),
     [Log DEBUG (Text ("Stream chunk: " +:+ chunk_str c))]).
Proof. by destruct st. Qed.

Lemma swt_next_nil st f :
  st ≠ Finished →
  swt_next (SWT st (BStream [] f false)) =
    ((match f with Some e => Raised e | None => StopIteration end,
      SWT Finished (BStream [] None true)), []).
Proof. by destruct st, f. Qed.

Lemma pull_swt_pending n : ∀ st rest f,
  st ≠ Finished → (n ≤ length rest)%nat →
  (pull swt_next n (SWT st (BStream rest f false))).1 =
    (chunk_content <$> take n rest, Pending,
     SWT (match n with O => st | S _ => Suspended end)
         (BStream (drop n rest) f false)).
Proof.
  induction n as [|n IH]; intros st rest f Hst Hn; simpl; [by rewrite drop_0|].
  destruct rest as [|c rest]; simpl in Hn; [lia|].
  rewrite swt_next_cons by done.
  assert (Hn' : (n ≤ length rest)%nat) by lia.
  assert (Hs : Suspended ≠ Finished) by done.
  specialize (IH Suspended rest f Hs Hn').
  destruct (pull swt_next n _) as [[[vs e] g''] t'].
  simpl in *. injection IH as -> -> ->. by destruct n.
Qed.

Lemma pull_swt_done n : ∀ st rest f,
  st ≠ Finished → (length rest < n)%nat →
  (pull swt_next n (SWT st (BStream rest f false))).1 =
    (chunk_content <$> rest, ending_of f, SWT Finished (BStream [] None true)).
Proof.
  induction n as [|n IH]; intros st rest f Hst Hn; [lia|].
  destruct rest as [|c rest]; simpl in *.
  - rewrite swt_next_nil by done. by destruct f.
  - rewrite swt_next_cons by done.
    assert (Hn' : (length rest < n)%nat) by lia.
    assert (Hs : Suspended ≠ Finished) by done.
    specialize (IH Suspended rest f Hs Hn').
    destruct (pull swt_next n _) as [[[vs e] g''] t'].
    simpl in *. by injection IH as -> -> ->.
Qed.

(** A fresh stream read to its end gives the fragments of the script, and
    only a script without failure can be read to its end. *)
Lemma pull_swt_exhausted n sc frags g' :
  (pull swt_next n (SWT Created (BStream (fragments sc) (failure sc) false))).1
    = (frags, Exhausted, g') →
  failure sc = None ∧ frags = chunk_content <$> fragments sc.
Proof.
  destruct (le_lt_dec n (length (fragments sc))) as [Hle|Hlt].
  - by rewrite pull_swt_pending.
  - rewrite pull_swt_done by done. intros [= <- Hf <-].
    by destruct (failure sc).
Qed.

Lemma route_result text image_path :
  (route w self text image_path).1 =
    match decision w self text image_path with
    | inl e => inl e
    | inr (b, label, messages) =>
        match chat_invoke w (model (client_of self b)) messages with
        | inl e => inl e
        | inr resp => inr (label, resp)
        end
    end.
Proof.
  unfold route, decision. destruct (Py.truthy image_path).
  - unfold encode_image_to_base64, invoke. run_m.
    destruct (read_bytes w _) as [e|bytes]; simpl; [done|].
    by destruct (chat_invoke w _ _).
  - run_m. destruct (_classify w self text) as [[e|c] t]; simpl; [done|].
    unfold invoke. run_m.
    by destruct (String.eqb c "coding"); simpl; destruct (chat_invoke w _ _).
Qed.

Lemma stream_route_result text image_path :
  (stream_route w self text image_path).1 =
    match decision w self text image_path with
    | inl e => inl e
    | inr (b, label, messages) =>
        match chat_stream w (model (client_of self b)) messages with
        | inl e => inl e
        | inr sc =>
            inr (label, SWT Created (BStream (fragments sc) (failure sc) false))
        end
    end.
Proof.
  unfold stream_route, decision. destruct (Py.truthy image_path).
  - unfold encode_image_to_base64, stream. run_m.
    destruct (read_bytes w _) as [e|bytes]; simpl; [done|].
    by destruct (chat_stream w _ _).
  - run_m. destruct (_classify w self text) as [[e|c] t]; simpl; [done|].
    unfold stream. run_m.
    by destruct (String.eqb c "coding"); simpl; destruct (chat_stream w _ _).
Qed.

(** C3. Against a deterministic backend [route] and [stream_route] agree
    on every input: [route] returns a label and a response exactly when
    [stream_route] returns that label with a stream that can be read to
    its end and whose fragments, joined, are that response. *)
Theorem route_and_stream_route_agree text image_path label resp :
  deterministic w →
  (route w self text image_path).1 = inr (label, resp)
  ↔ ∃ g n frags g',
      (stream_route w self text image_path).1 = inr (label, g)
      ∧ (pull swt_next n g).1 = (frags, Exhausted, g')
      ∧ join_chunks frags = resp.
Proof.
  intros Hdet. rewrite route_result, stream_route_result.
  destruct (decision w self text image_path) as [e|[[b l] messages]].
  { split; [done | by intros (? & ? & ? & ? & ? & _)]. }
  rewrite Hdet. destruct (chat_stream w _ _) as [e|sc].
  { split; [done | by intros (? & ? & ? & ? & ? & _)]. }
  unfold stream_text. split.
  - destruct (failure sc) eqn:Hf; [done|]. intros [= <- <-].
    eexists _, (S (length (fragments sc))), _, _. split_and!; [done| |done].
    rewrite pull_swt_done by (done || lia). f_equal.
  - intros (g & n & frags & g' & [= <- <-] & Hpull & <-).
    apply pull_swt_exhausted in Hpull as [-> ->]. done.
Qed.

End RouterClaims.

Section Construction.
Context (w : World).

(** C10. A configuration without the key "MODEL_GENERAL" never yields a
    router: [_load_models] raises. When the three role clients can be
    built, they are built from the defaults and the configuration (the
    general one from the default "llama3.2:3b"), which the log records,
    and the error is the [KeyError] of [cfg["MODEL_GENERAL"]]. *)
Theorem missing_MODEL_GENERAL_is_a_KeyError (cfg : gmap string string) :
  cfg !! "MODEL_GENERAL" = None →
  let coding_model := default "qwen2.5-coder:3b" (cfg !! "MODEL_CODING") in
  let vision_model := default "llava-phi3" (cfg !! "MODEL_VISION") in
  let r := ModelRouter_init w cfg in
  (∀ self, r.1 ≠ inr self)
  ∧ (chat_init w "llama3.2:3b" = None →
     chat_init w coding_model = None →
     chat_init w vision_model = None →
     r = (inl (Exn "KeyError" "'MODEL_GENERAL'"),
          [Log INFO (Text ("Models loaded: general=" +:+ "llama3.2:3b"
                           +:+ ", coding=" +:+ coding_model
                           +:+ ", vision=" +:+ vision_model +:+ "."))])).
Proof.
  intros Hcfg. simpl. unfold ModelRouter_init, _load_models.
  change (getitem DEFAULTS "MODEL_GENERAL") with (@ret string "llama3.2:3b").
  change (getitem DEFAULTS "MODEL_CODING") with (@ret string "qwen2.5-coder:3b").
  change (getitem DEFAULTS "MODEL_VISION") with (@ret string "llava-phi3").
  unfold getitem, ChatOllama_new. rewrite Hcfg.
  unfold reraising, try_except, bind, of_result, emit, ret, raise,
    logger_info, logger_error; simpl.
  destruct (chat_init w "llama3.2:3b"); simpl; [done|].
  destruct (chat_init w (default _ (cfg !! "MODEL_CODING"))); simpl; [done|].
  destruct (chat_init w (default _ (cfg !! "MODEL_VISION"))); simpl; done.
Qed.

End Construction.

(** ** The classifier *)

Section ClassifierClaims.
Context (w : World) (self : ModelRouter).

(** C5. Whatever string the router model answers, [_classify] returns
    without raising: the label is the first whole-word match among
    general, coding and vision in the lowercased answer when there is
    one, and else the lowercased, trimmed answer, which is also the
    trimmed, lowercased one. *)
Theorem classify_first_whole_word_or_raw text result :
  chat_invoke w (model (router_model self)) [HumanText (classify_prompt text)]
    = inr result →
  ∃ label, (_classify w self text).1 = inr label
    ∧ (first_whole_word (Py.lower result) label
       ∨ (no_whole_word (Py.lower result)
          ∧ label = Py.strip (Py.lower result)
          ∧ label = Py.lower (Py.strip result)))
    ∧ (∀ word, first_whole_word (Py.lower result) word → label = word).
Proof.
  intros Hinv. exists (classify_label result).
  rewrite classify_result, Hinv. split; [done|]. split.
  - destruct (classify_label_spec result) as [Hf|[Hn He]]; [by left|].
    right. split_and!; [done..|]. by rewrite lower_strip.
  - intros word Hword. apply classify_label_in_LABELS; [apply Hword | done].
Qed.

(** C4, as the code has it. The classifier does return "vision": it does
    so exactly when "vision" is the first whole-word match among the
    three labels in the lowercased answer of the router model. It is the
    router that never labels a request without image "vision": such a
    result is labelled "general". *)
Theorem classifier_vision_iff_first_match text result :
  chat_invoke w (model (router_model self)) [HumanText (classify_prompt text)]
    = inr result →
  ((_classify w self text).1 = inr "vision"
   ↔ first_whole_word (Py.lower result) "vision")
  ∧ ∀ image_path label resp,
      Py.truthy image_path = false →
      (route w self text image_path).1 = inr (label, resp) →
      label ≠ "vision"
      ∧ ((_classify w self text).1 = inr "vision" → label = "general").
Proof.
  intros Hinv. split.
  - rewrite classify_result, Hinv.
    rewrite <- (classify_label_in_LABELS result "vision")
      by (apply elem_of_LABELS; auto).
    split; [by intros [= ->] | by intros ->].
  - clear Hinv. intros image_path label resp Himg. rewrite route_result.
    unfold decision. rewrite Himg.
    destruct ((_classify w self text).1) as [e|c]; [done|].
    destruct (String.eqb_spec c "coding") as [->|Hne]; simpl;
      destruct (chat_invoke w _ _); try done;
      intros [= <- <-]; split; try done; by intros [= ->].
Qed.

End ClassifierClaims.

(** ** The inference service *)

Section ServiceClaims.
Context (w : World) (svc : InferenceService).

Lemma summaries_cons_text l s t :
  summaries (Log l (Text s) :: t) = summaries t.
Proof. done. Qed.

Lemma swt_next_summaries g : summaries (swt_next g).2 = [].
Proof.
  unfold swt_next. destruct (swt_status g); [| |done];
    by destruct (bs_next (swt_stream g)) as [[c| |e] s'].
Qed.

Lemma stream_route_summaries self text image_path :
  summaries (stream_route w self text image_path).2 = [].
Proof.
  unfold stream_route. destruct (Py.truthy image_path).
  - unfold encode_image_to_base64, stream. run_m.
    destruct (read_bytes w _) as [e|bytes]; simpl; [done|].
    by destruct (chat_stream w _ _).
  - run_m. pose proof (classify_summaries w self text) as Hc.
    destruct (_classify w self text) as [[e|c] t]; simpl in *.
    + by rewrite summaries_app, Hc.
    + unfold stream. run_m.
      destruct (String.eqb c "coding"); simpl;
        destruct (chat_stream w _ _); simpl;
        by rewrite !summaries_app, Hc.
Qed.

(** From a suspended generator: the summary is logged when, and only
    when, the consumer sees the end, and it joins all the fragments
    yielded so far. *)
Lemma pull_suspended_summaries n : ∀ mt text ip g chunks frags e g' t,
  pull (run_stream_next w svc) n (RS_suspended mt text ip g chunks)
    = ((frags, e, g'), t) →
  (e = Exhausted →
     summaries t = [LogObj mt text ip (join_chunks (chunks ++ frags))])
  ∧ (e ≠ Exhausted → summaries t = []).
Proof.
  induction n as [|n IH]; intros mt text ip g chunks frags e g' t; simpl.
  { by intros [= <- <- <- <-]. }
  unfold run_stream_loop. pose proof (swt_next_summaries g) as Hs.
  destruct (swt_next g) as [[[v| |err] g1] t1]; simpl in *.
  - destruct (pull (run_stream_next w svc) n _) as [[[vs e1] g2] t2] eqn:Hp.
    intros [= <- <- <- <-]. apply IH in Hp as [H1 H2].
    rewrite !summaries_app, Hs. simpl.
    rewrite <- (assoc_L (++)) in H1. simpl in H1. by split.
  - intros [= <- <- <- <-]. rewrite summaries_app, Hs, app_nil_r. by split.
  - intros [= <- <- <- <-]. rewrite summaries_app, Hs. by split.
Qed.

(** The consumer of [run_stream] sees the fragments and the ending that
    the consumer of the router's stream would see. *)
Lemma pull_suspended_view n : ∀ mt text ip g chunks,
  (pull (run_stream_next w svc) n (RS_suspended mt text ip g chunks)).1.1
    = (pull swt_next n g).1.1.
Proof.
  induction n as [|n IH]; intros mt text ip g chunks; simpl; [done|].
  unfold run_stream_loop.
  destruct (swt_next g) as [[[v| |err] g1] t1]; simpl; [|done..].
  specialize (IH mt text ip g1 (chunks ++ [v])).
  destruct (pull (run_stream_next w svc) n _) as [[[vs e1] g2] t2].
  destruct (pull swt_next n g1) as [[[vs' e1'] g2'] t2'].
  simpl in *. by injection IH as -> ->.
Qed.

Lemma run_stream_next_created text ip :
  run_stream_next w svc (RS_created text ip) =
    let t0 := [Log INFO (Text ("Running stream inference. Text: " +:+ text
                               +:+ ", Image: " +:+ Py.fmt_opt ip))] in
    match stream_route w (router svc) text ip with
    | (inr (mt, g), t) =>
        let '(r, t') := run_stream_next w svc (RS_suspended mt text ip g []) in
        (r, t0 ++ t ++ t')
    | (inl e, t) =>
        ((Raised e, RS_finished),
         t0 ++ t ++ [Log ERROR (Text ("Stream inference failed: " +:+ exn_str e))])
    end.
Proof. done. Qed.

(** C6. The summary record of a streaming call: when the consumer reads
    the sequence to its end, the log holds exactly one summary and its
    response is the fragments yielded, joined in order; when it does not
    (it stops earlier, or an error comes out), the log holds none. The
    end is reached: a consumer that asks for more items than the backend
    stream holds sees them all, and the end if the stream does not fail;
    one that asks for no more than it holds is left pending. *)
Theorem summary_iff_fully_drained text image_path n frags e g' t :
  pull (run_stream_next w svc) n (run_stream svc text image_path)
    = ((frags, e, g'), t) →
  (e = Exhausted →
     ∃ model_type g,
       (stream_route w (router svc) text image_path).1 = inr (model_type, g)
       ∧ summaries t
         = [LogObj model_type text image_path (join_chunks frags)])
  ∧ (e ≠ Exhausted → summaries t = [])
  ∧ (∀ model_type cs f,
       (stream_route w (router svc) text image_path).1
         = inr (model_type, SWT Created (BStream cs f false)) →
       if decide (n ≤ length cs)%nat
       then e = Pending ∧ frags = chunk_content <$> take n cs
       else e = ending_of f ∧ frags = chunk_content <$> cs).
Proof.
  unfold run_stream. destruct n as [|n].
  { simpl. intros [= <- <- <- <-]. split_and!; [done..|].
    by intros mt cs f _. }
  change (pull (run_stream_next w svc) (S n) (RS_created text image_path))
    with (match run_stream_next w svc (RS_created text image_path) with
          | ((Yield v, g1), t1) =>
              let '((vs, e, g''), t') := pull (run_stream_next w svc) n g1 in
              ((v :: vs, e, g''), t1 ++ t')
          | ((StopIteration, g1), t1) => (([], Exhausted, g1), t1)
          | ((Raised e, g1), t1) => (([], Failed e, g1), t1)
          end).
  rewrite run_stream_next_created.
  pose proof (stream_route_summaries (router svc) text image_path) as Hsr.
  destruct (stream_route w (router svc) text image_path) as [[err|[mt g]] tr];
    simpl in *.
  { intros [= <- <- <- <-]. rewrite summaries_cons_text, summaries_app, Hsr.
    split_and!; done. }
  pose proof (pull_suspended_summaries (S n) mt text image_path g []) as Hsum.
  pose proof (pull_suspended_view (S n) mt text image_path g []) as Hview.
  remember (pull swt_next (S n) g) as view eqn:Hv.
  assert (Hends : ∀ mt' cs f,
    @inr exn _ (mt, g) = inr (mt', SWT Created (BStream cs f false)) →
    if decide (S n ≤ length cs)%nat
    then view.1.1 = (chunk_content <$> take (S n) cs, Pending)
    else view.1.1 = (chunk_content <$> cs, ending_of f)).
  { intros mt' cs f [= <- ->]. subst view. case_decide.
    - by rewrite pull_swt_pending.
    - rewrite pull_swt_done by (done || lia). done. }
  clear Hv. simpl in Hsum, Hview.
  destruct (run_stream_loop mt text image_path g []) as [[[v| |err] g1] t1];
    simpl in Hsum, Hview |- *.
  - destruct (pull (run_stream_next w svc) n g1) as [[[vs e1] g2] t2].
    intros [= <- <- <- <-].
    destruct (Hsum _ _ _ _ eq_refl) as [H1 H2].
    rewrite summaries_cons_text, <- ?(assoc_L (++)), summaries_app, Hsr.
    simpl. split_and!.
    + intros He. exists mt, g. split; [done|]. by apply H1.
    + done.
    + intros mt' cs f Heq. specialize (Hends mt' cs f Heq).
      rewrite <- Hview in Hends. simpl in Hends.
      case_decide; by injection Hends as -> ->.
  - intros [= <- <- <- <-]. destruct (Hsum _ _ _ _ eq_refl) as [H1 H2].
    rewrite summaries_cons_text, <- ?(assoc_L (++)), summaries_app, Hsr.
    simpl. split_and!.
    + intros _. exists mt, g. split; [done|]. by apply H1.
    + done.
    + intros mt' cs f Heq. specialize (Hends mt' cs f Heq).
      rewrite <- Hview in Hends. simpl in Hends.
      case_decide; [done | by injection Hends as <- <-].
  - intros [= <- <- <- <-]. destruct (Hsum _ _ _ _ eq_refl) as [H1 H2].
    rewrite summaries_cons_text, <- ?(assoc_L (++)), summaries_app, Hsr.
    simpl. split_and!.
    + done.
    + intros _. by apply H2.
    + intros mt' cs f Heq. specialize (Hends mt' cs f Heq).
      rewrite <- Hview in Hends. simpl in Hends.
      case_decide; [done | by injection Hends as <- <-].
Qed.

End ServiceClaims.

(** ** The stream and its backend *)

Section StreamClaims.
Context (w : World) (self : ModelRouter).

Lemma stream_route_fresh text image_path label g :
  (stream_route w self text image_path).1 = inr (label, g) →
  ∃ cs f, g = SWT Created (BStream cs f false).
Proof.
  rewrite stream_route_result.
  destruct (decision w self text image_path) as [e|[[b l] messages]]; [done|].
  destruct (chat_stream w _ _) as [e|sc]; [done|].
  intros [= <- <-]. by eexists _, _.
Qed.

(** C9, as the code has it. The generator of [stream_route] only asks
    the backend stream for its next fragment and never closes it. The
    backend stream is finished when it has been read to its end or has
    failed, in which case the fragments yielded before stay yielded. When
    the consumer stops early and lets go of the generator, the backend
    stream is left as it is: not finished, holding the fragments not yet
    asked for. *)
Theorem backend_stream_only_read text image_path label g :
  (stream_route w self text image_path).1 = inr (label, g) →
  ∃ cs f, g = SWT Created (BStream cs f false)
    ∧ ∀ n,
        let r := (pull swt_next n g).1 in
        let backend := swt_stream (swt_close r.2) in
        if decide (n ≤ length cs)%nat
        then r.1 = (chunk_content <$> take n cs, Pending)
             ∧ backend = BStream (drop n cs) f false
        else r.1 = (chunk_content <$> cs, ending_of f)
             ∧ bs_done backend = true.
Proof.
  intros Hs. destruct (stream_route_fresh _ _ _ _ Hs) as (cs & f & ->).
  exists cs, f. split; [done|]. intros n. simpl. case_decide.
  - by rewrite pull_swt_pending.
  - by rewrite pull_swt_done by (done || lia).
Qed.

End StreamClaims.

(** ** The image handler *)

Section ImageClaims.
Context (w : World).

(** C8, as the code has it. When the image a call refers to is not a
    file, [handle_image] returns no image path and the text as it was
    given, inline tags included; it reports the missing file and touches
    nothing on disk. *)
Theorem missing_image_keeps_text input_text input_image path :
  referenced_image input_text input_image = Some path →
  isfile w path = false →
  let r := handle_image w input_text input_image in
  r.1 = inr (input_text, None)
  ∧ last r.2 = Some (Print (Py.nl +:+ "💥 Error: Image file '" +:+ path
                            +:+ "' not found."))
  ∧ (∀ p, MakeDirs p ∉ r.2) ∧ (∀ a b, Copy a b ∉ r.2).
Proof.
  unfold referenced_image, handle_image. intros Href Hfile. simpl.
  destruct (Py.truthy input_image); simpl.
  - injection Href as <-. rewrite Hfile.
    unfold not_found, bind, emit, ret, logger_error. simpl.
    split_and!; [done..| |]; intros *; rewrite !elem_of_cons, elem_of_nil;
      intuition congruence.
  - destruct (Py.truthy input_text); simpl; [|done].
    destruct (Py.search_tag (default "" input_text)) as [[start g]|]; [|done].
    injection Href as <-. rewrite Hfile.
    unfold not_found, bind, emit, ret, logger_error, logger_debug. simpl.
    split_and!; [done..| |]; intros *; rewrite !elem_of_cons, elem_of_nil;
      intuition congruence.
Qed.

End ImageClaims.

(** ** The scenarios of the specification, in the sample world *)

Lemma sample_world_deterministic : deterministic sample_world.
Proof. intros name messages. reflexivity. Defined.

(** Scenario 3: a text with an image is a vision request. *)
Lemma image_path_forces_vision_witness :
  "cat.png" ≠ ""
  ∧ (route sample_world sample_router "describe this" (Some "cat.png")).1
    = inr ("vision", "a cat")
  ∧ calls (route sample_world sample_router "describe this" (Some "cat.png")).2
    = [B_vision].
Proof.
  assert (Hpath : "cat.png" ≠ "") by discriminate.
  destruct (image_path_forces_vision sample_world sample_router
              "describe this" "cat.png" Hpath) as (_ & Hlabel & _ & Hret).
  destruct (Hret [Byte.x4d; Byte.x61; Byte.x6e; Byte.x21] eq_refl) as [Hr _].
  specialize (Hr "a cat" eq_refl).
  split_and!; [exact Hpath | exact Hr | exact (proj2 (Hlabel _ _ Hr))].
Defined.

(** Scenario 2: a text that the classifier calls coding goes to the coding
    client. *)
Lemma text_request_follows_classifier_witness :
  Py.truthy None = false
  ∧ (_classify sample_world sample_router "write a quicksort in Python").1
    = inr "coding"
  ∧ (route sample_world sample_router "write a quicksort in Python" None).1
    = inr ("coding", "Hello").
Proof.
  assert (Hc : (_classify sample_world sample_router
                  "write a quicksort in Python").1 = inr "coding")
    by (vm_compute; reflexivity).
  destruct (text_request_follows_classifier sample_world sample_router
              "write a quicksort in Python" None "coding" eq_refl Hc)
    as (_ & _ & Hret & _).
  split_and!; [reflexivity | exact Hc | exact (Hret "Hello" eq_refl)].
Defined.

(** Scenario 1, both ways of calling: the same label, and the fragments
    "Hel", "lo" join to the response "Hello". *)
Lemma route_and_stream_route_agree_witness :
  deterministic sample_world
  ∧ ∃ g n frags g',
      (stream_route sample_world sample_router "What is 2+2?" None).1
        = inr ("general", g)
      ∧ (pull swt_next n g).1 = (frags, Exhausted, g')
      ∧ join_chunks frags = "Hello".
Proof.
  split; [exact sample_world_deterministic|].
  apply (route_and_stream_route_agree sample_world sample_router
           "What is 2+2?" None "general" "Hello" sample_world_deterministic).
  vm_compute. reflexivity.
Defined.

(** The classifier answering "I would say: Vision" *)
Lemma classifier_returns_vision :
  (_classify sample_world sample_router "what do you see").1 = inr "vision".
Proof. vm_compute. reflexivity. Qed.

Lemma classifier_vision_iff_first_match_witness :
  chat_invoke sample_world (model (router_model sample_router))
    [HumanText (classify_prompt "what do you see")] = inr "I would say: Vision"
  ∧ first_whole_word (Py.lower "I would say: Vision") "vision"
  ∧ (route sample_world sample_router "what do you see" None).1
    = inr ("general", "Hello").
Proof.
  assert (Hinv : chat_invoke sample_world (model (router_model sample_router))
            [HumanText (classify_prompt "what do you see")]
            = inr "I would say: Vision") by (vm_compute; reflexivity).
  destruct (classifier_vision_iff_first_match sample_world sample_router
              "what do you see" "I would say: Vision" Hinv) as [Hiff Hroute].
  split_and!; [exact Hinv | apply Hiff; vm_compute; reflexivity |].
  vm_compute. reflexivity.
Defined.

Lemma classify_first_whole_word_or_raw_witness :
  chat_invoke sample_world (model (router_model sample_router))
    [HumanText (classify_prompt "write a quicksort in Python")] = inr "Coding."
  ∧ ∃ label,
      (_classify sample_world sample_router "write a quicksort in Python").1
        = inr label
      ∧ (first_whole_word (Py.lower "Coding.") label
         ∨ (no_whole_word (Py.lower "Coding.")
            ∧ label = Py.strip (Py.lower "Coding.")
            ∧ label = Py.lower (Py.strip "Coding.")))
      ∧ (∀ word, first_whole_word (Py.lower "Coding.") word → label = word).
Proof.
  assert (Hinv : chat_invoke sample_world (model (router_model sample_router))
            [HumanText (classify_prompt "write a quicksort in Python")]
            = inr "Coding.") by (vm_compute; reflexivity).
  split; [exact Hinv|].
  exact (classify_first_whole_word_or_raw sample_world sample_router
           "write a quicksort in Python" "Coding." Hinv).
Defined.

(** "uncoding" holds no whole word "coding": it is returned as it is. *)
Example classify_uncoding : classify_label " UnCoding " = "uncoding".
Proof. vm_compute. reflexivity. Qed.

(** Scenario 5: the fragments "Hel" and "lo", then the end; the summary
    holds "Hello". *)
Lemma summary_iff_fully_drained_witness :
  pull (run_stream_next sample_world sample_service) 3
    (run_stream sample_service "What is 2+2?" None)
    = ((["Hel"; "lo"], Exhausted, RS_finished), sample_stream_trace)
  ∧ summaries sample_stream_trace
    = [LogObj "general" "What is 2+2?" None "Hello"].
Proof.
  assert (Hp : pull (run_stream_next sample_world sample_service) 3
                 (run_stream sample_service "What is 2+2?" None)
               = ((["Hel"; "lo"], Exhausted, RS_finished), sample_stream_trace))
    by (vm_compute; reflexivity).
  destruct (summary_iff_fully_drained sample_world sample_service
              "What is 2+2?" None 3 _ _ _ _ Hp) as (Hsum & _ & _).
  split; [exact Hp|].
  destruct (Hsum eq_refl) as (mt & g & _ & Hs).
  vm_compute. reflexivity.
Defined.

(** Scenario 4: a missing image aborts the call. *)
Lemma unreadable_image_aborts_witness :
  "missing.png" ≠ ""
  ∧ read_bytes sample_world "missing.png"
    = inl (Exn "FileNotFoundError"
             "[Errno 2] No such file or directory: 'missing.png'")
  ∧ calls (run sample_world sample_service "describe this"
             (Some "missing.png")).2 = []
  ∧ summaries (run sample_world sample_service "describe this"
                 (Some "missing.png")).2 = [].
Proof.
  assert (Hpath : "missing.png" ≠ "") by discriminate.
  assert (Hread : read_bytes sample_world "missing.png"
            = inl (Exn "FileNotFoundError"
                     "[Errno 2] No such file or directory: 'missing.png'"))
    by (vm_compute; reflexivity).
  destruct (unreadable_image_aborts sample_world sample_service
              "describe this" "missing.png" _ Hpath Hread)
    as (_ & _ & _ & Hcalls & Hsum & _).
  split_and!; [exact Hpath | exact Hread | exact Hcalls | exact Hsum].
Defined.

(** A tag that names no file: the text comes back with the tag. *)
Lemma missing_image_text_still_tagged :
  isfile sample_world "dog.png" = false
  ∧ (handle_image sample_world (Some "look <image>dog.png<image> here") None).1
    = inr (Some "look <image>dog.png<image> here", None)
  ∧ Py.search_tag "look <image>dog.png<image> here" = Some (5%nat, "dog.png")
  ∧ Py.sub_tag "look <image>dog.png<image> here" ≠ "look <image>dog.png<image> here".
Proof. vm_compute. split_and!; [reflexivity..| discriminate]. Qed.

Lemma missing_image_keeps_text_witness :
  referenced_image (Some "look <image>dog.png<image> here") None = Some "dog.png"
  ∧ isfile sample_world "dog.png" = false
  ∧ (handle_image sample_world (Some "look <image>dog.png<image> here") None).1
    = inr (Some "look <image>dog.png<image> here", None).
Proof.
  assert (Href : referenced_image (Some "look <image>dog.png<image> here") None
                 = Some "dog.png") by (vm_compute; reflexivity).
  assert (Hfile : isfile sample_world "dog.png" = false) by reflexivity.
  destruct (missing_image_keeps_text sample_world _ _ _ Href Hfile) as [Hr _].
  split_and!; [exact Href | exact Hfile | exact Hr].
Defined.

(** A consumer that takes one fragment and lets go: the backend stream
    still holds "lo" and has not been finished. *)
Lemma early_stop_leaves_backend_stream_open :
  let g := SWT Created (BStream [Obj "Hel" "content='Hel'"; Raw "lo"] None false) in
  (stream_route sample_world sample_router "What is 2+2?" None).1
    = inr ("general", g)
  ∧ (pull swt_next 1 g).1.1 = (["Hel"], Pending)
  ∧ swt_stream (swt_close (pull swt_next 1 g).1.2)
    = BStream [Raw "lo"] None false
  ∧ bs_done (swt_stream (swt_close (pull swt_next 1 g).1.2)) = false.
Proof. vm_compute. split_and!; reflexivity. Qed.

Lemma backend_stream_only_read_witness :
  let g := SWT Created (BStream [Obj "Hel" "content='Hel'"; Raw "lo"] None false) in
  (stream_route sample_world sample_router "What is 2+2?" None).1
    = inr ("general", g)
  ∧ ∃ cs f, g = SWT Created (BStream cs f false).
Proof.
  assert (Hs : (stream_route sample_world sample_router "What is 2+2?" None).1
    = inr ("general",
           SWT Created (BStream [Obj "Hel" "content='Hel'"; Raw "lo"] None false)))
    by (vm_compute; reflexivity).
  split; [exact Hs|].
  destruct (backend_stream_only_read sample_world sample_router _ _ _ _ Hs)
    as (cs & f & Hg & _).
  by exists cs, f.
Defined.

Lemma missing_MODEL_GENERAL_is_a_KeyError_witness :
  (<["MODEL_CODING" := "codellama"]> ∅ : gmap string string) !! "MODEL_GENERAL"
    = None
  ∧ ModelRouter_init sample_world (<["MODEL_CODING" := "codellama"]> ∅)
    = (inl (Exn "KeyError" "'MODEL_GENERAL'"),
       [Log INFO (Text "Models loaded: general=llama3.2:3b, coding=codellama, vision=llava-phi3.")]).
Proof.
  assert (Hcfg : (<["MODEL_CODING" := "codellama"]> ∅ : gmap string string)
                   !! "MODEL_GENERAL" = None) by (vm_compute; reflexivity).
  destruct (missing_MODEL_GENERAL_is_a_KeyError sample_world _ Hcfg)
    as [_ Hr].
  split; [exact Hcfg|]. exact (Hr eq_refl eq_refl eq_refl).
Defined.

(** * Further properties of the code *)

(** ** services/inference_service.py *)

Section ServiceFacts.
Context (w : World) (svc : InferenceService).

Lemma route_summaries self text image_path :
  summaries (route w self text image_path).2 = [].
Proof.
  unfold route. destruct (Py.truthy image_path).
  - unfold encode_image_to_base64, invoke. run_m.
    destruct (read_bytes w _) as [e|bytes]; simpl; [done|].
    by destruct (chat_invoke w _ _).
  - run_m. pose proof (classify_summaries w self text) as Hc.
    destruct (_classify w self text) as [[e|c] t]; simpl in *.
    + by rewrite summaries_app, Hc.
    + unfold invoke. run_m.
      destruct (String.eqb c "coding"); simpl;
        destruct (chat_invoke w _ _); simpl;
        by rewrite !summaries_app, Hc.
Qed.

Lemma last_snoc_cons {A} (x : A) l y : last (x :: l ++ [y]) = Some y.
Proof. by rewrite app_comm_cons, last_snoc. Qed.

Lemma last_snoc2_cons {A} (x : A) l y z : last (x :: l ++ [y; z]) = Some z.
Proof.
  change (x :: l ++ [y; z]) with (x :: l ++ [y] ++ [z]).
  by rewrite (assoc_L (++)), last_snoc_cons.
Qed.

Lemma run_spec text image_path :
  let r := route w (router svc) text image_path in
  let s := run w svc text image_path in
  calls s.2 = calls r.2
  ∧ match r.1 with
    | inr (model_type, result) =>
        s.1 = inr result
        ∧ summaries s.2 = [LogObj model_type text image_path result]
        ∧ last s.2 = Some (Log INFO (Text "Inference completed successfully."))
    | inl e =>
        s.1 = inl e
        ∧ summaries s.2 = []
        ∧ last s.2 = Some (Log ERROR (Text ("Inference failed: " +:+ exn_str e)))
    end.
Proof.
  simpl. unfold run. run_m.
  pose proof (route_summaries (router svc) text image_path) as Hs.
  destruct (route w (router svc) text image_path) as [[e|[mt result]] t];
    simpl in *.
  - rewrite calls_app, summaries_app, Hs, last_snoc_cons. simpl.
    by rewrite app_nil_r.
  - rewrite calls_app, summaries_app, Hs. simpl. rewrite app_nil_r.
    split_and!; [done..|].
    change (Log INFO (Text ?a) :: t ++ [?x; ?y]) with
      (Log INFO (Text a) :: t ++ [x] ++ [y]).
    by rewrite (assoc_L (++)), last_snoc_cons.
Qed.


(** The first [next] opens the stream; from then on the generator goes
    as a suspended one that holds no chunk yet. *)
Lemma pull_created n text ip mt g tr :
  stream_route w (router svc) text ip = (inr (mt, g), tr) →
  pull (run_stream_next w svc) (S n) (RS_created text ip) =
    let '(r, t) :=
      pull (run_stream_next w svc) (S n) (RS_suspended mt text ip g []) in
    (r, Log INFO (Text ("Running stream inference. Text: " +:+ text
                        +:+ ", Image: " +:+ Py.fmt_opt ip)) :: tr ++ t).
Proof.
  intros Hsr. simpl. rewrite Hsr.
  destruct (run_stream_loop mt text ip g []) as [[[v| |e] g1] t1]; simpl;
    [|done..].
  destruct (pull (run_stream_next w svc) n g1) as [[[vs e1] g2] t2].
  by rewrite <- (assoc_L (++)).
Qed.

Lemma pull_created_fails n text ip e tr :
  stream_route w (router svc) text ip = (inl e, tr) →
  pull (run_stream_next w svc) (S n) (RS_created text ip) =
    (([], Failed e, RS_finished),
     Log INFO (Text ("Running stream inference. Text: " +:+ text
                     +:+ ", Image: " +:+ Py.fmt_opt ip))
       :: tr ++ [Log ERROR (Text ("Stream inference failed: " +:+ exn_str e))]).
Proof. intros Hsr. simpl. by rewrite Hsr. Qed.

(** X2. [run_stream] is transparent: its consumer is handed the very
    fragments, in the same order and with the same ending, that the stream
    of [stream_route] gives; and when [stream_route] raises, the first
    [next] raises that exception after logging it, with no summary. *)
Theorem run_stream_passes_through text image_path n :
  match (stream_route w (router svc) text image_path).1 with
  | inr (_, g) =>
      (pull (run_stream_next w svc) n (run_stream svc text image_path)).1.1
        = (pull swt_next n g).1.1
  | inl e =>
      let r := pull (run_stream_next w svc) (S n)
                 (run_stream svc text image_path) in
      r.1 = ([], Failed e, RS_finished)
      ∧ summaries r.2 = []
      ∧ last r.2
        = Some (Log ERROR (Text ("Stream inference failed: " +:+ exn_str e)))
  end.
Proof.
  unfold run_stream.
  pose proof (stream_route_summaries w (router svc) text image_path) as Hs.
  destruct (stream_route w (router svc) text image_path) as [[e|[mt g]] tr] eqn:Hsr;
    simpl in Hs; cbn [fst].
  - rewrite (pull_created_fails n _ _ _ _ Hsr). simpl.
    rewrite summaries_app, Hs, last_snoc_cons. done.
  - destruct n as [|n]; [done|].
    rewrite (pull_created n _ _ _ _ _ Hsr).
    pose proof (pull_suspended_view w svc (S n) mt text image_path g []) as Hv.
    by destruct (pull (run_stream_next w svc) (S n) (RS_suspended _ _ _ _ _))
      as [[[vs e1] g2] t2].
Qed.

(** One turn of a suspended generator, by what the backend stream holds *)
Lemma pull_suspended_cons m mt text ip st c cs f chunks :
  st ≠ Finished →
  pull (run_stream_next w svc) (S m)
    (RS_suspended mt text ip (SWT st (BStream (c :: cs) f false)) chunks) =
    let '((vs, e, g'), t) :=
      pull (run_stream_next w svc) m
        (RS_suspended mt text ip (SWT Suspended (BStream cs f false))
           (chunks ++ [chunk_content c])) in
    ((chunk_content c :: vs, e, g'),
     [Log DEBUG (Text ("Stream chunk: " +:+ chunk_str c));
      Log DEBUG (Text ("Streamed chunk: " +:+ chunk_content c))] ++ t).
Proof.
  intros Hst. simpl. unfold run_stream_loop. by rewrite swt_next_cons.
Qed.

Lemma pull_suspended_nil m mt text ip st f chunks :
  st ≠ Finished →
  pull (run_stream_next w svc) (S m)
    (RS_suspended mt text ip (SWT st (BStream [] f false)) chunks) =
    match f with
    | Some e =>
        (([], Failed e, RS_finished),
         [Log ERROR (Text ("Stream inference failed: " +:+ exn_str e))])
    | None =>
        (([], Exhausted, RS_finished),
         [Log INFO (Json (LogObj mt text ip (join_chunks chunks)))])
    end.
Proof.
  intros Hst. simpl. unfold run_stream_loop. rewrite swt_next_nil by done.
  by destruct f.
Qed.

(** A stream that fails after its fragments: they are all yielded, then
    the error is logged and raised. *)
Lemma pull_suspended_failure mt text ip e : ∀ cs st chunks,
  st ≠ Finished →
  let r := pull (run_stream_next w svc) (S (length cs))
             (RS_suspended mt text ip (SWT st (BStream cs (Some e) false)) chunks) in
  r.1 = (chunk_content <$> cs, Failed e, RS_finished)
  ∧ summaries r.2 = []
  ∧ last r.2
    = Some (Log ERROR (Text ("Stream inference failed: " +:+ exn_str e))).
Proof.
  induction cs as [|c cs IH]; intros st chunks Hst; cbn zeta.
  - change (length []) with 0%nat. by rewrite pull_suspended_nil.
  - assert (Hs : Suspended ≠ Finished) by done.
    specialize (IH Suspended (chunks ++ [chunk_content c]) Hs).
    change (length (c :: cs)) with (S (length cs)).
    rewrite pull_suspended_cons by done. cbn zeta in IH.
    destruct (pull (run_stream_next w svc) (S (length cs)) _)
      as [[[vs e1] g2] t2].
    simpl in *. destruct IH as ([= -> -> ->] & Hsum & Hlast).
    split_and!; [done..|].
    rewrite <- Hlast. destruct t2 as [|x t2]; [done|].
    by rewrite !last_cons_cons.
Qed.

(** X3. An error in the middle of a stream: the fragments that came
    before it are yielded, then the exception comes out of [next]
    unchanged; the log ends on the error entry and holds no summary. *)
Theorem mid_stream_error_is_logged_and_raised text image_path mt cs e :
  (stream_route w (router svc) text image_path).1
    = inr (mt, SWT Created (BStream cs (Some e) false)) →
  let r := pull (run_stream_next w svc) (S (length cs))
             (run_stream svc text image_path) in
  r.1 = (chunk_content <$> cs, Failed e, RS_finished)
  ∧ summaries r.2 = []
  ∧ last r.2
    = Some (Log ERROR (Text ("Stream inference failed: " +:+ exn_str e))).
Proof.
  unfold run_stream.
  pose proof (stream_route_summaries w (router svc) text image_path) as Hs.
  destruct (stream_route w (router svc) text image_path) as [[e'|[mt' g]] tr] eqn:Hsr;
    simpl in Hs; cbn [fst]; [done|]. intros [= -> ->]. cbn zeta.
  rewrite (pull_created (length cs) _ _ _ _ _ Hsr).
  assert (Hc : Created ≠ Finished) by done.
  destruct (pull_suspended_failure mt text image_path e cs Created [] Hc)
    as (H1 & H2 & H3).
  destruct (pull (run_stream_next w svc) (S (length cs)) (RS_suspended _ _ _ _ _))
    as [[[vs e1] g2] t2].
  simpl in *. rewrite summaries_app, Hs, H2. split_and!; [done..|].
  rewrite <- H3. destruct t2 as [|x t2]; [done|].
  by rewrite app_comm_cons, last_app_cons.
Qed.

(** *** Whatever the consumer does *)

Lemma drive_finished acts : drive w svc acts RS_finished = (RS_finished, []).
Proof.
  induction acts as [|[|] acts IH]; simpl; [done| |done].
  by rewrite IH.
Qed.

Lemma drive_app acts1 : ∀ acts2 g,
  drive w svc (acts1 ++ acts2) g =
    let '(g1, t1) := drive w svc acts1 g in
    let '(g2, t2) := drive w svc acts2 g1 in
    (g2, t1 ++ t2).
Proof.
  induction acts1 as [|[|] acts1 IH]; intros acts2 g; simpl.
  - by destruct (drive w svc acts2 g).
  - destruct (run_stream_next w svc g) as [[o g'] t]. rewrite IH.
    destruct (drive w svc acts1 g') as [g1 t1].
    destruct (drive w svc acts2 g1) as [g2 t2]. by rewrite (assoc_L (++)).
  - apply IH.
Qed.

Lemma drive_suspended_summaries acts : ∀ mt text ip g chunks,
  (length (summaries (drive w svc acts (RS_suspended mt text ip g chunks)).2)
     ≤ 1)%nat.
Proof.
  induction acts as [|[|] acts IH]; intros mt text ip g chunks; simpl.
  - lia.
  - unfold run_stream_loop. pose proof (swt_next_summaries g) as Hs.
    destruct (swt_next g) as [[[v| |e] g1] t1]; simpl in *.
    + specialize (IH mt text ip g1 (chunks ++ [v])).
      destruct (drive w svc acts _) as [g2 t2]. simpl in *.
      by rewrite !summaries_app, Hs.
    + rewrite drive_finished. simpl.
      rewrite !summaries_app, Hs, app_nil_r. simpl. lia.
    + rewrite drive_finished. simpl.
      rewrite !summaries_app, Hs, app_nil_r. simpl. lia.
  - rewrite drive_finished. simpl. lia.
Qed.

(** X4. However the consumer of [run_stream] behaves (asking on after the
    end or after an error, closing early, asking again after closing) the
    log of one call holds at most one summary record; and once the
    generator is closed nothing more is logged. *)
Theorem at_most_one_summary text image_path acts :
  (length (summaries (drive w svc acts (run_stream svc text image_path)).2)
     ≤ 1)%nat
  ∧ ∀ acts',
      drive w svc (acts ++ Close :: acts') (run_stream svc text image_path)
        = (RS_finished, (drive w svc acts (run_stream svc text image_path)).2).
Proof.
  split.
  - unfold run_stream. destruct acts as [|[|] acts]; simpl; [lia| |].
    + pose proof (stream_route_summaries w (router svc) text image_path) as Hs.
      destruct (stream_route w (router svc) text image_path) as [[e|[mt g]] tr];
        simpl in Hs.
      * rewrite drive_finished. simpl.
        rewrite !summaries_app, Hs. simpl. lia.
      * pose proof (drive_suspended_summaries (Next :: acts) mt text
                      image_path g []) as Hd.
        simpl in Hd.
        destruct (run_stream_loop mt text image_path g []) as [[o g1] t1].
        destruct (drive w svc acts g1) as [g2 t2]. simpl in *.
        by rewrite <- (assoc_L (++)), summaries_app, Hs.
    + rewrite drive_finished. simpl. lia.
  - intros acts'. rewrite drive_app.
    destruct (drive w svc acts (run_stream svc text image_path)) as [g1 t1].
    simpl. unfold run_stream_close. rewrite drive_finished.
    by rewrite app_nil_r.
Qed.

(** *** [run] and [run_stream] *)

Lemma pull_suspended_done mt text ip cs chunks st :
  st ≠ Finished →
  let r := pull (run_stream_next w svc) (S (length cs))
             (RS_suspended mt text ip (SWT st (BStream cs None false)) chunks) in
  r.1.1 = (chunk_content <$> cs, Exhausted)
  ∧ summaries r.2
    = [LogObj mt text ip (join_chunks (chunks ++ (chunk_content <$> cs)))].
Proof.
  intros Hst. cbn zeta.
  pose proof (pull_suspended_view w svc (S (length cs)) mt text ip
                (SWT st (BStream cs None false)) chunks) as Hv.
  rewrite pull_swt_done in Hv by (done || lia).
  pose proof (pull_suspended_summaries w svc (S (length cs)) mt text ip
                (SWT st (BStream cs None false)) chunks) as Hs.
  destruct (pull (run_stream_next w svc) (S (length cs)) _)
    as [[[vs e1] g2] t2].
  simpl in Hv. injection Hv as -> ->.
  destruct (Hs _ _ _ _ eq_refl) as [H1 _]. split; [done | by apply H1].
Qed.

(** X5. [run] and a fully read [run_stream] agree against a deterministic
    backend: when [run] returns a result, the stream of the same request
    can be read to its end, its fragments join to that result, and both
    calls log the same summary record. *)
Theorem run_and_run_stream_agree text image_path result :
  deterministic w →
  (run w svc text image_path).1 = inr result →
  ∃ model_type n frags g' t,
    pull (run_stream_next w svc) n (run_stream svc text image_path)
      = ((frags, Exhausted, g'), t)
    ∧ join_chunks frags = result
    ∧ summaries t = [LogObj model_type text image_path result]
    ∧ summaries (run w svc text image_path).2
      = [LogObj model_type text image_path result].
Proof.
  intros Hdet Hrun.
  destruct (run_spec text image_path) as [_ Hspec].
  pose proof (route_result w (router svc) text image_path) as Hr.
  pose proof (stream_route_result w (router svc) text image_path) as Hsr.
  pose proof (stream_route_summaries w (router svc) text image_path) as Hss.
  destruct ((route w (router svc) text image_path).1) as [e|[mt res]].
  { destruct Hspec as [He _]. congruence. }
  destruct Hspec as (Hres & Hsum & _).
  assert (res = result) as -> by congruence.
  destruct (decision w (router svc) text image_path) as [e|[[b l] messages]];
    [done|].
  rewrite Hdet in Hr.
  destruct (chat_stream w _ _) as [e|sc]; [done|].
  unfold stream_text in Hr. destruct (failure sc) eqn:Hf; [done|].
  injection Hr as -> ->.
  destruct (stream_route w (router svc) text image_path) as [[e|[mt' g]] tr] eqn:Heq;
    simpl in Hsr, Hss; [done|]. injection Hsr as -> ->.
  assert (Hc : Created ≠ Finished) by done.
  destruct (pull_suspended_done l text image_path (fragments sc) [] Created Hc)
    as [H1 H2].
  pose proof (pull_created (length (fragments sc)) _ _ _ _ _ Heq) as Hp.
  unfold run_stream.
  destruct (pull (run_stream_next w svc) (S (length (fragments sc)))
              (RS_suspended _ _ _ _ _)) as [[[vs e1] g2] t2].
  simpl in H1, H2. injection H1 as -> ->.
  eexists l, _, _, _, _. split; [exact Hp|]. split_and!; [done| |done].
  simpl. by rewrite summaries_app, Hss, H2.
Qed.

End ServiceFacts.

(** ** router/router.py *)

Section RouterFacts2.
Context (w : World) (self : ModelRouter).

Lemma route_payload_input text ip :
  route_payload text ip !! "input" = Some text.
Proof.
  unfold route_payload. destruct (Py.truthy ip).
  - rewrite lookup_insert_ne by done. apply lookup_insert_eq.
  - apply lookup_insert_eq.
Qed.

Lemma route_payload_image text ip :
  route_payload text ip !! "image_path" =
    if Py.truthy ip then Some (default "" ip) else None.
Proof.
  unfold route_payload. destruct (Py.truthy ip).
  - apply lookup_insert_eq.
  - rewrite lookup_insert_ne by done. apply lookup_empty.
Qed.

Lemma getitem_input text ip : getitem (route_payload text ip) "input" = ret text.
Proof. unfold getitem. by rewrite route_payload_input. Qed.

Lemma getitem_image text ip :
  Py.truthy ip = true →
  getitem (route_payload text ip) "image_path" = ret (default "" ip).
Proof. intros H. unfold getitem. by rewrite route_payload_image, H. Qed.

(** X6. The branch that [_load_models] builds and the hand-written
    [route] agree: on the dictionary that [route] fills for a request, the
    branch calls the same clients with the same outcome and gives the
    response that [route] returns, or raises what [route] raises. *)
Theorem router_branch_agrees_with_route text image_path :
  let b := router_branch w self (route_payload text image_path) in
  let r := route w self text image_path in
  b.1 = match r.1 with inl e => inl e | inr (_, resp) => inr resp end
  ∧ calls b.2 = calls r.2.
Proof.
  simpl. unfold router_branch, has_image, route.
  rewrite route_payload_image. destruct (Py.truthy image_path) eqn:Himg.
  - unfold _vision_invoke. rewrite getitem_image, getitem_input by done.
    unfold encode_image_to_base64, invoke. run_m.
    destruct (read_bytes w _) as [e|bytes]; simpl; [done|].
    by destruct (chat_invoke w _ _).
  - unfold _coding_invoke, _general_invoke. rewrite !getitem_input. run_m.
    pose proof (classify_calls w self text) as Hc.
    destruct (_classify w self text) as [[e|c] t]; simpl in *.
    + by rewrite !calls_app, Hc.
    + unfold invoke. run_m.
      destruct (String.eqb c "coding"); simpl;
        destruct (chat_invoke w _ _); simpl;
        by rewrite !calls_app, Hc.
Qed.

(** X7. The label of a dispatch is one of the three labels, and it is
    "vision" exactly for the requests that carry an image path: whatever
    the classifier answers, [route] and [stream_route] return "vision"
    with a non-empty image path and "coding" or "general" without. *)
Theorem label_is_one_of_three text image_path label :
  (∃ resp, (route w self text image_path).1 = inr (label, resp))
  ∨ (∃ g, (stream_route w self text image_path).1 = inr (label, g)) →
  if Py.truthy image_path then label = "vision"
  else label = "coding" ∨ label = "general".
Proof.
  rewrite route_result, stream_route_result. unfold decision.
  destruct (Py.truthy image_path).
  - destruct (read_bytes w _) as [e|bytes]; [by intros [[? ?]|[? ?]]|].
    destruct (chat_invoke w _ _), (chat_stream w _ _);
      intros [[? H]|[? H]]; by try injection H as <- _.
  - destruct ((_classify w self text).1) as [e|c]; [by intros [[? ?]|[? ?]]|].
    destruct (String.eqb c "coding");
      destruct (chat_invoke w _ _), (chat_stream w _ _);
      intros [[? H]|[? H]]; try done; injection H as <- _; auto.
Qed.

(** X8. No failure leaves the router silently: when [route] or
    [stream_route] raises, the last entry of its log is an error entry
    that carries the text of the exception raised. *)
Theorem router_failures_are_logged text image_path e :
  ((route w self text image_path).1 = inl e →
   last (route w self text image_path).2 =
     Some (Log ERROR (Text ((if Py.truthy image_path
                             then "Vision model invocation failed: "
                             else "Text model invocation failed: ")
                            +:+ exn_str e))))
  ∧ ((stream_route w self text image_path).1 = inl e →
     last (stream_route w self text image_path).2 =
       Some (Log ERROR (Text ((if Py.truthy image_path
                               then "Vision model streaming failed: "
                               else "Text model streaming failed: ")
                              +:+ exn_str e)))).
Proof.
  unfold route, stream_route. destruct (Py.truthy image_path).
  - unfold encode_image_to_base64, invoke, stream. run_m.
    destruct (read_bytes w _) as [e1|bytes]; simpl.
    { split; by intros [= ->]. }
    destruct (chat_invoke w _ _), (chat_stream w _ _); simpl;
      split; try done; by intros [= ->].
  - run_m. destruct (_classify w self text) as [[e1|c] t]; simpl.
    { split; intros [= ->]; by rewrite last_snoc_cons. }
    unfold invoke, stream. run_m.
    destruct (String.eqb c "coding"); simpl;
      destruct (chat_invoke w _ _), (chat_stream w _ _); simpl;
      split; try done; intros [= ->];
      first [by rewrite last_snoc2_cons | by rewrite last_snoc_cons].
Qed.

End RouterFacts2.

Section Construction2.
Context (w : World).

(** X9. When the router can be built: [ModelRouter(cfg)] returns a router
    exactly when [cfg] holds "MODEL_GENERAL" and [ChatOllama] accepts the
    three model names; the coding and vision clients then take their name
    from [cfg] or else from the defaults, and the classifier runs on the
    same model as the general client. *)
Theorem construction_succeeds_iff (cfg : gmap string string) :
  let general_model := default "llama3.2:3b" (cfg !! "MODEL_GENERAL") in
  let coding_model := default "qwen2.5-coder:3b" (cfg !! "MODEL_CODING") in
  let vision_model := default "llava-phi3" (cfg !! "MODEL_VISION") in
  let r := ModelRouter_init w cfg in
  ((∃ self, r.1 = inr self)
   ↔ is_Some (cfg !! "MODEL_GENERAL")
     ∧ chat_init w general_model = None
     ∧ chat_init w coding_model = None
     ∧ chat_init w vision_model = None)
  ∧ ∀ self, r.1 = inr self →
      self = {| general := {| model := general_model |};
                coding := {| model := coding_model |};
                vision := {| model := vision_model |};
                router_model := {| model := general_model |} |}.
Proof.
  simpl. unfold ModelRouter_init, _load_models.
  change (getitem DEFAULTS "MODEL_GENERAL") with (@ret string "llama3.2:3b").
  change (getitem DEFAULTS "MODEL_CODING") with (@ret string "qwen2.5-coder:3b").
  change (getitem DEFAULTS "MODEL_VISION") with (@ret string "llava-phi3").
  unfold getitem, ChatOllama_new.
  unfold reraising, try_except, bind, of_result, emit, ret, raise,
    logger_info, logger_error; simpl.
  destruct (cfg !! "MODEL_GENERAL") as [name|]; simpl.
  - destruct (chat_init w name) eqn:Hg; simpl.
    { split; [|done]. split; [by intros [? ?] | by intros (_ & ? & _)]. }
    destruct (chat_init w (default _ (cfg !! "MODEL_CODING"))); simpl.
    { split; [|done]. split; [by intros [? ?] | by intros (_ & _ & ? & _)]. }
    destruct (chat_init w (default _ (cfg !! "MODEL_VISION"))); simpl.
    { split; [|done]. split; [by intros [? ?] | by intros (_ & _ & _ & ?)]. }
    split; [|by intros ? [= <-]].
    split; [done | by eexists].
  - split.
    + split; [|by intros [[? ?] _]].
      destruct (chat_init w "llama3.2:3b"); simpl; [by intros [? ?]|].
      destruct (chat_init w (default _ (cfg !! "MODEL_CODING"))); simpl;
        [by intros [? ?]|].
      destruct (chat_init w (default _ (cfg !! "MODEL_VISION"))); simpl;
        by intros [? ?].
    + destruct (chat_init w "llama3.2:3b"); simpl; [done|].
      destruct (chat_init w (default _ (cfg !! "MODEL_CODING"))); simpl;
        [done|].
      destruct (chat_init w (default _ (cfg !! "MODEL_VISION"))); simpl; done.
Qed.

End Construction2.

(** ** The encoded image *)

Section Base64.

Lemma b64_value_digit n : b64_value (Py.b64_digit n) = Some (n mod 64).
Proof.
  unfold Py.b64_digit.
  assert (Hlt : n mod 64 < 64) by (apply N.mod_lt; lia).
  set (m := n mod 64) in *. clearbody m.
  rewrite <- (N2Nat.id m). assert (Hk : (N.to_nat m < 64)%nat) by lia.
  set (k := N.to_nat m) in *. clearbody k. clear Hlt.
  do 64 (destruct k as [|k]; [vm_compute; reflexivity|]). lia.
Qed.

Lemma byte_of_to_N b : byte_of_N (Byte.to_N b) = b.
Proof.
  unfold byte_of_N. pose proof (Byte.to_N_bounded b) as Hb.
  rewrite N.mod_small by lia. by rewrite Byte.of_to_N.
Qed.

Lemma byte_of_N_mod n : byte_of_N n = byte_of_N (n mod 256).
Proof. unfold byte_of_N. by rewrite N.Div0.mod_mod. Qed.

(** Four digits of 6 bits hold a number below 2^24. *)
Lemma recombine n :
  n < 16777216 →
  (n / 262144) mod 64 * 262144 + (n / 4096) mod 64 * 4096
    + (n / 64) mod 64 * 64 + n mod 64 = n.
Proof.
  intros H.
  assert (H64 : 64 ≠ 0) by lia.
  pose proof (N.div_mod n 64 H64) as H1.
  pose proof (N.div_mod (n / 64) 64 H64) as H2.
  pose proof (N.div_mod (n / 4096) 64 H64) as H3.
  rewrite N.Div0.div_div in H2. change (64 * 64) with 4096 in H2.
  rewrite N.Div0.div_div in H3. change (4096 * 64) with 262144 in H3.
  assert (H4 : n / 262144 < 64) by (apply N.Div0.div_lt_upper_bound; lia).
  rewrite (N.mod_small (n / 262144)) by lia.
  lia.
Qed.

Lemma bytes_of_group a b c :
  a < 256 → b < 256 → c < 256 →
  let n := a * 65536 + b * 256 + c in
  (n / 65536) mod 256 = a ∧ (n / 256) mod 256 = b ∧ n mod 256 = c.
Proof.
  intros Ha Hb Hc n. subst n.
  assert (E1 : (a * 65536 + b * 256 + c) / 65536 = a).
  { symmetry. apply (N.div_unique _ 65536 a (b * 256 + c)); lia. }
  assert (E2 : (a * 65536 + b * 256 + c) / 256 = a * 256 + b).
  { symmetry. apply (N.div_unique _ 256 _ c); lia. }
  rewrite E1, E2. split_and!.
  - apply N.mod_small; lia.
  - symmetry. apply (N.mod_unique _ 256 a b); lia.
  - symmetry. apply (N.mod_unique _ 256 (a * 256 + b) c); lia.
Qed.

Lemma low_digit_zero a b : (a * 65536 + b * 256) mod 64 = 0.
Proof.
  replace (a * 65536 + b * 256) with ((a * 1024 + b * 4) * 64) by lia.
  apply N.Div0.mod_mul.
Qed.

Lemma second_digit_zero a : (a * 65536 / 64) mod 64 = 0.
Proof.
  replace (a * 65536) with (a * 1024 * 64) by lia.
  rewrite N.div_mul by lia.
  replace (a * 1024) with (a * 16 * 64) by lia. apply N.Div0.mod_mul.
Qed.

(** The decoder on what the encoder writes, group by group *)
Lemma b64decode_group n rest :
  b64decode (String (Py.b64_digit (n / 262144)) (String (Py.b64_digit (n / 4096))
               (String (Py.b64_digit (n / 64)) (String (Py.b64_digit n) rest)))) =
    let m := (n / 262144) mod 64 * 262144 + (n / 4096) mod 64 * 4096
             + (n / 64) mod 64 * 64 + n mod 64 in
    match b64decode rest with
    | Some bs =>
        Some (byte_of_N (m / 65536) :: byte_of_N (m / 256) :: byte_of_N m :: bs)
    | None => None
    end.
Proof. cbn [b64decode]. by rewrite !b64_value_digit. Qed.

Lemma b64decode_pad1 n :
  b64decode (String (Py.b64_digit (n / 262144)) (String (Py.b64_digit (n / 4096))
               (String (Py.b64_digit (n / 64)) "="))) =
    let m := (n / 262144) mod 64 * 262144 + (n / 4096) mod 64 * 4096
             + (n / 64) mod 64 * 64 in
    Some [byte_of_N (m / 65536); byte_of_N (m / 256)].
Proof. cbn [b64decode]. by rewrite !b64_value_digit. Qed.

Lemma b64decode_pad2 n :
  b64decode (String (Py.b64_digit (n / 262144))
               (String (Py.b64_digit (n / 4096)) "==")) =
    let m := (n / 262144) mod 64 * 262144 + (n / 4096) mod 64 * 4096 in
    Some [byte_of_N (m / 65536)].
Proof. cbn [b64decode]. by rewrite !b64_value_digit. Qed.

Lemma b64decode_b64encode_upto k : ∀ bs,
  (length bs ≤ k)%nat → b64decode (Py.b64encode bs) = Some bs.
Proof.
  induction k as [|k IH]; intros bs Hlen.
  { by destruct bs; [|simpl in Hlen; lia]. }
  destruct bs as [|a [|b [|c rest]]]; [done| | |].
  - pose proof (Byte.to_N_bounded a) as Ha.
    cbn [Py.b64encode]. cbv zeta. rewrite b64decode_pad2. cbv zeta.
    pose proof (recombine (Byte.to_N a * 65536)) as Hr.
    pose proof (low_digit_zero (Byte.to_N a) 0) as Hz.
    replace (Byte.to_N a * 65536 + 0 * 256) with (Byte.to_N a * 65536) in Hz
      by lia.
    rewrite second_digit_zero, Hz in Hr.
    assert (Hm : (Byte.to_N a * 65536 / 262144) mod 64 * 262144
                 + (Byte.to_N a * 65536 / 4096) mod 64 * 4096
                 = Byte.to_N a * 65536 + 0 * 256 + 0) by lia.
    rewrite Hm.
    destruct (bytes_of_group (Byte.to_N a) 0 0) as (H1 & _); [lia..|].
    cbv zeta in H1. by rewrite byte_of_N_mod, H1, byte_of_to_N.
  - pose proof (Byte.to_N_bounded a) as Ha.
    pose proof (Byte.to_N_bounded b) as Hb.
    cbn [Py.b64encode]. cbv zeta. rewrite b64decode_pad1. cbv zeta.
    pose proof (recombine (Byte.to_N a * 65536 + Byte.to_N b * 256)) as Hr.
    rewrite low_digit_zero in Hr.
    set (n := Byte.to_N a * 65536 + Byte.to_N b * 256) in *.
    assert (Hm : (n / 262144) mod 64 * 262144 + (n / 4096) mod 64 * 4096
                 + (n / 64) mod 64 * 64
                 = Byte.to_N a * 65536 + Byte.to_N b * 256 + 0) by lia.
    rewrite Hm.
    destruct (bytes_of_group (Byte.to_N a) (Byte.to_N b) 0) as (H1 & H2 & _);
      [lia..|].
    cbv zeta in H1, H2.
    by rewrite (byte_of_N_mod (_ / 65536)), (byte_of_N_mod (_ / 256)),
      H1, H2, !byte_of_to_N.
  - pose proof (Byte.to_N_bounded a) as Ha.
    pose proof (Byte.to_N_bounded b) as Hb.
    pose proof (Byte.to_N_bounded c) as Hc.
    cbn [Py.b64encode]. cbv zeta. rewrite b64decode_group. cbv zeta.
    rewrite IH by (simpl in Hlen; lia).
    rewrite recombine by lia.
    destruct (bytes_of_group (Byte.to_N a) (Byte.to_N b) (Byte.to_N c))
      as (H1 & H2 & H3); [lia..|].
    cbv zeta in H1, H2, H3.
    by rewrite (byte_of_N_mod (_ / 65536)), (byte_of_N_mod (_ / 256)),
      (byte_of_N_mod (_ + _)), H1, H2, H3, !byte_of_to_N.
Qed.

Lemma b64decode_b64encode bs : b64decode (Py.b64encode bs) = Some bs.
Proof. by apply (b64decode_b64encode_upto (length bs)). Qed.

End Base64.

Section EncodedImage.
Context (w : World) (self : ModelRouter).

Lemma route_sends_encoded_image text path bytes :
  path ≠ "" →
  read_bytes w path = inr bytes →
  ∃ encoded,
    (encode_image_to_base64 w path).1 = inr encoded
    ∧ b64decode encoded = Some bytes
    ∧ Invoke B_vision (model (vision self))
        [HumanParts [text_part text;
                     image_url_part ("data:image/png;base64," +:+ encoded)]]
      ∈ (route w self text (Some path)).2
    ∧ Stream B_vision (model (vision self))
        [HumanParts [text_part text;
                     image_url_part ("data:image/png;base64," +:+ encoded)]]
      ∈ (stream_route w self text (Some path)).2.
Proof.
  intros Hpath Hread. exists (Py.b64encode bytes).
  rewrite (encode_image_ok w path bytes Hread).
  split; [done|]. split; [apply b64decode_b64encode|].
  unfold route, stream_route. rewrite (truthy_Some path Hpath). simpl.
  rewrite (encode_image_ok w path bytes Hread). unfold invoke, stream. run_m.
  unfold vision_message, image_url.
  split.
  - destruct (chat_invoke w _ _); simpl; rewrite !elem_of_cons; auto.
  - destruct (chat_stream w _ _); simpl; rewrite !elem_of_cons; auto.
Qed.

(** X10. The image reaches the vision backend whole: for a readable file,
    [encode_image_to_base64] returns a string that decodes back to the
    bytes of the file, and the message that [route] and [stream_route]
    send to the vision client carries exactly that string as a PNG data
    URL, next to the text. *)
Theorem vision_backend_receives_the_image text path bytes :
  path ≠ "" →
  read_bytes w path = inr bytes →
  ∃ encoded,
    (encode_image_to_base64 w path).1 = inr encoded
    ∧ b64decode encoded = Some bytes
    ∧ Invoke B_vision (model (vision self))
        [HumanParts [text_part text;
                     image_url_part ("data:image/png;base64," +:+ encoded)]]
      ∈ (route w self text (Some path)).2
    ∧ Stream B_vision (model (vision self))
        [HumanParts [text_part text;
                     image_url_part ("data:image/png;base64," +:+ encoded)]]
      ∈ (stream_route w self text (Some path)).2.
Proof. apply route_sends_encoded_image. Qed.

End EncodedImage.

(** ** utils/image_handler.py *)

Section ImageFacts.
Context (w : World).

Local Arguments String.append !_ _ / : simpl nomatch.

Lemma has_sep_append a b : has_sep (a +:+ b) = has_sep a || has_sep b.
Proof. induction a as [|c a IH]; simpl; [done|]. by rewrite IH, orb_assoc. Qed.

Lemma basename_from_no_sep s : ∀ acc,
  has_sep acc = false → has_sep (Py.basename_from acc s) = false.
Proof.
  induction s as [|c s IH]; intros acc Hacc; simpl; [done|].
  destruct (Ascii.eqb c Py.SEP) eqn:Hc; [by apply IH|].
  apply IH. rewrite has_sep_append, Hacc. simpl. by rewrite Hc.
Qed.

Lemma basename_no_sep p : has_sep (Py.basename p) = false.
Proof. by apply basename_from_no_sep. Qed.

(** A name without slash is joined below the directory. *)
Lemma join_assets f :
  has_sep f = false → Py.join "assets" f = "assets/" +:+ f.
Proof.
  unfold Py.join. destruct f as [|c f]; [done|]. simpl.
  intros [Hc _]%orb_false_elim. by rewrite Hc.
Qed.

(** What [into_assets] returns and does *)
Lemma into_assets_spec src :
  let dest := "assets/" +:+ Py.basename src in
  let r := into_assets w src in
  (∀ p, r.1 = inr p → p = dest)
  ∧ (∀ a b, Copy a b ∈ r.2 →
       a = src ∧ b = dest ∧ abspath w src ≠ abspath w dest)
  ∧ (∀ p, MakeDirs p ∈ r.2 → p = "assets").
Proof.
  simpl. unfold into_assets, makedirs, copy. run_m.
  rewrite (join_assets _ (basename_no_sep src)).
  set (dest := "assets/" +:+ Py.basename src).
  assert (Hin : ∀ (ev : event) (t : trace) (P : Prop),
            (∀ ev', ev' ∈ t → ev' = ev → P) → ev ∈ t → P)
    by (intros ev t P HP Hev; by apply (HP ev)).
  destruct (makedirs_fails w "assets"); simpl.
  { split_and!; [done| |]; intros *; apply Hin; intros ev';
      rewrite !elem_of_cons, elem_of_nil; intros H ->;
      repeat (destruct H as [H|H]); try done; by injection H as ->. }
  destruct (String.eqb_spec (abspath w src) (abspath w dest)) as [Heq|Hne];
    simpl.
  { split_and!; [by intros ? [= <-]| |]; intros *; apply Hin; intros ev';
      rewrite !elem_of_cons, elem_of_nil; intros H ->;
      repeat (destruct H as [H|H]); try done; by injection H as ->. }
  destruct (copy_fails w src dest); simpl;
    (split_and!; [first [done | by intros ? [= <-]]| |]; intros *;
     apply Hin; intros ev'; rewrite !elem_of_cons, elem_of_nil; intros H ->;
     repeat (destruct H as [H|H]); try done;
     first [by injection H as -> -> | by injection H as ->]).
Qed.

Lemma bind_ret {A B} (m : M A) (f : A → B) :
  bind m (fun x => ret (f x)) =
    (match m.1 with inl e => inl e | inr a => inr (f a) end, m.2).
Proof. destruct m as [[e|a] t]; simpl; [done|]. by rewrite app_nil_r. Qed.

(** [handle_image], case by case: the image referred to, whether it is a
    file, and what [into_assets] does with it. *)
Lemma handle_image_cases input_text input_image :
  let r := handle_image w input_text input_image in
  match referenced_image input_text input_image with
  | None => r.1 = inr (input_text, input_image) ∧ Py.truthy input_image = false
            ∧ (∀ ev, ev ∈ r.2 → ∃ s, ev = Log DEBUG (Text s))
  | Some src =>
      if isfile w src then
        ∃ pre,
          r.2 = pre ++ (into_assets w src).2
          ∧ (∀ ev, ev ∈ pre → ∃ s, ev = Log DEBUG (Text s))
          ∧ r.1 = match (into_assets w src).1 with
                  | inl e => inl e
                  | inr dest =>
                      inr (if Py.truthy input_image then input_text
                           else Some (Py.strip (Py.sub_tag (default "" input_text))),
                           Some dest)
                  end
      else r.1 = inr (input_text, None)
           ∧ (∀ a b, Copy a b ∉ r.2) ∧ (∀ p, MakeDirs p ∉ r.2)
  end.
Proof.
  simpl. unfold referenced_image, handle_image.
  destruct (Py.truthy input_image) eqn:Hii; simpl.
  - destruct (isfile w _) eqn:Hf.
    + rewrite bind_ret. exists []. split_and!; [done| |done].
      by intros ev Hev%elem_of_nil.
    + unfold not_found, bind, emit, ret, logger_error. simpl.
      split_and!; [done| |]; intros *; rewrite !elem_of_cons, elem_of_nil;
        intuition congruence.
  - destruct (Py.truthy input_text) eqn:Hit; simpl.
    2:{ split_and!; [done..|]. by intros ev Hev%elem_of_nil. }
    destruct (Py.search_tag (default "" input_text)) as [[start g]|]; simpl.
    2:{ unfold bind, logger_debug, emit, ret. simpl. split_and!; [done..|].
        intros ev Hev%list_elem_of_singleton. by eexists. }
    destruct (isfile w (Py.strip g)) eqn:Hf.
    + unfold bind, logger_debug, emit, ret. simpl.
      eexists [_]. split_and!.
      * destruct (into_assets w (Py.strip g)) as [[?|?] ?]; simpl; [done|].
        by rewrite app_nil_r.
      * intros ev Hev%list_elem_of_singleton. by eexists.
      * by destruct (into_assets w (Py.strip g)) as [[?|?] ?].
    + unfold not_found, bind, emit, ret, logger_error, logger_debug. simpl.
      split_and!; [done| |]; intros *; rewrite !elem_of_cons, elem_of_nil;
        intuition congruence.
Qed.

(** X11. An image that [handle_image] resolves always lies directly in
    the asset store: the path it returns is "assets/" followed by the last
    component of the path referred to, which is a file. The only other
    image path it can return is an empty one handed in as it is. *)
Theorem resolved_image_lies_in_assets input_text input_image text' p :
  (handle_image w input_text input_image).1 = inr (text', Some p) →
  (p = "" ∧ input_image = Some "")
  ∨ ∃ src, referenced_image input_text input_image = Some src
      ∧ isfile w src = true
      ∧ p = "assets/" +:+ Py.basename src
      ∧ has_sep (Py.basename src) = false.
Proof.
  pose proof (handle_image_cases input_text input_image) as Hc. simpl in Hc.
  destruct (referenced_image input_text input_image) as [src|].
  - destruct (isfile w src) eqn:Hf.
    + destruct Hc as (pre & _ & _ & ->).
      destruct (into_assets_spec src) as (Hd & _). simpl in Hd.
      destruct ((into_assets w src).1) as [e|dest]; [done|].
      intros [= _ <-]. right. exists src. split_and!; [done..| |].
      * by apply Hd.
      * apply basename_no_sep.
    + destruct Hc as (-> & _). done.
  - destruct Hc as (-> & Ht & _). intros [= _ ->]. left.
    destruct p as [|c p]; [done|]. done.
Qed.


(** X13. [handle_image] touches the disk only for a file that exists: it
    creates nothing but the directory "assets", and it copies nothing but
    the file referred to, to its place in "assets", and never onto
    itself. *)
Theorem only_an_existing_file_is_copied input_text input_image :
  let t := (handle_image w input_text input_image).2 in
  (∀ a b, Copy a b ∈ t →
     referenced_image input_text input_image = Some a
     ∧ isfile w a = true
     ∧ b = "assets/" +:+ Py.basename a
     ∧ abspath w a ≠ abspath w b)
  ∧ (∀ p, MakeDirs p ∈ t →
       p = "assets"
       ∧ ∃ src, referenced_image input_text input_image = Some src
           ∧ isfile w src = true).
Proof.
  pose proof (handle_image_cases input_text input_image) as Hc. simpl in *.
  destruct (referenced_image input_text input_image) as [src|].
  - destruct (isfile w src) eqn:Hf.
    + destruct Hc as (pre & -> & Hpre & _).
      destruct (into_assets_spec src) as (_ & Hcopy & Hmk). simpl in *.
      split.
      * intros a b [Hin|Hin]%elem_of_app.
        { by destruct (Hpre _ Hin). }
        destruct (Hcopy a b Hin) as (-> & -> & Hne). done.
      * intros p [Hin|Hin]%elem_of_app.
        { by destruct (Hpre _ Hin). }
        split; [by apply Hmk | by exists src].
    + destruct Hc as (_ & Hcopy & Hmk). split.
      * intros a b Hin. by destruct (Hcopy a b).
      * intros p Hin. by destruct (Hmk p).
  - destruct Hc as (_ & _ & Hlog). split.
    + intros a b Hin. by destruct (Hlog _ Hin).
    + intros p Hin. by destruct (Hlog _ Hin).
Qed.

End ImageFacts.

(** ** observability/gpu_monitor.py *)

Section GpuFacts.
Context (list_str : list string → string).

Local Arguments String.append !_ _ / : simpl nomatch.


(** *** Splitting the answer of [nvidia-smi] *)

Lemma split_skip_field a : ∀ cur rest,
  no_comma a = true →
  split_skip ", " 0 cur (a +:+ ", " +:+ rest)
    = (cur +:+ a) :: split_skip ", " 0 "" rest.
Proof.
  induction a as [|c a IH]; intros cur rest Ha.
  - simpl. rewrite append_nil_r. by destruct rest.
  - simpl in Ha. apply andb_prop in Ha as [Hc Ha].
    change (String c a +:+ ", " +:+ rest) with (String c (a +:+ ", " +:+ rest)).
    cbn [split_skip].
    assert (Hp : Py.skip_prefix ", " (String c (a +:+ ", " +:+ rest)) = None).
    { cbn [Py.skip_prefix]. destruct (Ascii.eqb_spec "," c) as [<-|]; [done|].
      done. }
    rewrite Hp, IH by done. by rewrite append_assoc.
Qed.

Lemma split_skip_last a : ∀ cur,
  no_comma a = true → split_skip ", " 0 cur a = [cur +:+ a].
Proof.
  induction a as [|c a IH]; intros cur Ha.
  - simpl. by rewrite append_nil_r.
  - simpl in Ha. apply andb_prop in Ha as [Hc Ha]. cbn [split_skip].
    assert (Hp : Py.skip_prefix ", " (String c a) = None).
    { cbn [Py.skip_prefix]. destruct (Ascii.eqb_spec "," c) as [<-|]; [done|].
      done. }
    rewrite Hp, IH by done. by rewrite append_assoc.
Qed.

Lemma no_comma_append a b : no_comma (a +:+ b) = no_comma a && no_comma b.
Proof. induction a as [|c a IH]; simpl; [done|]. by rewrite IH, andb_assoc. Qed.

Lemma digit_facts c :
  Py.between 48 57 c = true →
  Py.isspace c = false ∧ negb (Py.code c =? 44) = true.
Proof. by destruct c as [[] [] [] [] [] [] [] []]; vm_compute. Qed.

Lemma all_digits_no_comma s : all_digits s = true → no_comma s = true.
Proof.
  induction s as [|c s IH]; simpl; [done|].
  intros [Hc Hs]%andb_prop. rewrite IH by done.
  by destruct (digit_facts c Hc) as [_ ->].
Qed.

Lemma last_of_nonempty s : ∀ p q, s ≠ "" → Py.last_of p s = Py.last_of q s.
Proof. destruct s; [done|]. done. Qed.

Lemma all_digits_last s p :
  number s → ∃ c, Py.last_of p s = Some c ∧ Py.isspace c = false.
Proof.
  intros [Hne Hd]. revert p Hne Hd. induction s as [|c s IH]; [done|].
  intros p _ [Hc Hs]%andb_prop. simpl. destruct s as [|c' s].
  - exists c. split; [done|]. by destruct (digit_facts c Hc).
  - by apply IH.
Qed.

Lemma lstrip_number s rest : number s → Py.lstrip (s +:+ rest) = s +:+ rest.
Proof.
  intros [Hne Hd]. destruct s as [|c s]; [done|]. simpl in *.
  apply andb_prop in Hd as [Hc _]. by destruct (digit_facts c Hc) as [-> _].
Qed.

(** [rstrip] leaves a string that ends on a character that is no white
    space, and drops the white space after it. *)
Lemma rstrip_fixed s :
  (∃ c, Py.last_of None s = Some c ∧ Py.isspace c = false) → Py.rstrip s = s.
Proof.
  induction s as [|a s IH]; [by intros (c & ? & _)|].
  intros (c & Hl & Hc). simpl in *. destruct s as [|b s].
  - simpl in *. injection Hl as ->. by rewrite Hc.
  - rewrite IH; [done|]. exists c. split; [|done].
    by rewrite (last_of_nonempty _ None (Some a)).
Qed.

Lemma rstrip_all_space ws : all_space ws = true → Py.rstrip ws = "".
Proof.
  induction ws as [|c ws IH]; [done|]. simpl.
  intros [Hc Hw]%andb_prop. by rewrite IH, Hc.
Qed.

Lemma rstrip_space_after s ws :
  all_space ws = true → Py.rstrip (s +:+ ws) = Py.rstrip s.
Proof.
  intros Hws. induction s as [|a s IH]; simpl.
  - by apply rstrip_all_space.
  - by rewrite IH.
Qed.

Lemma strip_line u rest m :
  number u → number m →
  Py.strip (u +:+ rest +:+ m +:+ Py.nl) = u +:+ rest +:+ m.
Proof.
  intros Hu Hm. unfold Py.strip. rewrite lstrip_number by done.
  rewrite <- !append_assoc. rewrite rstrip_space_after by done.
  apply rstrip_fixed. rewrite last_of_append. by apply all_digits_last.
Qed.

Lemma supported_os os_type :
  os_type = "Linux" ∨ os_type = "Windows" →
  String.eqb os_type "Darwin" = false
  ∧ negb (String.eqb os_type "Linux" || String.eqb os_type "Windows") = false.
Proof. by intros [-> | ->]. Qed.

(** X15. One GPU: when [nvidia-smi] answers one line "u, t, m" of three
    numbers, [get_gpu_info] reports u%, t MiB and m MiB. *)
Theorem one_gpu_is_reported os_type u t m :
  os_type = "Linux" ∨ os_type = "Windows" →
  number u → number t → number m →
  (get_gpu_info list_str os_type
     (SmiOutput (u +:+ ", " +:+ t +:+ ", " +:+ m +:+ Py.nl))).1
    = inr (<["gpu_util" := u +:+ "%"]>
             (<["mem_total" := t +:+ " MiB"]>
                (<["mem_used" := m +:+ " MiB"]> ∅))).
Proof.
  intros Hos Hu Ht Hm. unfold get_gpu_info.
  destruct (supported_os _ Hos) as [-> ->].
  replace (u +:+ ", " +:+ t +:+ ", " +:+ m +:+ Py.nl)
    with (u +:+ (", " +:+ t +:+ ", ") +:+ m +:+ Py.nl)
    by (by rewrite !append_assoc).
  rewrite strip_line by done. rewrite !append_assoc. unfold split.
  rewrite split_skip_field by (apply all_digits_no_comma, Hu).
  rewrite split_skip_field by (apply all_digits_no_comma, Ht).
  rewrite split_skip_last by (apply all_digits_no_comma, Hm).
  done.
Qed.

(** X16. Two GPUs: the answer of [nvidia-smi] is split at ", " only, not
    at the line break, so that the report is that of the first GPU except
    that its used memory also carries the line break and the utilisation
    of the second GPU. *)
Theorem second_gpu_leaks_into_mem_used os_type u1 t1 m1 u2 t2 m2 :
  os_type = "Linux" ∨ os_type = "Windows" →
  number u1 → number t1 → number m1 →
  number u2 → number t2 → number m2 →
  (get_gpu_info list_str os_type
     (SmiOutput (u1 +:+ ", " +:+ t1 +:+ ", " +:+ m1 +:+ Py.nl
                 +:+ u2 +:+ ", " +:+ t2 +:+ ", " +:+ m2 +:+ Py.nl))).1
    = inr (<["gpu_util" := u1 +:+ "%"]>
             (<["mem_total" := t1 +:+ " MiB"]>
                (<["mem_used" := (m1 +:+ Py.nl +:+ u2) +:+ " MiB"]> ∅))).
Proof.
  intros Hos Hu1 Ht1 Hm1 Hu2 Ht2 Hm2. unfold get_gpu_info.
  destruct (supported_os _ Hos) as [-> ->].
  replace (u1 +:+ ", " +:+ t1 +:+ ", " +:+ m1 +:+ Py.nl
           +:+ u2 +:+ ", " +:+ t2 +:+ ", " +:+ m2 +:+ Py.nl)
    with (u1 +:+ (", " +:+ t1 +:+ ", " +:+ m1 +:+ Py.nl
                  +:+ u2 +:+ ", " +:+ t2 +:+ ", ") +:+ m2 +:+ Py.nl)
    by (by rewrite !append_assoc).
  rewrite strip_line by done. rewrite !append_assoc. unfold split.
  rewrite split_skip_field by (apply all_digits_no_comma, Hu1).
  rewrite split_skip_field by (apply all_digits_no_comma, Ht1).
  replace (m1 +:+ Py.nl +:+ u2 +:+ ", " +:+ t2 +:+ ", " +:+ m2)
    with ((m1 +:+ Py.nl +:+ u2) +:+ ", " +:+ t2 +:+ ", " +:+ m2)
    by (by rewrite !append_assoc).
  rewrite split_skip_field.
  2:{ rewrite !no_comma_append.
      by rewrite (all_digits_no_comma m1), (all_digits_no_comma u2)
        by (apply Hm1 || apply Hu2). }
  unfold list_getitem. run_m. by rewrite !append_assoc.
Qed.

End GpuFacts.

(** ** services/http_server.py *)

Section HttpFacts.
Context (service : InferenceService)
        (write_fails : string → option exn)
        (kwargs_str : option string → option (option string) → bool → string).

Lemma respond_spec w text path stream :
  (respond service w text path stream).1 =
    inr (if stream then StreamingResponse (SF_created (default "" text) path)
         else match (run w service (default "" text) path).1 with
              | inr result => JsonResult result
              | inl e => JsonError (exn_str e)
              end, w).
Proof.
  unfold respond. destruct stream; [done|]. run_m.
  by destruct (run w service (default "" text) path) as [[e|result] t].
Qed.

(** X17. [generate] never lets an inference failure out: without
    streaming it answers the result of [run], or the text of the exception
    that [run] raised as an error object. The only exception that leaves
    [generate] is a failure to create the directory "assets" for an
    upload. *)
Theorem generate_answers_errors_as_json w text file :
  (generate service write_fails kwargs_str w text None false).1
    = inr (match (run w service (default "" text) None).1 with
           | inr result => JsonResult result
           | inl e => JsonError (exn_str e)
           end, w)
  ∧ ∀ stream e,
      (generate service write_fails kwargs_str w text file stream).1 = inl e →
      file ≠ None ∧ makedirs_fails w "assets" = Some e.
Proof.
  split.
  - unfold generate, log_request_info. run_m.
    pose proof (respond_spec w text None false) as Hr.
    by destruct (respond service w text None false) as [[e|r] t]; simpl in *.
  - intros stream e. unfold generate, log_request_info. run_m.
    destruct file as [f|].
    + destruct (negb _ || _); simpl; [done|].
      unfold makedirs. run_m.
      destruct (makedirs_fails w "assets") as [e'|]; simpl.
      { by intros [= ->]. }
      destruct (write_fails _); simpl; [done|].
      pose proof (respond_spec (with_file w (Py.join "assets"
                    (default "" (filename f))) (content_bytes f)) text
                    (Some (Py.join "assets" (default "" (filename f)))) stream)
        as Hr.
      by destruct (respond service _ text _ stream) as [[e'|r] t]; simpl in *.
    + pose proof (respond_spec w text None stream) as Hr.
      by destruct (respond service w text None stream) as [[e'|r] t]; simpl in *.
Qed.

Lemma pull_stream_fn w n : ∀ inner,
  (pull (stream_fn_next service w) n (SF_suspended inner)).1.1
    = (pull (run_stream_next w service) n inner).1.1.
Proof.
  induction n as [|n IH]; intros inner; simpl; [done|].
  destruct (run_stream_next w service inner) as [[[v| |e] inner'] t]; simpl;
    [|done..].
  specialize (IH inner').
  destruct (pull (stream_fn_next service w) n _) as [[[vs e1] g1] t1].
  destruct (pull (run_stream_next w service) n inner') as [[[vs' e1'] g1'] t1'].
  simpl in *. by injection IH as -> ->.
Qed.

Lemma pull_stream_fn_created w n text path :
  (pull (stream_fn_next service w) n (SF_created text path)).1.1
    = (pull (run_stream_next w service) n (run_stream service text path)).1.1.
Proof.
  rewrite <- pull_stream_fn. by destruct n.
Qed.

(** X18. With [stream=true] nothing is inferred when [generate] returns:
    it answers a streaming response around a generator that has not
    started, and no client has been called. The body then carries the very
    fragments of [run_stream]; a failure of the inference is therefore not
    answered as an error object: it comes out of the body when it is
    sent. *)
Theorem streaming_response_is_lazy w text :
  let body := SF_created (default "" text) None in
  let r := generate service write_fails kwargs_str w text None true in
  r.1 = inr (StreamingResponse body, w)
  ∧ calls r.2 = []
  ∧ (∀ n, (pull (stream_fn_next service w) n body).1.1
          = (pull (run_stream_next w service) n
               (run_stream service (default "" text) None)).1.1)
  ∧ (∀ e, (stream_route w (router service) (default "" text) None).1 = inl e →
          (pull (stream_fn_next service w) 1 body).1.1 = ([], Failed e)).
Proof.
  cbv zeta. split_and!; [done..| |].
  - intros n. apply pull_stream_fn_created.
  - intros e He. rewrite pull_stream_fn_created. unfold run_stream.
    destruct (stream_route w (router service) (default "" text) None)
      as [[e'|?] tr] eqn:Hsr; [|done].
    simpl in He. injection He as ->.
    by rewrite (pull_created_fails w service 0 _ _ _ _ Hsr).
Qed.

(** X19. An upload without a name (none, empty or blank) is refused
    before anything else happens: the answer is the error "Image is
    required.", nothing is written, no directory is created and no client
    is called, with or without streaming. *)
Theorem blank_filename_is_refused w text f stream :
  Py.strip (default "" (filename f)) = "" →
  let r := generate service write_fails kwargs_str w text (Some f) stream in
  r.1 = inr (JsonError "Image is required.", w)
  ∧ calls r.2 = []
  ∧ (∀ p, MakeDirs p ∉ r.2)
  ∧ last r.2 = Some (Log ERROR (Text "Image is required but not provided.")).
Proof.
  intros Hblank. simpl. unfold generate, log_request_info. rewrite Hblank.
  rewrite orb_true_r. run_m. split_and!; [done..| |done].
  intros p. rewrite !elem_of_cons, elem_of_nil. intuition congruence.
Qed.

Lemma run_trace w text ip :
  ∃ post, (run w service text ip).2
    = Log INFO (Text ("Running inference. Text: " +:+ text +:+ ", Image: "
                      +:+ Py.fmt_opt ip))
      :: (route w (router service) text ip).2 ++ post.
Proof.
  unfold run. run_m.
  destruct (route w (router service) text ip) as [[e|[mt result]] t]; simpl;
    by eexists.
Qed.

(** What [generate] does with an upload that it accepts and saves *)
Lemma generate_saved w text f name path :
  filename f = Some name →
  Py.strip name ≠ "" →
  Py.join "assets" name = path →
  makedirs_fails w "assets" = None →
  write_fails path = None →
  let w' := with_file w path (content_bytes f) in
  let r := generate service write_fails kwargs_str w text (Some f) false in
  (∃ resp, r.1 = inr (resp, w'))
  ∧ read_bytes w' path = inr (content_bytes f)
  ∧ ∀ ev, ev ∈ (route w' (router service) (default "" text) (Some path)).2 →
          ev ∈ r.2.
Proof.
  intros Hname Hstrip Hjoin Hmk Hwr. cbv zeta.
  assert (Htr : Py.truthy (Some name) = true).
  { destruct name; [|done]. by destruct Hstrip. }
  unfold generate, log_request_info, makedirs. rewrite Hname.
  change (default "" (Some name)) with name.
  rewrite Htr, (proj2 (String.eqb_neq _ _) Hstrip), Hjoin, Hmk, Hwr. run_m.
  set (w' := with_file w path (content_bytes f)).
  pose proof (respond_spec w' text (Some path) false) as Hr.
  destruct (run_trace w' (default "" text) (Some path)) as [post Hrun].
  unfold respond in *. run_m.
  destruct (run w' service (default "" text) (Some path)) as [[e|result] t]
    eqn:Heq.
  all: try (rewrite Heq in Hr).
  all: split_and!; [by eexists | by unfold w'; simpl; rewrite String.eqb_refl |].
  all: intros ev Hev; simpl in Hrun; rewrite Hrun; simpl;
    rewrite !elem_of_cons, !elem_of_app, !elem_of_cons; auto 10.
Qed.

(** X20. An uploaded image reaches the vision backend whole: an upload
    with a plain name is saved as "assets/<name>", read back from there,
    and the vision client is called with the text and a data URL that
    decodes to the bytes uploaded. *)
Theorem uploaded_image_reaches_the_vision_backend w text f name :
  filename f = Some name →
  Py.strip name ≠ "" →
  has_sep name = false →
  makedirs_fails w "assets" = None →
  write_fails ("assets/" +:+ name) = None →
  let r := generate service write_fails kwargs_str w text (Some f) false in
  ∃ encoded resp w',
    r.1 = inr (resp, w')
    ∧ read_bytes w' ("assets/" +:+ name) = inr (content_bytes f)
    ∧ b64decode encoded = Some (content_bytes f)
    ∧ Invoke B_vision (model (vision (router service)))
        [HumanParts [text_part (default "" text);
                     image_url_part ("data:image/png;base64," +:+ encoded)]]
      ∈ r.2.
Proof.
  intros Hname Hstrip Hsep Hmk Hwr. cbv zeta.
  destruct (generate_saved w text f name ("assets/" +:+ name) Hname Hstrip
              (join_assets name Hsep) Hmk Hwr) as ([resp Hresp] & Hread & Hin).
  assert (Hpath : "assets/" +:+ name ≠ "") by done.
  destruct (route_sends_encoded_image _ (router service) (default "" text)
              _ _ Hpath Hread) as (encoded & _ & Hdec & Hinv & _).
  exists encoded, resp, (with_file w ("assets/" +:+ name) (content_bytes f)).
  split_and!; [done..|]. by apply Hin.
Qed.

Lemma strip_of_absolute rest : Py.strip (String Py.SEP rest) ≠ "".
Proof.
  unfold Py.strip. simpl.
  by destruct (Py.rstrip rest).
Qed.

(** X21. The name of an upload is joined to "assets" as it is: a name
    that begins with a slash is an absolute path for [os.path.join], and
    the upload is then written at that very path, outside the asset
    store. *)
Theorem absolute_upload_name_escapes_assets w text f rest :
  filename f = Some (String Py.SEP rest) →
  makedirs_fails w "assets" = None →
  write_fails (String Py.SEP rest) = None →
  let r := generate service write_fails kwargs_str w text (Some f) false in
  ∃ resp w',
    r.1 = inr (resp, w')
    ∧ read_bytes w' (String Py.SEP rest) = inr (content_bytes f)
    ∧ ∀ p, p ≠ String Py.SEP rest → read_bytes w' p = read_bytes w p.
Proof.
  intros Hname Hmk Hwr. cbv zeta.
  destruct (generate_saved w text f (String Py.SEP rest) (String Py.SEP rest)
              Hname (strip_of_absolute rest) eq_refl Hmk Hwr)
    as ([resp Hresp] & Hread & _).
  exists resp, (with_file w (String Py.SEP rest) (content_bytes f)).
  split_and!; [done..|]. intros p Hp. simpl.
  by rewrite (proj2 (String.eqb_neq _ _) Hp).
Qed.

End HttpFacts.

(** ** The command line *)

Section TerminalFacts.
Context (w : World) (svc : InferenceService).

Lemma writes_app t1 t2 : writes (t1 ++ t2) = writes t1 ++ writes t2.
Proof. apply omap_app. Qed.

Lemma spinner_events_app t1 t2 :
  spinner_events (t1 ++ t2) = spinner_events t1 ++ spinner_events t2.
Proof. apply omap_app. Qed.

Lemma writes_core (t : trace) : writes (Core <$> t) = [].
Proof. induction t as [|ev t IH]; [done|]. exact IH. Qed.

Lemma spinner_events_core (t : trace) : spinner_events (Core <$> t) = [].
Proof. induction t as [|ev t IH]; [done|]. exact IH. Qed.

(** The loop under the spinner shows what the generator yields. *)
Lemma show_chunks_spec cl n : ∀ g fc,
  let s := show_chunks w svc cl n g fc in
  let p := (pull (run_stream_next w svc) n g).1.1 in
  s.1.2 = p.2
  ∧ s.1.1 = fc && bool_decide (p.1 = [])
  ∧ writes s.2
    = (if fc && negb (bool_decide (p.1 = [])) then ["🤖 "] else []) ++ p.1
  ∧ spinner_events s.2
    = (if fc && negb (bool_decide (p.1 = [])) then [SpinnerStop] else []).
Proof.
  induction n as [|n IH]; intros g fc; cbv zeta.
  { simpl. rewrite andb_true_r. by destruct fc. }
  cbn [show_chunks pull].
  destruct (run_stream_next w svc g) as [[[v| |e] g'] t].
  - specialize (IH g' false). cbv zeta in IH. unfold write_chunk.
    destruct (show_chunks w svc cl n g' false) as [[fc' e1] t1].
    destruct (pull (run_stream_next w svc) n g') as [[[vs e2] g2] t2].
    simpl in IH. destruct IH as (-> & -> & Hw & Hs).
    cbn [fst snd]. rewrite andb_false_r.
    rewrite !writes_app, !spinner_events_app, writes_core, spinner_events_core.
    change (Core ?x :: ?l) with ([Core x] ++ l).
    rewrite !writes_app, !spinner_events_app, Hw, Hs.
    by destruct fc.
  - cbn [fst snd]. rewrite writes_core, spinner_events_core, andb_true_r.
    by destruct fc.
  - cbn [fst snd]. rewrite writes_core, spinner_events_core, andb_true_r.
    by destruct fc.
Qed.

(** The bound of the loop is enough: the generator is always read to its
    end or to its failure. *)
Lemma loop_bound_enough text ip :
  let g := run_stream svc text ip in
  (pull (run_stream_next w svc) (loop_bound w svc g) g).1.1.2 ≠ Pending.
Proof.
  cbv zeta. unfold run_stream, loop_bound.
  pose proof (stream_route_fresh w (router svc) text ip) as Hfresh.
  destruct (stream_route w (router svc) text ip) as [[e|[mt s]] tr] eqn:Hsr;
    cbn [fst].
  - by rewrite (pull_created_fails w svc 0 _ _ _ _ Hsr).
  - destruct (Hfresh mt s eq_refl) as (cs & f & ->).
    cbn [swt_stream bs_rest].
    change (2 + length cs)%nat with (S (S (length cs))).
    rewrite (pull_created w svc (S (length cs)) _ _ _ _ _ Hsr).
    pose proof (pull_suspended_view w svc (S (S (length cs))) mt text ip
                  (SWT Created (BStream cs f false)) []) as Hv.
    rewrite pull_swt_done in Hv by (done || lia).
    destruct (pull (run_stream_next w svc) (S (S (length cs)))
                (RS_suspended _ _ _ _ _)) as [[[vs e1] g2] t2].
    cbn [fst snd] in *. injection Hv as -> ->. by destruct f.
Qed.


End TerminalFacts.

Section CliFacts.
Context (w : World).

(** The configuration of the command line holds the variables whose name
    starts with "MODEL_", and no other. *)
Lemma model_config_lookup (environ : gmap string string) k :
  model_config environ !! k
  = if String.prefix "MODEL_" k then environ !! k else None.
Proof.
  unfold model_config. destruct (String.prefix "MODEL_" k) eqn:Hk.
  - destruct (environ !! k) as [v|] eqn:Hv.
    + by apply map_lookup_filter_Some.
    + apply map_lookup_filter_None. by left.
  - apply map_lookup_filter_None. right. intros v _. simpl. by rewrite Hk.
Qed.

(** Without "MODEL_GENERAL" no router is built, and nothing happens but
    logging. *)
Lemma init_needs_general (cfg : gmap string string) :
  cfg !! "MODEL_GENERAL" = None →
  ∃ e t, ModelRouter_init w cfg = (inl e, t)
         ∧ ∀ ev, ev ∈ t → ∃ l s, ev = Log l (Text s).
Proof.
  intros Hcfg. unfold ModelRouter_init, _load_models.
  change (getitem DEFAULTS "MODEL_GENERAL") with (@ret string "llama3.2:3b").
  change (getitem DEFAULTS "MODEL_CODING") with (@ret string "qwen2.5-coder:3b").
  change (getitem DEFAULTS "MODEL_VISION") with (@ret string "llava-phi3").
  unfold getitem, ChatOllama_new. rewrite Hcfg.
  unfold reraising, try_except, bind, of_result, emit, ret, raise,
    logger_info, logger_error; simpl.
  assert (Hlog : ∀ l s ev, ev ∈ [Log l (Text s)] → ∃ l s, ev = Log l (Text s)).
  { intros l s ev ->%list_elem_of_singleton. by eexists _, _. }
  destruct (chat_init w "llama3.2:3b"); simpl; [by eauto|].
  destruct (chat_init w (default _ (cfg !! "MODEL_CODING"))); simpl;
    [by eauto|].
  destruct (chat_init w (default _ (cfg !! "MODEL_VISION"))); simpl;
    by eauto.
Qed.

(** X23. The command line needs MODEL_GENERAL in the environment: without
    it [main] raises whatever its arguments are, before the image is
    looked at and before anything is asked or shown; all it leaves is
    what the construction of the router logged. *)
Theorem cli_needs_MODEL_GENERAL (environ : gmap string string)
    (input_text input_image : option string) (prompts : list (exn + string)) :
  environ !! "MODEL_GENERAL" = None →
  let built := ModelRouter_init w (model_config environ) in
  (∃ e, main w environ input_text input_image prompts
        = (inl e, Core <$> built.2))
  ∧ ∀ ev, ev ∈ built.2 → ∃ l s, ev = Log l (Text s).
Proof.
  intros Henv. cbv zeta.
  destruct (init_needs_general (model_config environ)) as (e & t & Hinit & Ht).
  { by rewrite model_config_lookup. }
  unfold main. rewrite Hinit. split; [by exists e | done].
Qed.


Lemma last_cons_some {A} (a x : A) l : last l = Some x → last (a :: l) = Some x.
Proof. intros H. by rewrite last_cons, H. Qed.

Lemma last_app_some {A} (x : A) l1 l2 :
  last l2 = Some x → last (l1 ++ l2) = Some x.
Proof. intros H. by rewrite last_app, H. Qed.


End CliFacts.

(** ** The further properties, in the sample world *)

(** A stream that breaks after "Hel": the fragment is passed on, then the
    error is logged and raised, and no summary is written. *)
Lemma mid_stream_error_is_logged_and_raised_witness :
  (stream_route flaky_world sample_router "What is 2+2?" None).1
    = inr ("general", SWT Created (BStream [Raw "Hel"] (Some connection_lost) false))
  ∧ (pull (run_stream_next flaky_world sample_service) 2
       (run_stream sample_service "What is 2+2?" None)).1
    = (["Hel"], Failed connection_lost, RS_finished)
  ∧ summaries (pull (run_stream_next flaky_world sample_service) 2
                 (run_stream sample_service "What is 2+2?" None)).2 = [].
Proof.
  assert (Hs : (stream_route flaky_world sample_router "What is 2+2?" None).1
    = inr ("general",
           SWT Created (BStream [Raw "Hel"] (Some connection_lost) false)))
    by (vm_compute; reflexivity).
  destruct (mid_stream_error_is_logged_and_raised flaky_world sample_service
              "What is 2+2?" None "general" [Raw "Hel"] connection_lost Hs)
    as (Hr & Hsum & _).
  split_and!; [exact Hs | exact Hr | exact Hsum].
Defined.

Lemma run_and_run_stream_agree_witness :
  deterministic sample_world
  ∧ (run sample_world sample_service "What is 2+2?" None).1 = inr "Hello"
  ∧ ∃ model_type n frags g' t,
      pull (run_stream_next sample_world sample_service) n
        (run_stream sample_service "What is 2+2?" None)
        = ((frags, Exhausted, g'), t)
      ∧ join_chunks frags = "Hello"
      ∧ summaries t = [LogObj model_type "What is 2+2?" None "Hello"]
      ∧ summaries (run sample_world sample_service "What is 2+2?" None).2
        = [LogObj model_type "What is 2+2?" None "Hello"].
Proof.
  assert (Hrun : (run sample_world sample_service "What is 2+2?" None).1
                 = inr "Hello") by (vm_compute; reflexivity).
  split_and!; [exact sample_world_deterministic | exact Hrun |].
  exact (run_and_run_stream_agree sample_world sample_service
           "What is 2+2?" None "Hello" sample_world_deterministic Hrun).
Defined.

Lemma label_is_one_of_three_witness :
  (route sample_world sample_router "write a quicksort in Python" None).1
    = inr ("coding", "Hello")
  ∧ ("coding" = "coding" ∨ "coding" = "general").
Proof.
  assert (Hr : (route sample_world sample_router
                  "write a quicksort in Python" None).1
               = inr ("coding", "Hello")) by (vm_compute; reflexivity).
  split; [exact Hr|].
  exact (label_is_one_of_three sample_world sample_router
           "write a quicksort in Python" None "coding"
           (or_introl (ex_intro _ "Hello" Hr))).
Defined.

Lemma vision_backend_receives_the_image_witness :
  "cat.png" ≠ ""
  ∧ read_bytes sample_world "cat.png" = inr sample_bytes
  ∧ ∃ encoded,
      (encode_image_to_base64 sample_world "cat.png").1 = inr encoded
      ∧ b64decode encoded = Some sample_bytes
      ∧ Invoke B_vision "llava-phi3"
          [HumanParts [text_part "describe this";
                       image_url_part ("data:image/png;base64," +:+ encoded)]]
        ∈ (route sample_world sample_router "describe this" (Some "cat.png")).2
      ∧ Stream B_vision "llava-phi3"
          [HumanParts [text_part "describe this";
                       image_url_part ("data:image/png;base64," +:+ encoded)]]
        ∈ (stream_route sample_world sample_router "describe this"
             (Some "cat.png")).2.
Proof.
  assert (Hpath : "cat.png" ≠ "") by discriminate.
  assert (Hread : read_bytes sample_world "cat.png" = inr sample_bytes)
    by (vm_compute; reflexivity).
  split_and!; [exact Hpath | exact Hread |].
  exact (vision_backend_receives_the_image sample_world sample_router
           "describe this" "cat.png" sample_bytes Hpath Hread).
Defined.

Lemma resolved_image_lies_in_assets_witness :
  (handle_image sample_world (Some "look <image>cat.png<image> here") None).1
    = inr (Some "look  here", Some "assets/cat.png")
  ∧ (("assets/cat.png" = "" ∧ None = Some "")
     ∨ ∃ src,
         referenced_image (Some "look <image>cat.png<image> here") None = Some src
         ∧ isfile sample_world src = true
         ∧ "assets/cat.png" = "assets/" +:+ Py.basename src
         ∧ has_sep (Py.basename src) = false).
Proof.
  assert (Hh : (handle_image sample_world
                  (Some "look <image>cat.png<image> here") None).1
               = inr (Some "look  here", Some "assets/cat.png"))
    by (vm_compute; reflexivity).
  split; [exact Hh|].
  exact (resolved_image_lies_in_assets sample_world _ _ _ _ Hh).
Defined.


Lemma one_gpu_is_reported_witness :
  number "45" ∧ number "8192" ∧ number "1024"
  ∧ (get_gpu_info sample_list_str "Linux"
       (SmiOutput ("45" +:+ ", " +:+ "8192" +:+ ", " +:+ "1024" +:+ Py.nl))).1
    = inr (<["gpu_util" := "45" +:+ "%"]>
             (<["mem_total" := "8192" +:+ " MiB"]>
                (<["mem_used" := "1024" +:+ " MiB"]> ∅))).
Proof.
  assert (H1 : number "45") by (split; [discriminate | reflexivity]).
  assert (H2 : number "8192") by (split; [discriminate | reflexivity]).
  assert (H3 : number "1024") by (split; [discriminate | reflexivity]).
  split_and!; [exact H1 | exact H2 | exact H3 |].
  exact (one_gpu_is_reported sample_list_str "Linux" "45" "8192" "1024"
           (or_introl eq_refl) H1 H2 H3).
Defined.

Lemma second_gpu_leaks_into_mem_used_witness :
  number "45" ∧ number "8192" ∧ number "1024" ∧ number "7"
  ∧ (get_gpu_info sample_list_str "Windows"
       (SmiOutput ("45" +:+ ", " +:+ "8192" +:+ ", " +:+ "1024" +:+ Py.nl
                   +:+ "7" +:+ ", " +:+ "8192" +:+ ", " +:+ "1024" +:+ Py.nl))).1
    = inr (<["gpu_util" := "45" +:+ "%"]>
             (<["mem_total" := "8192" +:+ " MiB"]>
                (<["mem_used" := ("1024" +:+ Py.nl +:+ "7") +:+ " MiB"]> ∅))).
Proof.
  assert (H1 : number "45") by (split; [discriminate | reflexivity]).
  assert (H2 : number "8192") by (split; [discriminate | reflexivity]).
  assert (H3 : number "1024") by (split; [discriminate | reflexivity]).
  assert (H4 : number "7") by (split; [discriminate | reflexivity]).
  split_and!; [exact H1 | exact H2 | exact H3 | exact H4 |].
  exact (second_gpu_leaks_into_mem_used sample_list_str "Windows"
           "45" "8192" "1024" "7" "8192" "1024"
           (or_intror eq_refl) H1 H2 H3 H4 H2 H3).
Defined.

Lemma blank_filename_is_refused_witness :
  Py.strip (default "" (Some "  ")) = ""
  ∧ (generate sample_service sample_write_fails sample_kwargs_str sample_world
       (Some "describe") (Some {| filename := Some "  "; content_bytes := [] |})
       false).1
    = inr (JsonError "Image is required.", sample_world).
Proof.
  assert (Hblank : Py.strip (default "" (Some "  ")) = "")
    by (vm_compute; reflexivity).
  split; [exact Hblank|].
  exact (proj1 (blank_filename_is_refused sample_service sample_write_fails
                  sample_kwargs_str sample_world (Some "describe")
                  {| filename := Some "  "; content_bytes := [] |} false
                  Hblank)).
Defined.

Lemma uploaded_image_reaches_the_vision_backend_witness :
  Py.strip "new.png" ≠ ""
  ∧ has_sep "new.png" = false
  ∧ ∃ encoded resp w',
      (generate sample_service sample_write_fails sample_kwargs_str sample_world
         (Some "describe")
         (Some {| filename := Some "new.png"; content_bytes := sample_bytes |})
         false).1 = inr (resp, w')
      ∧ read_bytes w' ("assets/" +:+ "new.png") = inr sample_bytes
      ∧ b64decode encoded = Some sample_bytes
      ∧ Invoke B_vision "llava-phi3"
          [HumanParts [text_part "describe";
                       image_url_part ("data:image/png;base64," +:+ encoded)]]
        ∈ (generate sample_service sample_write_fails sample_kwargs_str
             sample_world (Some "describe")
             (Some {| filename := Some "new.png"; content_bytes := sample_bytes |})
             false).2.
Proof.
  assert (Hname : Py.strip "new.png" ≠ "") by (vm_compute; discriminate).
  assert (Hsep : has_sep "new.png" = false) by (vm_compute; reflexivity).
  split_and!; [exact Hname | exact Hsep |].
  exact (uploaded_image_reaches_the_vision_backend sample_service
           sample_write_fails sample_kwargs_str sample_world (Some "describe")
           {| filename := Some "new.png"; content_bytes := sample_bytes |}
           "new.png" eq_refl Hname Hsep eq_refl eq_refl).
Defined.

Lemma absolute_upload_name_escapes_assets_witness :
  ∃ resp w',
    (generate sample_service sample_write_fails sample_kwargs_str sample_world
       (Some "describe")
       (Some {| filename := Some "/srv/app/main.py"; content_bytes := sample_bytes |})
       false).1 = inr (resp, w')
    ∧ read_bytes w' "/srv/app/main.py" = inr sample_bytes
    ∧ ∀ p, p ≠ "/srv/app/main.py" → read_bytes w' p = read_bytes sample_world p.
Proof.
  exact (absolute_upload_name_escapes_assets sample_service sample_write_fails
           sample_kwargs_str sample_world (Some "describe")
           {| filename := Some "/srv/app/main.py"; content_bytes := sample_bytes |}
           "srv/app/main.py" eq_refl eq_refl eq_refl).
Defined.

Lemma cli_needs_MODEL_GENERAL_witness :
  (<["model_general" := "llama3.2:3b"]> ∅ : gmap string string)
    !! "MODEL_GENERAL" = None
  ∧ ∃ e,
      main sample_world (<["model_general" := "llama3.2:3b"]> ∅)
        (Some "What is 2+2?") None []
      = (inl e,
         Core <$> (ModelRouter_init sample_world
                     (model_config (<["model_general" := "llama3.2:3b"]> ∅))).2).
Proof.
  assert (Henv : (<["model_general" := "llama3.2:3b"]> ∅ : gmap string string)
                   !! "MODEL_GENERAL" = None) by (vm_compute; reflexivity).
  split; [exact Henv|].
  exact (proj1 (cli_needs_MODEL_GENERAL sample_world _ (Some "What is 2+2?")
                  None [] Henv)).
Defined.



(** The backend that fails: the router logs the failure before it raises
    it again. *)
Lemma router_failures_are_logged_witness :
  (route flaky_world sample_router "What is 2+2?" None).1 = inl connection_lost
  ∧ last (route flaky_world sample_router "What is 2+2?" None).2
    = Some (Log ERROR (Text ("Text model invocation failed: "
                             +:+ exn_str connection_lost))).
Proof.
  assert (Hr : (route flaky_world sample_router "What is 2+2?" None).1
               = inl connection_lost) by (vm_compute; reflexivity).
  split; [exact Hr|].
  exact (proj1 (router_failures_are_logged flaky_world sample_router
                  "What is 2+2?" None connection_lost) Hr).
Defined.


(** ** Health *)

Section HealthFacts.
Context {num : Type} (num_str : num → string)
        (dict_str : gmap string string → string)
        (list_str : list string → string).

Lemma gpu_info_returns os_type smi :
  ∃ d t, get_gpu_info list_str os_type smi = (inr d, t).
Proof.
  unfold get_gpu_info. run_m.
  destruct (String.eqb os_type "Darwin"); simpl; [by eexists _, _|].
  destruct (negb _); simpl; [by eexists _, _|].
  destruct smi as [out| |output|e]; simpl; try by eexists _, _.
  - unfold list_getitem; run_m.
    destruct (split ", " (Py.strip out)) as [|u [|t [|m rest]]]; simpl;
      by eexists _, _.
  - destruct (str_contains _ output || str_contains _ output); simpl;
      by eexists _, _.
Qed.


End HealthFacts.

(** ** The check of the installed models *)

Section ModelCheckFacts.
Local Arguments String.append !_ _ / : simpl nomatch.

Lemma rstrip_head c s : Py.isspace c = false → Py.rstrip (String c s) ≠ "".
Proof. intros Hc. simpl. rewrite Hc. by destruct (Py.rstrip s). Qed.

Lemma rstrip_append a b :
  Py.rstrip b ≠ "" → Py.rstrip (a +:+ b) = a +:+ Py.rstrip b.
Proof.
  intros Hb. induction a as [|c a IH]; [done|].
  change (String c a +:+ b) with (String c (a +:+ b)).
  cbn [Py.rstrip]. rewrite IH.
  change (String c a +:+ Py.rstrip b) with (String c (a +:+ Py.rstrip b)).
  destruct (a +:+ Py.rstrip b) eqn:Hab; [|done].
  destruct a; simpl in Hab; [by destruct Hb | done].
Qed.

Lemma rstrip_nl s : Py.rstrip (s +:+ Py.nl) = Py.rstrip s.
Proof. by apply rstrip_space_after. Qed.

Lemma rstrip_line l rest :
  Py.rstrip rest ≠ "" →
  Py.rstrip (l +:+ Py.nl +:+ rest) = l +:+ Py.nl +:+ Py.rstrip rest.
Proof.
  intros Hrest.
  assert (Hnl : Py.rstrip (Py.nl +:+ rest) = Py.nl +:+ Py.rstrip rest)
    by (by apply rstrip_append).
  rewrite rstrip_append; rewrite Hnl; done.
Qed.

Lemma lstrip_append a b :
  Py.lstrip a ≠ "" → Py.lstrip (a +:+ b) = Py.lstrip a +:+ b.
Proof.
  induction a as [|c a IH]; [done|]. simpl.
  destruct (Py.isspace c); [exact IH | done].
Qed.

Lemma lstrip_head s :
  Py.lstrip s ≠ "" → ∃ c s', Py.lstrip s = String c s' ∧ Py.isspace c = false.
Proof.
  induction s as [|c s IH]; [done|]. simpl.
  destruct (Py.isspace c) eqn:Hc; [exact IH|]. by eexists _, _.
Qed.

Lemma no_newline_append a b :
  no_newline (a +:+ b) = no_newline a && no_newline b.
Proof. induction a as [|c a IH]; simpl; [done|]. by rewrite IH, andb_assoc. Qed.

Lemma no_newline_lstrip s : no_newline s = true → no_newline (Py.lstrip s) = true.
Proof.
  induction s as [|c s IH]; [done|]. simpl.
  intros [Hc Hs]%andb_prop. destruct (Py.isspace c); [by apply IH|].
  simpl. by rewrite Hc, Hs.
Qed.

Lemma no_newline_rstrip s : no_newline s = true → no_newline (Py.rstrip s) = true.
Proof.
  induction s as [|c s IH]; [done|]. simpl.
  intros [Hc Hs]%andb_prop. specialize (IH Hs).
  destruct (Py.rstrip s) eqn:Hr.
  - destruct (Py.isspace c); [done|]. simpl. by rewrite Hc.
  - simpl in *. by rewrite Hc, IH.
Qed.

Lemma blank_facts c : negb (Py.isspace c) = true → negb (Py.code c =? 10) = true.
Proof. by destruct c as [[] [] [] [] [] [] [] []]; vm_compute. Qed.

Lemma no_blank_no_newline s : no_blank s = true → no_newline s = true.
Proof.
  induction s as [|c s IH]; [done|]. simpl.
  intros [Hc Hs]%andb_prop. by rewrite (blank_facts c Hc), IH.
Qed.

(** Splitting into lines *)
Lemma split_line l : ∀ cur rest,
  no_newline l = true →
  split_skip Py.nl 0 cur (l +:+ Py.nl +:+ rest)
    = (cur +:+ l) :: split_skip Py.nl 0 "" rest.
Proof.
  induction l as [|c l IH]; intros cur rest Hl.
  - simpl. by rewrite append_nil_r.
  - simpl in Hl. apply andb_prop in Hl as [Hc Hl].
    change (String c l +:+ Py.nl +:+ rest) with (String c (l +:+ Py.nl +:+ rest)).
    cbn [split_skip].
    assert (Hp : Py.skip_prefix Py.nl (String c (l +:+ Py.nl +:+ rest)) = None).
    { unfold Py.nl. cbn [Py.skip_prefix].
      destruct (Ascii.eqb_spec (ascii_of_N 10) c) as [<-|]; [done|]. done. }
    rewrite Hp, IH by done. by rewrite append_assoc.
Qed.

Lemma split_last_line l : ∀ cur,
  no_newline l = true → split_skip Py.nl 0 cur l = [cur +:+ l].
Proof.
  induction l as [|c l IH]; intros cur Hl.
  - simpl. by rewrite append_nil_r.
  - simpl in Hl. apply andb_prop in Hl as [Hc Hl]. cbn [split_skip].
    assert (Hp : Py.skip_prefix Py.nl (String c l) = None).
    { unfold Py.nl. cbn [Py.skip_prefix].
      destruct (Ascii.eqb_spec (ascii_of_N 10) c) as [<-|]; [done|]. done. }
    rewrite Hp, IH by done. by rewrite append_assoc.
Qed.

(** Splitting into words: white space at the end does not count, and the
    first word of a row is its name. *)
Lemma split_blank_rstrip s : ∀ cur,
  split_blank cur (Py.rstrip s) = split_blank cur s.
Proof.
  induction s as [|c s IH]; intros cur; [done|].
  cbn [Py.rstrip]. destruct (Py.rstrip s) as [|c' r] eqn:Hr.
  - destruct (Py.isspace c) eqn:Hc.
    + cbn [split_blank]. rewrite Hc, <- !IH. by destruct cur.
    + cbn [split_blank]. rewrite Hc, <- IH. done.
  - cbn [split_blank]. rewrite <- !IH. done.
Qed.

Lemma split_blank_word name rest : ∀ cur,
  no_blank name = true →
  split_blank (Some cur) (name +:+ String " " rest)
    = (cur +:+ name) :: split_blank None rest.
Proof.
  induction name as [|c name IH]; intros cur Hn.
  - simpl. by rewrite append_nil_r.
  - simpl in Hn. apply andb_prop in Hn as [Hc Hn].
    apply negb_true_iff in Hc.
    change (String c name +:+ String " " rest)
      with (String c (name +:+ String " " rest)).
    cbn [split_blank]. rewrite Hc, IH by done. cbn [default].
    by rewrite append_assoc.
Qed.

Lemma first_word_of_row name rest :
  name ≠ "" → no_blank name = true →
  ∃ words, split_whitespace (name +:+ " " +:+ rest) = name :: words.
Proof.
  intros Hne Hn. destruct name as [|c name]; [done|].
  simpl in Hn. apply andb_prop in Hn as [Hc Hn]. apply negb_true_iff in Hc.
  unfold split_whitespace.
  change (String c name +:+ " " +:+ rest)
    with (String c (name +:+ String " " rest)).
  cbn [split_blank]. rewrite Hc. cbn [default].
  rewrite split_blank_word by done. by eexists.
Qed.

Lemma row_head name rest :
  name ≠ "" → no_blank name = true →
  ∃ c s, name +:+ " " +:+ rest = String c s ∧ Py.isspace c = false.
Proof.
  intros Hne Hn. destruct name as [|c name]; [done|].
  simpl in Hn. apply andb_prop in Hn as [Hc Hn]. apply negb_true_iff in Hc.
  by eexists _, _.
Qed.

Lemma row_no_newline r : row_ok r → no_newline (r.1 +:+ " " +:+ r.2) = true.
Proof.
  intros (_ & Hn & Hr). rewrite !no_newline_append.
  by rewrite (no_blank_no_newline _ Hn), Hr.
Qed.

Lemma rows_unfold r rows :
  foldr (λ r acc, table_row r.1 r.2 +:+ acc) "" (r :: rows)
  = (r.1 +:+ " " +:+ r.2) +:+ Py.nl
    +:+ foldr (λ r acc, table_row r.1 r.2 +:+ acc) "" rows.
Proof. cbn [foldr]. unfold table_row. by rewrite !append_assoc. Qed.

Lemma rstrip_rows_nonempty r rows :
  row_ok r →
  Py.rstrip (foldr (λ r acc, table_row r.1 r.2 +:+ acc) "" (r :: rows)) ≠ "".
Proof.
  intros (Hne & Hn & _). rewrite rows_unfold.
  destruct (row_head r.1 r.2 Hne Hn) as (c & s & -> & Hc).
  change (String c s +:+ ?x) with (String c (s +:+ x)).
  by apply rstrip_head.
Qed.

(** The names of the rows are read back from what is left of them after
    [strip]. *)
Lemma names_of_rows rows : ∀ r,
  row_ok r → Forall row_ok rows →
  for_each (λ line, list_getitem (split_whitespace line) 0)
    (filter (λ line, line ≠ "")
       (split Py.nl
          (Py.rstrip (foldr (λ r acc, table_row r.1 r.2 +:+ acc) ""
                        (r :: rows)))))
  = ret (r.1 :: rows.*1).
Proof.
  induction rows as [|r' rows IH]; intros r Hr Hrows.
  - rewrite rows_unfold. cbn [foldr]. rewrite append_nil_r, rstrip_nl.
    unfold split. rewrite split_last_line
      by (apply no_newline_rstrip; by apply row_no_newline).
    change ("" +:+ ?x) with x.
    destruct Hr as (Hne & Hn & Hrest).
    destruct (row_head r.1 r.2 Hne Hn) as (c & s & Heq & Hc).
    assert (Hnonempty : Py.rstrip (r.1 +:+ " " +:+ r.2) ≠ "").
    { rewrite Heq. by apply rstrip_head. }
    rewrite filter_cons_True by done. rewrite filter_nil.
    cbn [for_each]. unfold split_whitespace. rewrite split_blank_rstrip.
    destruct (first_word_of_row r.1 r.2 Hne Hn) as (words & Hw).
    unfold split_whitespace in Hw. rewrite Hw. done.
  - apply Forall_cons in Hrows as [Hr' Hrows].
    rewrite rows_unfold.
    rewrite rstrip_line by (by apply rstrip_rows_nonempty).
    unfold split. rewrite split_line by (by apply row_no_newline).
    change ("" +:+ ?x) with x.
    destruct Hr as (Hne & Hn & Hrest).
    destruct (row_head r.1 r.2 Hne Hn) as (c & s & Heq & Hc).
    rewrite filter_cons_True by (by rewrite Heq).
    cbn [for_each].
    destruct (first_word_of_row r.1 r.2 Hne Hn) as (words & ->).
    specialize (IH r' Hr' Hrows). unfold split in IH.
    unfold list_getitem at 1. cbn [lookup list_lookup].
    unfold bind at 1. cbn [ret]. rewrite IH. done.
Qed.

(** The table of [ollama list] is read back: the header is passed over,
    and each row gives its name. *)
Lemma installed_models_of_table header rows :
  Py.strip header ≠ "" → no_newline header = true →
  Forall row_ok rows →
  installed_models (table header rows) = ret (rows.*1).
Proof.
  intros Hh Hnl Hrows. unfold installed_models, table, Py.strip.
  assert (Hl : Py.lstrip header ≠ "").
  { intros Heq. apply Hh. unfold Py.strip. by rewrite Heq. }
  rewrite lstrip_append by done.
  destruct (lstrip_head header Hl) as (c & s & Heq & Hc).
  pose proof (no_newline_lstrip header Hnl) as Hnl'.
  destruct rows as [|r rows].
  - cbn [foldr]. rewrite append_nil_r, rstrip_nl. unfold split.
    rewrite split_last_line by (by apply no_newline_rstrip). done.
  - apply Forall_cons in Hrows as [Hr Hrows].
    rewrite rstrip_line by (by apply rstrip_rows_nonempty).
    unfold split at 1. rewrite split_line by done. cbn [drop].
    by apply names_of_rows.
Qed.

Lemma pulls_app t1 t2 : pulls (t1 ++ t2) = pulls t1 ++ pulls t2.
Proof. apply omap_app. Qed.

Lemma pulls_of_loop pull_fails installed models :
  pulls (models ≫= check_model pull_fails installed)
  = filter (λ model, model ∉ installed) models.
Proof.
  induction models as [|model models IH]; [done|].
  cbn [mbind list_bind]. change (list_bind ?f ?l) with (l ≫= f).
  rewrite pulls_app, IH. unfold check_model.
  destruct (decide (model ∉ installed)) as [Hm|Hm].
  - rewrite bool_decide_eq_true_2, filter_cons_True by done.
    by destruct (pull_fails model).
  - rewrite bool_decide_eq_false_2, filter_cons_False by done. done.
Qed.

(** X27. Which models are pulled. When [ollama list] prints its table (a
    header that is not blank, then one row for each model: the name
    without blank, a blank, the other columns), the models pulled are the
    required ones that no row names, in the order general, coding,
    vision; a pull that fails does not stop the following ones. *)
Theorem missing_models_are_pulled pull_fails environ header rows :
  Py.strip header ≠ "" → no_newline header = true →
  Forall row_ok rows →
  pulls (check_and_pull_models (inr (table header rows)) pull_fails environ)
  = filter (λ model, model ∉ rows.*1) (REQUIRED_MODELS environ).
Proof.
  intros Hh Hnl Hrows. unfold check_and_pull_models.
  unfold bind, of_result.
  rewrite (installed_models_of_table header rows Hh Hnl Hrows). cbn [ret fst].
  apply pulls_of_loop.
Qed.

Lemma for_each_fails {A B} (f : A → M B) l x e :
  x ∈ l → (f x).1 = inl e → ∃ e', (for_each f l).1 = inl e'.
Proof.
  intros Hx Hf. induction l as [|y l IH]; [by apply elem_of_nil in Hx|].
  cbn [for_each]. unfold bind at 1.
  destruct (f y) as [[e1|b] t1] eqn:Hy; [by eexists|].
  apply elem_of_cons in Hx as [->|Hx].
  { rewrite Hy in Hf. done. }
  destruct (IH Hx) as (e' & He').
  destruct (for_each f l) as [[e2|bs] t2]; simpl in He'; [|done].
  by eexists.
Qed.

Lemma split_blank_blank s : Py.lstrip s = "" → split_blank None s = [].
Proof.
  induction s as [|c s IH]; [done|]. simpl.
  destruct (Py.isspace c); [exact IH | done].
Qed.

(** X28. When the list cannot be read, nothing is pulled: if
    [ollama list] fails, or if a line after the first one holds white
    space and nothing else, [check_and_pull_models] prints that it could
    not check the models and returns. *)
Theorem unreadable_list_pulls_nothing ollama_list pull_fails environ :
  (∃ e, ollama_list = inl e)
  ∨ (∃ stdout line,
       ollama_list = inr stdout
       ∧ line ∈ drop 1 (split Py.nl (Py.strip stdout))
       ∧ line ≠ "" ∧ Py.strip line = "") →
  check_and_pull_models ollama_list pull_fails environ
  = [McPrint "[model_check] Could not check Ollama models. Is Ollama running and in your PATH?"].
Proof.
  intros [(e & ->)|(stdout & line & -> & Hin & Hne & Hblank)];
    unfold check_and_pull_models, bind, of_result; [done|].
  assert (Hl : Py.lstrip line = "").
  { unfold Py.strip in Hblank. destruct (Py.lstrip line) as [|c s] eqn:Hls; [done|].
    exfalso. destruct (lstrip_head line) as (c' & s' & Heq & Hc).
    { by rewrite Hls. }
    rewrite Hls in Heq. injection Heq as <- <-.
    by apply (rstrip_head c s Hc). }
  destruct (for_each_fails
              (λ line, list_getitem (split_whitespace line) 0)
              (filter (λ line, line ≠ "")
                 (drop 1 (split Py.nl (Py.strip stdout))))
              line (Exn "IndexError" "list index out of range"))
    as (e' & He').
  { apply list_elem_of_filter. done. }
  { unfold split_whitespace. by rewrite (split_blank_blank _ Hl). }
  unfold installed_models.
  destruct (for_each _ _) as [[e2|bs] t2]; simpl in He'; [done|done].
Qed.

End ModelCheckFacts.

(** Two of the three default models are installed: the third is pulled. *)
Lemma missing_models_are_pulled_witness :
  pulls (check_and_pull_models (inr sample_table) sample_pull_fails ∅)
  = ["qwen2.5-coder:3b"].
Proof.
  assert (Hh : Py.strip "NAME                 ID              SIZE      MODIFIED"
               ≠ "") by (vm_compute; discriminate).
  assert (Hrows : Forall row_ok
            [("llama3.2:3b", "        a80c4f17acd5    2.0 GB    2 days ago");
             ("llava-phi3:latest", "  c7edd7b87593    2.9 GB    2 days ago")]).
  { repeat apply Forall_cons_2; [| |apply Forall_nil_2];
      (split_and!; [discriminate | reflexivity | reflexivity]). }
  pose proof (missing_models_are_pulled sample_pull_fails ∅ _ _ Hh eq_refl Hrows)
    as Hp.
  exact Hp.
Defined.

(** A line of two blanks in the list: the check gives up. *)
Lemma unreadable_list_pulls_nothing_witness :
  "  " ∈ drop 1 (split Py.nl (Py.strip ("NAME ID" +:+ Py.nl +:+ "  " +:+ Py.nl
                                        +:+ "llama3.2:3b a80c4f17acd5")))
  ∧ check_and_pull_models
      (inr ("NAME ID" +:+ Py.nl +:+ "  " +:+ Py.nl +:+ "llama3.2:3b a80c4f17acd5"))
      sample_pull_fails ∅
    = [McPrint "[model_check] Could not check Ollama models. Is Ollama running and in your PATH?"].
Proof.
  assert (Hin : "  " ∈ drop 1 (split Py.nl
                   (Py.strip ("NAME ID" +:+ Py.nl +:+ "  " +:+ Py.nl
                              +:+ "llama3.2:3b a80c4f17acd5")))).
  { vm_compute. apply list_elem_of_here. }
  split; [exact Hin|].
  apply unreadable_list_pulls_nothing. right.
  exists ("NAME ID" +:+ Py.nl +:+ "  " +:+ Py.nl +:+ "llama3.2:3b a80c4f17acd5"), "  ".
  split_and!; [reflexivity | exact Hin | discriminate | reflexivity].
Defined.
